(** * Verification of the update payload checker
       (scripts/update_payload/checker.py)

    The checker is embedded shallowly: Python integers are [Z], Python 2
    byte strings are [string], optional protobuf fields are [option],
    dictionaries are [gmap], the block counter arrays are lists updated by
    index, and exceptions are an explicit error type.  Functions that may
    add to a report thread the report through a state-and-exception monad
    whose state survives a raised exception (the report is dumped in the
    [finally] clause of [Run]). *)

From Stdlib Require Import ZArith Lia.
From stdpp Require Import base option list gmap strings pretty.

Open Scope Z_scope.

(** ** Exceptions *)

(** The argument tuple of a [%]-formatted message. *)
Inductive fmt_arg :=
| AStr (s : string)
| AInt (z : Z)
| ANone.

(** [PayloadError fmt args] stands for [PayloadError(fmt % args)]; the other
    constructors are the built-in exceptions that the checker's statements
    can raise.  [Diverged] is not a Python exception: it marks a loop of the
    model that used up its iteration bound, and is shown never to occur. *)
Inductive exn :=
| PayloadError (fmt : string) (args : list fmt_arg)
| TypeError
| IndexError
| OverflowError
| KeyError
| AttributeError
| ZeroDivisionError
| AssertionError
| Diverged.

Definition is_PayloadError (e : exn) : bool :=
  match e with
  | PayloadError _ _ => true
  | _ => false
  end.

Inductive result (A : Type) :=
| Ok (a : A)
| Raise (e : exn).
Arguments Ok {A} a.
Arguments Raise {A} e.

Definition rbind {A B} (m : result A) (k : A → result B) : result B :=
  match m with
  | Ok a => k a
  | Raise e => Raise e
  end.

Declare Scope res_scope.
Delimit Scope res_scope with res.
Notation "x <- m ;; k" := (rbind m (fun x => k))
  (at level 100, m at next level, right associativity) : res_scope.
Notation "m ;; k" := (rbind m (fun _ => k))
  (at level 100, right associativity) : res_scope.

(** [if cond: raise e] *)
Definition raise_if (cond : bool) (e : exn) : result unit :=
  if cond then Raise e else Ok tt.

(** ** Python values *)

(** Truth value of an optional integer ([None] and [0] are false). *)
Definition truthy_Z (v : option Z) : bool :=
  match v with
  | Some z => negb (z =? 0)
  | None => false
  end.

(** Truth value of an optional string ([None] and the empty string are
    false). *)
Definition truthy_str (v : option string) : bool :=
  match v with
  | Some s => negb (bool_decide (s = EmptyString))
  | None => false
  end.

(** [a / b] on Python 2 integers: floor division. *)
Definition py_floordiv (a b : Z) : result Z :=
  if b =? 0 then Raise ZeroDivisionError else Ok (a / b).

(** [fmt_opt v] is the argument that a possibly-[None] integer contributes
    to a format tuple. *)
Definition fmt_opt (v : option Z) : fmt_arg :=
  match v with
  | Some z => AInt z
  | None => ANone
  end.

(** ** String helpers used by the report generator *)

Definition nl : string := String (Ascii.ascii_of_nat 10) EmptyString.

Fixpoint spaces (n : nat) : string :=
  match n with
  | O => EmptyString
  | S n' => String (Ascii.ascii_of_nat 32) (spaces n')
  end.

(** ['%*s%s' % (indent, '', line)] *)
Definition pad_indent (indent : Z) (line : string) : string :=
  spaces (Z.to_nat (Z.abs indent)) +:+ line.

(** [s.ljust(width)] *)
Definition ljust (s : string) (width : Z) : string :=
  s +:+ spaces (Z.to_nat width - String.length s)%nat.

(** [s.split('\n')] *)
Fixpoint split_nl_go (cur : string) (s : string) : list string :=
  match s with
  | EmptyString => [String.rev cur]
  | String c s' =>
      if bool_decide (c = Ascii.ascii_of_nat 10)
      then String.rev cur :: split_nl_go EmptyString s'
      else split_nl_go (String c cur) s'
  end.
Definition split_nl (s : string) : list string := split_nl_go EmptyString s.

(** [s.splitlines()] on a byte string: lines end at [\n], [\r] or [\r\n],
    and a final line break does not open an empty line. *)
Fixpoint splitlines_go (cur : string) (s : string) : list string :=
  match s with
  | EmptyString =>
      match cur with
      | EmptyString => []
      | _ => [String.rev cur]
      end
  | String c s' =>
      if bool_decide (c = Ascii.ascii_of_nat 10)
      then String.rev cur :: splitlines_go EmptyString s'
      else if bool_decide (c = Ascii.ascii_of_nat 13)
      then match s' with
           | String c' s'' =>
               if bool_decide (c' = Ascii.ascii_of_nat 10)
               then String.rev cur :: splitlines_go EmptyString s''
               else String.rev cur :: splitlines_go EmptyString s'
           | EmptyString => [String.rev cur]
           end
      else splitlines_go (String c cur) s'
  end.
Definition splitlines (s : string) : list string := splitlines_go EmptyString s.

(** [sep.join(l)] *)
Fixpoint join (sep : string) (l : list string) : string :=
  match l with
  | [] => EmptyString
  | [x] => x
  | x :: l' => x +:+ sep +:+ join sep l'
  end.

(** ** Payload report generator ([_PayloadReport]) *)

(** A report is a sequence of nodes.  A section node carries its
    [max_field_name_len]; a sub-report node owns a nested report.  The
    untitled global section of a report is kept as [global_len], the only
    attribute of it that is ever read or written. *)
Inductive Node :=
| FieldNode (name : option string) (value : string) (linebreak : bool)
            (indent : Z)
| SubReportNode (title : string) (report : Report)
| SectionNode (title : option string) (max_field_name_len : Z)
with Report :=
| mkReport (nodes : list Node) (global_len : Z) (is_finalized : bool).

Definition report_nodes (r : Report) : list Node :=
  match r with mkReport ns _ _ => ns end.
Definition global_len (r : Report) : Z :=
  match r with mkReport _ g _ => g end.
Definition is_finalized (r : Report) : bool :=
  match r with mkReport _ _ f => f end.

(** [_PayloadReport.__init__] *)
Definition Report_init : Report := mkReport [] 0 false.

(** [Node._Indent] *)
Definition _Indent (indent : Z) (line : string) : string :=
  pad_indent indent line.

(** [FieldNode.GenerateLines]; [value_lines[0]] raises [IndexError] when the
    value has no line at all. *)
Definition FieldNode_GenerateLines (name : option string) (value : string)
    (linebreak : bool) (indent : Z) (base_indent : Z) (curr_len : Z)
  : result (list string) :=
  let name_s := default EmptyString name in
  let report_output :=
    if truthy_str name then ljust name_s curr_len +:+ " :" else EmptyString in
  let value_lines := splitlines value in
  (report_output <-
     (if linebreak && truthy_str name
      then Ok (report_output +:+ nl +:+
               join nl (map (pad_indent indent) value_lines))
      else
        let report_output :=
          if truthy_str name then report_output +:+ " " else report_output in
        let report_output := report_output +:+ pad_indent indent EmptyString in
        let cont_line_indent := Z.of_nat (String.length report_output) in
        match value_lines with
        | [] => Raise IndexError
        | first :: others =>
            Ok (report_output +:+
                join nl (first :: map (pad_indent cont_line_indent) others))
        end) ;;
   Ok (map (fun line => _Indent base_indent (line +:+ nl))
           (split_nl report_output)))%res.

(** [SectionNode.GenerateLines] (the new current section is the node). *)
Definition SectionNode_GenerateLines (title : option string)
    (base_indent : Z) : list string :=
  if truthy_str title
  then [_Indent base_indent
          ("=== " +:+ default EmptyString title +:+ " ===" +:+ nl)]
  else [].

(** [_PayloadReport.GenerateLines], with [SubReportNode.GenerateLines]
    inlined at the recursive call. *)
Fixpoint GenerateLines (r : Report) (base_indent sub_indent : Z)
  : result (list string) :=
  match r with
  | mkReport nodes glen _ =>
      (fix go (ns : list Node) (curr_len : Z) : result (list string) :=
         match ns with
         | [] => Ok []
         | node :: ns' =>
             match node with
             | FieldNode name value linebreak indent =>
                 (ls <- FieldNode_GenerateLines name value linebreak indent
                          base_indent curr_len ;;
                  rest <- go ns' curr_len ;;
                  Ok (ls ++ rest))%res
             | SubReportNode title sub =>
                 (ls <- GenerateLines sub (base_indent + sub_indent)
                          sub_indent ;;
                  rest <- go ns' curr_len ;;
                  Ok (_Indent base_indent (title +:+ " =>" +:+ nl)
                        :: ls ++ rest))%res
             | SectionNode title len =>
                 (rest <- go ns' len ;;
                  Ok (SectionNode_GenerateLines title base_indent ++ rest))%res
             end
         end) nodes glen
  end.

Definition incomplete_marker : string := "(incomplete report)" +:+ nl.

(** [_PayloadReport.Dump]: the lines written to [out_file]. *)
Definition Dump (r : Report) (base_indent sub_indent : Z)
  : result (list string) :=
  (report_lines <- GenerateLines r base_indent sub_indent ;;
   let report_lines :=
     if negb (bool_decide (report_lines = [])) && negb (is_finalized r)
     then report_lines ++ [incomplete_marker]
     else report_lines in
   Ok report_lines)%res.

(** [self.last_section.max_field_name_len] is the attribute of the last
    section node of the report, or of the global section when no section
    was added. *)
Fixpoint last_section_len (ns : list Node) (glen : Z) : Z :=
  match ns with
  | [] => glen
  | SectionNode _ len :: ns' => last_section_len ns' len
  | _ :: ns' => last_section_len ns' glen
  end.

Fixpoint has_section (ns : list Node) : bool :=
  match ns with
  | [] => false
  | SectionNode _ _ :: _ => true
  | _ :: ns' => has_section ns'
  end.

(** Assignment to the last section node's [max_field_name_len]. *)
Fixpoint set_last_section_len (ns : list Node) (len : Z) : list Node :=
  match ns with
  | [] => []
  | SectionNode t l :: ns' =>
      if has_section ns' then SectionNode t l :: set_last_section_len ns' len
      else SectionNode t len :: ns'
  | n :: ns' => n :: set_last_section_len ns' len
  end.

(** [_PayloadReport.AddField] *)
Definition AddField (name : option string) (value : string)
    (linebreak : bool) (indent : Z) (r : Report) : result Report :=
  match r with
  | mkReport ns glen fin =>
      if fin then Raise AssertionError
      else
        let name_len := Z.of_nat (String.length (default EmptyString name)) in
        let grow :=
          truthy_str name && (last_section_len ns glen <? name_len) in
        let ns1 :=
          if grow && has_section ns then set_last_section_len ns name_len
          else ns in
        let glen1 := if grow && negb (has_section ns) then name_len else glen in
        Ok (mkReport (ns1 ++ [FieldNode name value linebreak indent]) glen1 fin)
  end.

(** [_PayloadReport.AddSubReport]: the returned sub-report is designated by
    the position of its node in the parent. *)
Definition AddSubReport (title : string) (r : Report) : result (nat * Report) :=
  match r with
  | mkReport ns glen fin =>
      if fin then Raise AssertionError
      else Ok (length ns,
               mkReport (ns ++ [SubReportNode title Report_init]) glen fin)
  end.

(** [_PayloadReport.AddSection] *)
Definition AddSection (title : option string) (r : Report) : result Report :=
  match r with
  | mkReport ns glen fin =>
      if fin then Raise AssertionError
      else Ok (mkReport (ns ++ [SectionNode title 0]) glen fin)
  end.

(** [_PayloadReport.Finalize] *)
Definition Finalize (r : Report) : Report :=
  match r with
  | mkReport ns glen _ => mkReport ns glen true
  end.

(** ** The report-threading monad *)

(** A computation receives the root report and returns its result with the
    report as it was left, also when an exception was raised. *)
Definition M (A : Type) : Type := Report → result A * Report.

Definition Mret {A} (a : A) : M A := fun r => (Ok a, r).
Definition Mraise {A} (e : exn) : M A := fun r => (Raise e, r).
Definition Mbind {A B} (m : M A) (k : A → M B) : M B :=
  fun r =>
    match m r with
    | (Ok a, r') => k a r'
    | (Raise e, r') => (Raise e, r')
    end.
Definition Mlift {A} (m : result A) : M A := fun r => (m, r).

Declare Scope M_scope.
Delimit Scope M_scope with M.
Notation "x <- m ;; k" := (Mbind m (fun x => k))
  (at level 100, m at next level, right associativity) : M_scope.
Notation "m ;; k" := (Mbind m (fun _ => k))
  (at level 100, right associativity) : M_scope.

(** [if cond: raise e] *)
Definition Mraise_if (cond : bool) (e : exn) : M unit :=
  if cond then Mraise e else Mret tt.

(** A report object reachable from the root: the positions of the enclosing
    sub-report nodes, outermost first ([[]] is the root itself). *)
Definition report_ref := list nat.

(** Applies an update to the report designated by a reference. *)
Fixpoint at_report {A} (p : report_ref) (f : Report → result (A * Report))
    (r : Report) : result (A * Report) :=
  match p with
  | [] => f r
  | i :: p' =>
      match r with
      | mkReport ns glen fin =>
          match ns !! i with
          | Some (SubReportNode title sub) =>
              match at_report p' f sub with
              | Ok (a, sub') =>
                  Ok (a, mkReport (<[i := SubReportNode title sub']> ns)
                                  glen fin)
              | Raise e => Raise e
              end
          | _ => Raise AssertionError
          end
      end
  end.

Definition on_report {A} (p : report_ref) (f : Report → result (A * Report))
  : M A :=
  fun root =>
    match at_report p f root with
    | Ok (a, root') => (Ok a, root')
    | Raise e => (Raise e, root)
    end.

(** [report.AddField(name, value, linebreak, indent)] *)
Definition report_AddField (report : report_ref) (name : option string)
    (value : string) (linebreak : bool) (indent : Z) : M unit :=
  on_report report
    (fun r => r' <- AddField name value linebreak indent r ;; Ok (tt, r'))%res.

(** [report.AddSubReport(title)] *)
Definition report_AddSubReport (report : report_ref) (title : string)
  : M report_ref :=
  on_report report
    (fun r => ir <- AddSubReport title r ;;
              Ok (report ++ [ir.1], ir.2))%res.

(** [report.AddSection(title)] *)
Definition report_AddSection (report : report_ref) (title : string) : M unit :=
  on_report report (fun r => r' <- AddSection (Some title) r ;; Ok (tt, r'))%res.

(** [report.Finalize()] *)
Definition report_Finalize (report : report_ref) : M unit :=
  on_report report (fun r => Ok (tt, Finalize r)).

(** ** Payload data model (the parsed protobuf messages)

    An optional field is [None] when [HasField] is false. *)

Record Extent := {
  start_block : option Z;
  num_blocks : option Z;
}.

(** The [type] enumeration of an install operation; [OpType_other] stands
    for any value outside of the four known kinds. *)
Inductive OpType :=
| REPLACE
| REPLACE_BZ
| MOVE
| BSDIFF
| OpType_other (n : Z).

Global Instance OpType_eq_dec : EqDecision OpType.
Proof. solve_decision. Defined.

Definition OpType_encode (t : OpType) : nat + Z :=
  match t with
  | REPLACE => inl 0%nat
  | REPLACE_BZ => inl 1%nat
  | MOVE => inl 2%nat
  | BSDIFF => inl 3%nat
  | OpType_other n => inr n
  end.

Definition OpType_decode (c : nat + Z) : OpType :=
  match c with
  | inl 0%nat => REPLACE
  | inl 1%nat => REPLACE_BZ
  | inl 2%nat => MOVE
  | inl _ => BSDIFF
  | inr n => OpType_other n
  end.

Global Instance OpType_countable : Countable OpType :=
  inj_countable' OpType_encode OpType_decode
    (fun t => match t with
              | REPLACE | REPLACE_BZ | MOVE | BSDIFF | OpType_other _ => eq_refl
              end).

Record InstallOperation := {
  type : OpType;
  src_extents : list Extent;
  dst_extents : list Extent;
  src_length : option Z;
  dst_length : option Z;
  data_offset : option Z;
  data_length : option Z;
  data_sha256_hash : option string;
}.

Record PartitionInfo := {
  size : option Z;
  hash : option string;
}.

Module Manifest.
Record t := {
  block_size : option Z;
  signatures_offset : option Z;
  signatures_size : option Z;
  old_kernel_info : option PartitionInfo;
  old_rootfs_info : option PartitionInfo;
  new_kernel_info : option PartitionInfo;
  new_rootfs_info : option PartitionInfo;
  install_operations : list InstallOperation;
  kernel_install_operations : list InstallOperation;
}.
End Manifest.

Module Header.
Record t := {
  version : Z;
  manifest_len : Z;
}.
End Header.

Module Signature.
Record t := {
  version : option Z;
  data : option string;
}.
End Signature.

(** The payload object handed to the checker.  [manifest_hasher] is the
    byte string fed so far to the running hash; [payload_file] is the
    content of the payload file. *)
Module Payload.
Record t := {
  is_init : bool;
  header : Header.t;
  manifest : Manifest.t;
  manifest_hasher : string;
  data_offset : Z;
  payload_file : string;
}.
End Payload.

(** Value of a scalar field read by attribute access: the default [0] when
    the field is not set. *)
Definition getattr_Z (field : option Z) : Z := default 0 field.

(** ** External collaborators

    The payload parser ([common], [payload]), the hash and base64 modules,
    the histogram and number formatters and the RSA verification process are
    not part of the checker; they are taken as an interface. *)
Class Externals := {
  (** [common.PSEUDO_EXTENT_MARKER] *)
  PSEUDO_EXTENT_MARKER : Z;
  (** [common.SIG_ASN1_HEADER] *)
  SIG_ASN1_HEADER : string;
  (** [hashlib.sha256(data).digest()] *)
  sha256 : string → string;
  (** [base64.b64decode] *)
  b64decode : string → result string;
  (** [PayloadChecker._Run(cmd, send_data)]: stdout and stderr of the
      subprocess *)
  _Run : list string → string → string * string;
  (** [payload.ReadDataBlob(offset, length)] *)
  ReadDataBlob : Payload.t → Z → Z → result string;
  (** [common.Read(file_obj, length, offset=offset)] *)
  Read : string → Z → Z → result string;
  (** [Signatures().ParseFromString(raw).signatures] *)
  ParseSignatures : string → result (list Signature.t);
  (** [common.FormatSha256], [common.FormatExtent] *)
  FormatSha256 : string → string;
  FormatExtent : Extent → Z → string;
  (** [format_utils.BytesToHumanReadable] *)
  BytesToHumanReadable : Z → string;
  (** the name that [common.ExtentIter], [OperationIter] and [SignatureIter]
      give to the item at a position of a sequence called [base_name] *)
  item_name : string → nat → string;
  (** [str] of the histograms added to the report *)
  str_op_histogram : gmap OpType Z → option (Z → string) → string;
  str_blob_histogram : gmap string Z → string;
  str_block_histogram : gmap Z Z → string;
}.

(** ** Constants / helper functions *)

Definition _CHECK_DST_PSEUDO_EXTENTS : string := "dst-pseudo-extents".
Definition _CHECK_MOVE_SAME_SRC_DST_BLOCK : string := "move-same-src-dst-block".
Definition _CHECK_PAYLOAD_SIG : string := "payload-sig".

Definition _TYPE_FULL : string := "full".
Definition _TYPE_DELTA : string := "delta".

Definition _DEFAULT_BLOCK_SIZE : Z := 4096.

Definition _IsPowerOfTwo (val : Z) : bool :=
  (0 <? val) && (Z.land val (val - 1) =? 0).

(** [len(s)] *)
Definition len (s : string) : Z := Z.of_nat (String.length s).

(** [s.startswith(p)] *)
Fixpoint startswith (s p : string) {struct p} : bool :=
  match p with
  | EmptyString => true
  | String c p' =>
      match s with
      | String d s' => bool_decide (c = d) && startswith s' p'
      | EmptyString => false
      end
  end.

(** [s[n:]] for a non-negative [n] *)
Fixpoint str_from (n : nat) (s : string) : string :=
  match n, s with
  | O, _ => s
  | S n', String _ s' => str_from n' s'
  | S _, EmptyString => EmptyString
  end.

(** ** Payload verification ([PayloadChecker]) *)

Record PayloadChecker := {
  payload : Payload.t;
  block_size : Z;
  payload_type : option string;
  allow_unhashed : bool;
  check_dst_pseudo_extents : bool;
  check_move_same_src_dst_block : bool;
  check_payload_sig : bool;
  sigs_offset : option Z;
  sigs_size : option Z;
  old_rootfs_fs_size : Z;
  old_kernel_fs_size : Z;
  new_rootfs_fs_size : Z;
  new_kernel_fs_size : Z;
}.

(** Attribute assignments on [self]. *)
Definition set_sigs (so ss : option Z) (c : PayloadChecker) : PayloadChecker :=
  {| payload := payload c; block_size := block_size c;
     payload_type := payload_type c; allow_unhashed := allow_unhashed c;
     check_dst_pseudo_extents := check_dst_pseudo_extents c;
     check_move_same_src_dst_block := check_move_same_src_dst_block c;
     check_payload_sig := check_payload_sig c;
     sigs_offset := so; sigs_size := ss;
     old_rootfs_fs_size := old_rootfs_fs_size c;
     old_kernel_fs_size := old_kernel_fs_size c;
     new_rootfs_fs_size := new_rootfs_fs_size c;
     new_kernel_fs_size := new_kernel_fs_size c |}.

Definition set_payload_type (t : string) (c : PayloadChecker) : PayloadChecker :=
  {| payload := payload c; block_size := block_size c;
     payload_type := Some t; allow_unhashed := allow_unhashed c;
     check_dst_pseudo_extents := check_dst_pseudo_extents c;
     check_move_same_src_dst_block := check_move_same_src_dst_block c;
     check_payload_sig := check_payload_sig c;
     sigs_offset := sigs_offset c; sigs_size := sigs_size c;
     old_rootfs_fs_size := old_rootfs_fs_size c;
     old_kernel_fs_size := old_kernel_fs_size c;
     new_rootfs_fs_size := new_rootfs_fs_size c;
     new_kernel_fs_size := new_kernel_fs_size c |}.

Definition set_old_sizes (kernel rootfs : Z) (c : PayloadChecker)
  : PayloadChecker :=
  {| payload := payload c; block_size := block_size c;
     payload_type := payload_type c; allow_unhashed := allow_unhashed c;
     check_dst_pseudo_extents := check_dst_pseudo_extents c;
     check_move_same_src_dst_block := check_move_same_src_dst_block c;
     check_payload_sig := check_payload_sig c;
     sigs_offset := sigs_offset c; sigs_size := sigs_size c;
     old_rootfs_fs_size := rootfs;
     old_kernel_fs_size := kernel;
     new_rootfs_fs_size := new_rootfs_fs_size c;
     new_kernel_fs_size := new_kernel_fs_size c |}.

Definition set_new_sizes (kernel rootfs : Z) (c : PayloadChecker)
  : PayloadChecker :=
  {| payload := payload c; block_size := block_size c;
     payload_type := payload_type c; allow_unhashed := allow_unhashed c;
     check_dst_pseudo_extents := check_dst_pseudo_extents c;
     check_move_same_src_dst_block := check_move_same_src_dst_block c;
     check_payload_sig := check_payload_sig c;
     sigs_offset := sigs_offset c; sigs_size := sigs_size c;
     old_rootfs_fs_size := old_rootfs_fs_size c;
     old_kernel_fs_size := old_kernel_fs_size c;
     new_rootfs_fs_size := rootfs;
     new_kernel_fs_size := kernel |}.

(** [PayloadChecker.__init__] *)
Definition PayloadChecker_init (payload : Payload.t)
    (assert_type : option string) (block_size : Z) (allow_unhashed : bool)
    (disabled_tests : list string) : result PayloadChecker :=
  (raise_if (negb (Payload.is_init payload)) AssertionError ;;
   let block_size :=
     if negb (block_size =? 0) then block_size else _DEFAULT_BLOCK_SIZE in
   raise_if (negb (_IsPowerOfTwo block_size))
     (PayloadError "expected block (%d) size is not a power of two"
                   [AInt block_size]) ;;
   raise_if (negb (bool_decide
                     (assert_type ∈ [None; Some _TYPE_FULL; Some _TYPE_DELTA])))
     (PayloadError "invalid assert_type value (`%s')"
                   [AStr (default EmptyString assert_type)]) ;;
   Ok {| payload := payload; block_size := block_size;
         payload_type := assert_type; allow_unhashed := allow_unhashed;
         check_dst_pseudo_extents :=
           negb (bool_decide (_CHECK_DST_PSEUDO_EXTENTS ∈ disabled_tests));
         check_move_same_src_dst_block :=
           negb (bool_decide
                   (_CHECK_MOVE_SAME_SRC_DST_BLOCK ∈ disabled_tests));
         check_payload_sig :=
           negb (bool_decide (_CHECK_PAYLOAD_SIG ∈ disabled_tests));
         sigs_offset := Some 0; sigs_size := Some 0;
         old_rootfs_fs_size := 0; old_kernel_fs_size := 0;
         new_rootfs_fs_size := 0; new_kernel_fs_size := 0 |})%res.

(** [_CheckElem]: [field] is the element [name] of the message ([None] when
    [HasField(name)] is false).  Returns the element value and the
    sub-report generated for it. *)
Definition _CheckElem {V} (field : option V) (name : string)
    (report : option report_ref) (is_mandatory is_submsg : bool)
    (convert : V → string) (msg_name : option string) (linebreak : bool)
    (indent : Z) : M (option V * option report_ref) :=
  match field with
  | None =>
      if is_mandatory
      then Mraise
             (PayloadError "%smissing mandatory %s '%s'"
                [AStr (if truthy_str msg_name
                       then default EmptyString msg_name +:+ " "
                       else EmptyString);
                 AStr (if is_submsg then "sub-message" else "field");
                 AStr name])
      else Mret (None, None)
  | Some value =>
      if is_submsg
      then match report with
           | Some rep =>
               (sub <- report_AddSubReport rep name ;;
                Mret (Some value, Some sub))%M
           | None => Mret (Some value, None)
           end
      else
        ((match report with
          | Some rep =>
              report_AddField rep (Some name) (convert value) linebreak indent
          | None => Mret tt
          end) ;;
         Mret (Some value, None))%M
  end.

(** The value of an element that was checked as mandatory; a [None] here
    would fail at its first use as a number or message. *)
Definition the_value {V} (v : option V) : M V :=
  match v with
  | Some x => Mret x
  | None => Mraise TypeError
  end.

(** [_CheckMandatoryField] *)
Definition _CheckMandatoryField {V} (field : option V) (field_name : string)
    (report : option report_ref) (msg_name : option string)
    (convert : V → string) (linebreak : bool) (indent : Z) : M V :=
  (r <- _CheckElem field field_name report true false convert msg_name
          linebreak indent ;;
   the_value r.1)%M.

(** [_CheckOptionalField] *)
Definition _CheckOptionalField {V} (field : option V) (field_name : string)
    (report : option report_ref) (convert : V → string) (linebreak : bool)
    (indent : Z) : M (option V) :=
  (r <- _CheckElem field field_name report false false convert None
          linebreak indent ;;
   Mret r.1)%M.

(** [_CheckMandatorySubMsg]; the message name is passed in the position of
    [convert], so [_CheckElem] runs with [msg_name=None]. *)
Definition _CheckMandatorySubMsg {V} (field : option V) (submsg_name : string)
    (report : option report_ref) (msg_name : option string)
  : M (V * option report_ref) :=
  (r <- _CheckElem field submsg_name report true true
          (fun _ => default EmptyString msg_name) None false 0 ;;
   v <- the_value r.1 ;;
   Mret (v, r.2))%M.

(** [_CheckOptionalSubMsg] *)
Definition _CheckOptionalSubMsg {V} (field : option V) (submsg_name : string)
    (report : option report_ref) : M (option V * option report_ref) :=
  _CheckElem field submsg_name report false true (fun _ => EmptyString) None
    false 0.

(** [_CheckPresentIff]: [val1 is not val2] is evaluated only when one of the
    two is [None], where it says that the other is not. *)
Definition _CheckPresentIff {A B} (val1 : option A) (val2 : option B)
    (name1 name2 : string) (obj_name : option string) : result unit :=
  if (negb (bool_decide (is_Some val1)) || negb (bool_decide (is_Some val2)))
     && negb (negb (bool_decide (is_Some val1))
              && negb (bool_decide (is_Some val2)))
  then
    let '(present, missing) :=
      if negb (bool_decide (is_Some val2)) then (name1, name2)
      else (name2, name1) in
    Raise (PayloadError "'%s' present without '%s'%s"
             [AStr present; AStr missing;
              AStr (if truthy_str obj_name
                    then " in " +:+ default EmptyString obj_name
                    else EmptyString)])
  else Ok tt.

(** [_CheckBlocksFitLength] *)
Definition _CheckBlocksFitLength (length num_blocks block_size : Z)
    (length_name : string) (block_name : option string) : result unit :=
  let block_name_s :=
    if truthy_str block_name then default EmptyString block_name
    else EmptyString in
  (raise_if (num_blocks * block_size <? length)
     (PayloadError "%s (%d) > num %sblocks (%d) * block_size (%d)"
        [AStr length_name; AInt length; AStr block_name_s; AInt num_blocks;
         AInt block_size]) ;;
   raise_if (length <=? (num_blocks - 1) * block_size)
     (PayloadError "%s (%d) <= (num %sblocks - 1 (%d)) * block_size (%d)"
        [AStr length_name; AInt length; AStr block_name_s;
         AInt (num_blocks - 1); AInt block_size]))%res.

Section Checker.
Context `{Externals}.

(** [_CheckSha256Signature] *)
Definition _CheckSha256Signature (sig_data pubkey_file_name actual_hash
    sig_name : string) : result unit :=
  (raise_if (negb (len sig_data =? 256))
     (PayloadError "%s: signature size (%d) not as expected (256)"
        [AStr sig_name; AInt (len sig_data)]) ;;
   let signed_data :=
     (_Run ["openssl"; "rsautl"; "-verify"; "-pubin"; "-inkey";
            pubkey_file_name] sig_data).1 in
   raise_if (negb (len signed_data =? len SIG_ASN1_HEADER + 32))
     (PayloadError "%s: unexpected signed data length (%d)"
        [AStr sig_name; AInt (len signed_data)]) ;;
   raise_if (negb (startswith signed_data SIG_ASN1_HEADER))
     (PayloadError "%s: not containing standard ASN.1 prefix"
        [AStr sig_name]) ;;
   let signed_hash := str_from (String.length SIG_ASN1_HEADER) signed_data in
   raise_if (negb (bool_decide (signed_hash = actual_hash)))
     (PayloadError "%s: signed hash (%s) different from actual (%s)"
        [AStr sig_name; AStr (FormatSha256 signed_hash);
         AStr (FormatSha256 actual_hash)]))%res.

(** [_CheckManifest]; returns [self] with the attributes it assigned. *)
Definition _CheckManifest (self : PayloadChecker) (report : report_ref)
    (rootfs_part_size kernel_part_size : Z) : M PayloadChecker :=
  let manifest := Payload.manifest (payload self) in
  (report_AddSection report "manifest" ;;
   actual_block_size <-
     _CheckMandatoryField (Manifest.block_size manifest) "block_size"
       (Some report) (Some "manifest") pretty false 0 ;;
   Mraise_if (negb (actual_block_size =? block_size self))
     (PayloadError "block_size (%d) not as expected (%d)"
        [AInt actual_block_size; AInt (block_size self)]) ;;
   so <- _CheckOptionalField (Manifest.signatures_offset manifest)
           "signatures_offset" (Some report) pretty false 0 ;;
   ss <- _CheckOptionalField (Manifest.signatures_size manifest)
           "signatures_size" (Some report) pretty false 0 ;;
   let self := set_sigs so ss self in
   Mlift (_CheckPresentIff so ss "signatures_offset" "signatures_size"
            (Some "manifest")) ;;
   oki <- _CheckOptionalSubMsg (Manifest.old_kernel_info manifest)
            "old_kernel_info" (Some report) ;;
   ori <- _CheckOptionalSubMsg (Manifest.old_rootfs_info manifest)
            "old_rootfs_info" (Some report) ;;
   Mlift (_CheckPresentIff oki.1 ori.1 "old_kernel_info" "old_rootfs_info"
            (Some "manifest")) ;;
   self <-
     match oki.1 with
     | Some oki_msg =>
         Mraise_if (bool_decide (payload_type self = Some _TYPE_FULL))
           (PayloadError
              "apparent full payload contains old_{kernel,rootfs}_info" []) ;;
         let self := set_payload_type _TYPE_DELTA self in
         old_kernel <-
           _CheckMandatoryField (size oki_msg) "size" oki.2
             (Some "old_kernel_info") pretty false 0 ;;
         _CheckMandatoryField (hash oki_msg) "hash" oki.2
           (Some "old_kernel_info") FormatSha256 false 0 ;;
         match ori.1 with
         | None => Mraise AttributeError
         | Some ori_msg =>
             old_rootfs <-
               _CheckMandatoryField (size ori_msg) "size" ori.2
                 (Some "old_rootfs_info") pretty false 0 ;;
             _CheckMandatoryField (hash ori_msg) "hash" ori.2
               (Some "old_rootfs_info") FormatSha256 false 0 ;;
             let self := set_old_sizes old_kernel old_rootfs self in
             Mraise_if (negb (kernel_part_size =? 0)
                        && (kernel_part_size <? old_kernel_fs_size self))
               (PayloadError
                  "old kernel content (%d) exceed partition size (%d)"
                  [AInt (old_kernel_fs_size self); AInt kernel_part_size]) ;;
             Mraise_if (negb (rootfs_part_size =? 0)
                        && (rootfs_part_size <? old_rootfs_fs_size self))
               (PayloadError
                  "old rootfs content (%d) exceed partition size (%d)"
                  [AInt (old_rootfs_fs_size self); AInt rootfs_part_size]) ;;
             Mret self
         end
     | None =>
         Mraise_if (bool_decide (payload_type self = Some _TYPE_DELTA))
           (PayloadError
              "apparent delta payload missing old_{kernel,rootfs}_info" []) ;;
         Mret (set_payload_type _TYPE_FULL self)
     end ;;
   nki <- _CheckMandatorySubMsg (Manifest.new_kernel_info manifest)
            "new_kernel_info" (Some report) (Some "manifest") ;;
   new_kernel <-
     _CheckMandatoryField (size nki.1) "size" nki.2 (Some "new_kernel_info")
       pretty false 0 ;;
   _CheckMandatoryField (hash nki.1) "hash" nki.2 (Some "new_kernel_info")
     FormatSha256 false 0 ;;
   nri <- _CheckMandatorySubMsg (Manifest.new_rootfs_info manifest)
            "new_rootfs_info" (Some report) (Some "manifest") ;;
   new_rootfs <-
     _CheckMandatoryField (size nri.1) "size" nri.2 (Some "new_rootfs_info")
       pretty false 0 ;;
   _CheckMandatoryField (hash nri.1) "hash" nri.2 (Some "new_rootfs_info")
     FormatSha256 false 0 ;;
   let self := set_new_sizes new_kernel new_rootfs self in
   Mraise_if (negb (kernel_part_size =? 0)
              && (kernel_part_size <? new_kernel_fs_size self))
     (PayloadError "new kernel content (%d) exceed partition size (%d)"
        [AInt (new_kernel_fs_size self); AInt kernel_part_size]) ;;
   Mraise_if (negb (rootfs_part_size =? 0)
              && (rootfs_part_size <? new_rootfs_fs_size self))
     (PayloadError "new rootfs content (%d) exceed partition size (%d)"
        [AInt (new_rootfs_fs_size self); AInt rootfs_part_size]) ;;
   Mraise_if (negb (negb (bool_decide (Manifest.install_operations manifest = []))
                    || negb (bool_decide
                               (Manifest.kernel_install_operations manifest
                                = []))))
     (PayloadError "payload contains no operations" []) ;;
   Mret self)%M.

(** [_CheckLength] *)
Definition _CheckLength (self : PayloadChecker) (length total_blocks : Z)
    (op_name length_name : string) : result unit :=
  (raise_if (length =? 0)
     (PayloadError "%s: %s is zero" [AStr op_name; AStr length_name]) ;;
   _CheckBlocksFitLength length total_blocks (block_size self)
     (op_name +:+ ": " +:+ length_name) None)%res.

(** ** Block counters

    [None], or an [array.array('B', ...)] of unsigned bytes. *)

(** [block_counters[i] += 1] *)
Definition counter_incr (block_counters : option (list Z)) (i : Z)
  : result (option (list Z)) :=
  match block_counters with
  | None => Raise TypeError
  | Some a =>
      let n := Z.of_nat (length a) in
      let j := if i <? 0 then i + n else i in
      if (j <? 0) || (n <=? j) then Raise IndexError
      else
        match a !! Z.to_nat j with
        | Some c =>
            if 255 <=? c then Raise OverflowError
            else Ok (Some (<[Z.to_nat j := c + 1]> a))
        | None => Raise IndexError
        end
  end.

(** The list [[i, i + 1, ..., i + n - 1]]. *)
Fixpoint range_from (n : nat) (i : Z) : list Z :=
  match n with
  | O => []
  | S n' => i :: range_from n' (i + 1)
  end.

(** [range(start, stop)] of Python 2, which builds the whole list before
    the loop over it starts: on a 64-bit build it raises [OverflowError]
    ("range() result has too many items") when the list would have [2^63]
    items or more.  A list that does not fit the memory of the machine
    ([MemoryError]) is outside the model, here as for every other
    allocation. *)
Definition py_range (start stop : Z) : result (list Z) :=
  if 2 ^ 63 <=? stop - start then Raise OverflowError
  else Ok (range_from (Z.to_nat (stop - start)) start).

(** [for i in blocks: block_counters[i] += 1] *)
Fixpoint record_block_usage (blocks : list Z)
    (block_counters : option (list Z)) : result (option (list Z)) :=
  match blocks with
  | [] => Ok block_counters
  | i :: blocks' =>
      (block_counters <- counter_incr block_counters i ;;
       record_block_usage blocks' block_counters)%res
  end.

(** [common.ExtentIter], [common.OperationIter], [common.SignatureIter] *)
Definition ObjNameIter {A} (items : list A) (base_name : string)
  : list (A * string) :=
  imap (fun idx item => (item, item_name base_name idx)) items.

(** The body of the loop of [_CheckExtents] over the named extents that
    are left; [n_extents] is [len(extents)]. *)
Fixpoint _CheckExtents_loop (self : PayloadChecker)
    (items : list (Extent * string)) (n_extents : Z) (usable_size : Z)
    (block_counters : option (list Z)) (allow_pseudo allow_signature : bool)
    (total_num_blocks : Z) : M (Z * option (list Z)) :=
  match items with
  | [] => Mret (total_num_blocks, block_counters)
  | (ex, ex_name) :: items' =>
      (start_block <-
         _CheckMandatoryField (start_block ex) "start_block" None
           (Some ex_name) pretty false 0 ;;
       num_blocks <-
         _CheckMandatoryField (num_blocks ex) "num_blocks" None
           (Some ex_name) pretty false 0 ;;
       let end_block := start_block + num_blocks in
       Mraise_if (num_blocks =? 0)
         (PayloadError "%s: extent length is zero" [AStr ex_name]) ;;
       block_counters <-
         (if negb (start_block =? PSEUDO_EXTENT_MARKER)
          then
            Mraise_if (negb (usable_size =? 0)
                       && (usable_size <? end_block * block_size self))
              (PayloadError
                 "%s: extent (%s) exceeds usable partition size (%d)"
                 [AStr ex_name; AStr (FormatExtent ex (block_size self));
                  AInt usable_size]) ;;
            (* Record block usage. *)
            blocks <- Mlift (py_range start_block end_block) ;;
            Mlift (record_block_usage blocks block_counters)
          else
            Mraise_if (negb (allow_pseudo
                             || (allow_signature && (n_extents =? 1))))
              (PayloadError "%s: unexpected pseudo-extent" [AStr ex_name]) ;;
            Mret block_counters) ;;
       _CheckExtents_loop self items' n_extents usable_size block_counters
         allow_pseudo allow_signature (total_num_blocks + num_blocks))%M
  end.

(** [_CheckExtents]: the total number of blocks, with the block counters as
    the loop left them. *)
Definition _CheckExtents (self : PayloadChecker) (extents : list Extent)
    (usable_size : Z) (block_counters : option (list Z)) (name : string)
    (allow_pseudo allow_signature : bool) : M (Z * option (list Z)) :=
  _CheckExtents_loop self (ObjNameIter extents name)
    (Z.of_nat (length extents)) usable_size block_counters allow_pseudo
    allow_signature 0.

(** [_CheckReplaceOperation] *)
Definition _CheckReplaceOperation (self : PayloadChecker)
    (op : InstallOperation) (data_length : option Z) (total_dst_blocks : Z)
    (op_name : string) : result unit :=
  (raise_if (negb (bool_decide (src_extents op = [])))
     (PayloadError "%s: contains src_extents" [AStr op_name]) ;;
   match data_length with
   | None =>
       Raise (PayloadError "%s: missing data_{offset,length}" [AStr op_name])
   | Some data_length =>
       if bool_decide (type op = REPLACE)
       then _CheckBlocksFitLength data_length total_dst_blocks
              (block_size self) (op_name +:+ ".data_length") (Some "dst")
       else
         raise_if (total_dst_blocks * block_size self <=? data_length)
           (PayloadError
              ("%s: data_length (%d) must be less than allotted dst block "
               +:+ "space (%d * %d)")
              [AStr op_name; AInt data_length; AInt total_dst_blocks;
               AInt (block_size self)])
   end)%res.

(** The [while i < total_src_blocks] loop of [_CheckMoveOperation], run for
    at most [fuel] iterations ([None] when they do not suffice).  Returns
    the values of [src_extent] and [dst_extent] at the exit of the loop. *)
Fixpoint _CheckMoveOperation_loop (fuel : nat) (self : PayloadChecker)
    (total_src_blocks total_dst_blocks : Z) (op_name : string) (i : Z)
    (src_extent_iter dst_extent_iter : list Extent)
    (src_extent dst_extent : option Extent)
    (src_idx src_num dst_idx dst_num : Z)
  : option (result (option Extent * option Extent)) :=
  if negb (i <? total_src_blocks) then Some (Ok (src_extent, dst_extent))
  else
    match fuel with
    | O => None
    | S fuel' =>
        (* Get the next source extent, if needed. *)
        let src_fetch :=
          match src_extent with
          | Some ex => Ok (src_extent_iter, ex, src_idx, src_num)
          | None =>
              match src_extent_iter with
              | [] =>
                  Raise (PayloadError "%s: ran out of src extents (%d/%d)"
                           [AStr op_name; AInt i; AInt total_src_blocks])
              | ex :: rest =>
                  Ok (rest, ex, getattr_Z (start_block ex),
                      getattr_Z (num_blocks ex))
              end
          end in
        match src_fetch with
        | Raise e => Some (Raise e)
        | Ok (src_extent_iter, src_ex, src_idx, src_num) =>
            (* Get the next dest extent, if needed. *)
            let dst_fetch :=
              match dst_extent with
              | Some ex => Ok (dst_extent_iter, ex, dst_idx, dst_num)
              | None =>
                  match dst_extent_iter with
                  | [] =>
                      Raise (PayloadError
                               "%s: ran out of dst extents (%d/%d)"
                               [AStr op_name; AInt i; AInt total_dst_blocks])
                  | ex :: rest =>
                      Ok (rest, ex, getattr_Z (start_block ex),
                          getattr_Z (num_blocks ex))
                  end
              end in
            match dst_fetch with
            | Raise e => Some (Raise e)
            | Ok (dst_extent_iter, dst_ex, dst_idx, dst_num) =>
                if check_move_same_src_dst_block self && (src_idx =? dst_idx)
                then Some (Raise (PayloadError
                                    "%s: src/dst block number %d is the same (%d)"
                                    [AStr op_name; AInt i; AInt src_idx]))
                else
                  let advance := Z.min src_num dst_num in
                  let i := i + advance in
                  let src_idx := src_idx + advance in
                  let src_num := src_num - advance in
                  let src_extent :=
                    if src_num =? 0 then None else Some src_ex in
                  let dst_idx := dst_idx + advance in
                  let dst_num := dst_num - advance in
                  let dst_extent :=
                    if dst_num =? 0 then None else Some dst_ex in
                  _CheckMoveOperation_loop fuel' self total_src_blocks
                    total_dst_blocks op_name i src_extent_iter
                    dst_extent_iter src_extent dst_extent src_idx src_num
                    dst_idx dst_num
            end
        end
    end.

(** [_CheckMoveOperation].  Every iteration of the loop leaves [src_extent]
    or [dst_extent] at [None], so the next one takes an extent from an
    iterator: one more iteration than there are extents always suffices. *)
Definition _CheckMoveOperation (self : PayloadChecker) (op : InstallOperation)
    (data_offset : option Z) (total_src_blocks total_dst_blocks : Z)
    (op_name : string) : result unit :=
  (raise_if (bool_decide (is_Some data_offset))
     (PayloadError "%s: contains data_{offset,length}" [AStr op_name]) ;;
   raise_if (negb (total_src_blocks =? total_dst_blocks))
     (PayloadError "%s: total src blocks (%d) != total dst blocks (%d)"
        [AStr op_name; AInt total_src_blocks; AInt total_dst_blocks]) ;;
   match _CheckMoveOperation_loop
           (S (length (src_extents op) + length (dst_extents op))) self
           total_src_blocks total_dst_blocks op_name 0 (src_extents op)
           (dst_extents op) None None 0 0 0 0 with
   | None => Raise Diverged
   | Some (Raise e) => Raise e
   | Some (Ok (src_extent, dst_extent)) =>
       raise_if (bool_decide (is_Some src_extent))
         (PayloadError "%s: excess src blocks" [AStr op_name]) ;;
       raise_if (bool_decide (is_Some dst_extent))
         (PayloadError "%s: excess dst blocks" [AStr op_name])
   end)%res.

(** [_CheckBsdiffOperation] *)
Definition _CheckBsdiffOperation (self : PayloadChecker)
    (data_length : option Z) (total_dst_blocks : Z) (op_name : string)
  : result unit :=
  match data_length with
  | None =>
      Raise (PayloadError "%s: missing data_{offset,length}" [AStr op_name])
  | Some data_length =>
      raise_if (total_dst_blocks * block_size self <=? data_length)
        (PayloadError
           ("%s: data_length (%d) must be smaller than allotted dst space "
            +:+ "(%d * %d = %d)")
           [AStr op_name; AInt data_length; AInt total_dst_blocks;
            AInt (block_size self); AInt (total_dst_blocks * block_size self)])
  end.

(** [d[k] += v] on a dictionary *)
Definition dict_add `{Countable K} (d : gmap K Z) (k : K) (v : Z)
  : result (gmap K Z) :=
  match d !! k with
  | Some x => Ok (<[k := x + v]> d)
  | None => Raise KeyError
  end.

(** What [_CheckOperation] returns and leaves behind in the objects it
    updates in place. *)
Record op_result := {
  data_used : Z;
  res_old_block_counters : option (list Z);
  res_new_block_counters : option (list Z);
  res_blob_hash_counts : gmap string Z;
}.

(** [_CheckOperation] *)
Definition _CheckOperation (self : PayloadChecker) (op : InstallOperation)
    (op_name : string) (is_last : bool)
    (old_block_counters new_block_counters : option (list Z))
    (old_fs_size new_usable_size prev_data_offset : Z)
    (allow_signature : bool) (blob_hash_counts : gmap string Z)
  : M op_result :=
  ((* Check extents. *)
   src <- _CheckExtents self (src_extents op) old_fs_size old_block_counters
            (op_name +:+ ".src_extents") true false ;;
   let total_src_blocks := src.1 in
   let old_block_counters := src.2 in
   let allow_signature_in_extents :=
     allow_signature && is_last && bool_decide (type op = REPLACE) in
   dst <- _CheckExtents self (dst_extents op) new_usable_size
            new_block_counters (op_name +:+ ".dst_extents")
            (negb (check_dst_pseudo_extents self))
            allow_signature_in_extents ;;
   let total_dst_blocks := dst.1 in
   let new_block_counters := dst.2 in
   (* Check: data_offset present <==> data_length present. *)
   data_offset <- _CheckOptionalField (data_offset op) "data_offset" None
                    pretty false 0 ;;
   data_length <- _CheckOptionalField (data_length op) "data_length" None
                    pretty false 0 ;;
   Mlift (_CheckPresentIff data_offset data_length "data_offset"
            "data_length" (Some op_name)) ;;
   (* Check: at least one dst_extent. *)
   Mraise_if (bool_decide (dst_extents op = []))
     (PayloadError "%s: dst_extents is empty" [AStr op_name]) ;;
   (* Check {src,dst}_length, if present. *)
   match src_length op with
   | Some src_length =>
       Mlift (_CheckLength self src_length total_src_blocks op_name
                "src_length")
   | None => Mret tt
   end ;;
   match dst_length op with
   | Some dst_length =>
       Mlift (_CheckLength self dst_length total_dst_blocks op_name
                "dst_length")
   | None => Mret tt
   end ;;
   blob_hash_counts <-
     match data_sha256_hash op with
     | Some op_hash =>
         blob_hash_counts <- Mlift (dict_add blob_hash_counts "hashed" 1) ;;
         (* Check: operation carries data. *)
         match data_offset with
         | None =>
             Mraise
               (PayloadError
                  "%s: data_sha256_hash present but no data_{offset,length}"
                  [AStr op_name])
         | Some data_offset =>
             (* Check: hash verifies correctly. *)
             data_length <- the_value data_length ;;
             blob <- Mlift (ReadDataBlob (payload self) data_offset
                              data_length) ;;
             let actual_hash := sha256 blob in
             Mraise_if (negb (bool_decide (op_hash = actual_hash)))
               (PayloadError
                  "%s: data_sha256_hash (%s) does not match actual hash (%s)"
                  [AStr op_name; AStr (FormatSha256 op_hash);
                   AStr (FormatSha256 actual_hash)]) ;;
             Mret blob_hash_counts
         end
     | None =>
         if bool_decide (is_Some data_offset)
         then
           if allow_signature_in_extents
           then Mlift (dict_add blob_hash_counts "signature" 1)
           else if allow_unhashed self
           then Mlift (dict_add blob_hash_counts "unhashed" 1)
           else Mraise (PayloadError "%s: unhashed operation not allowed"
                          [AStr op_name])
         else Mret blob_hash_counts
     end ;;
   match data_offset with
   | Some data_offset =>
       (* Check: contiguous use of data section. *)
       Mraise_if (negb (data_offset =? prev_data_offset))
         (PayloadError
            "%s: data offset (%d) not matching amount used so far (%d)"
            [AStr op_name; AInt data_offset; AInt prev_data_offset])
   | None => Mret tt
   end ;;
   (* Type-specific checks. *)
   (if bool_decide (type op ∈ [REPLACE; REPLACE_BZ])
    then Mlift (_CheckReplaceOperation self op data_length total_dst_blocks
                  op_name)
    else if bool_decide (payload_type self = Some _TYPE_FULL)
    then Mraise (PayloadError "%s: non-REPLACE operation in a full payload"
                   [AStr op_name])
    else if bool_decide (type op = MOVE)
    then Mlift (_CheckMoveOperation self op data_offset total_src_blocks
                  total_dst_blocks op_name)
    else if bool_decide (type op = BSDIFF)
    then Mlift (_CheckBsdiffOperation self data_length total_dst_blocks
                  op_name)
    else Mraise AssertionError) ;;
   Mret {| data_used := default 0 data_length;
           res_old_block_counters := old_block_counters;
           res_new_block_counters := new_block_counters;
           res_blob_hash_counts := blob_hash_counts |})%M.

(** [_SizeToNumBlocks] *)
Definition _SizeToNumBlocks (self : PayloadChecker) (size : Z) : result Z :=
  py_floordiv (size + block_size self - 1) (block_size self).

(** [_AllocBlockCounters] *)
Definition _AllocBlockCounters (self : PayloadChecker) (total_size : Z)
  : result (list Z) :=
  (n <- _SizeToNumBlocks self total_size ;;
   Ok (replicate (Z.to_nat n) 0))%res.

(** [a[:n]] *)
Definition slice_to (a : list Z) (n : Z) : list Z :=
  if n <? 0 then take (length a - Z.to_nat (- n)) a else take (Z.to_nat n) a.

(** Modelled from the spec: histogram.py is not among the sources.  A
    histogram built from a key list counts the occurrences of each key, and
    the checker compares its keys with [[1]], which the spec reads as "the
    histogram's key set is exactly {1}". *)
Definition Histogram_FromKeyList (key_list : list Z) : gmap Z Z :=
  foldl (fun count_dict key => <[key := default 0 (count_dict !! key) + 1]>
                                 count_dict) ∅ key_list.

Definition Histogram_GetKeys (hist : gmap Z Z) : gset Z := dom hist.

(** [_AddFormat], [_AddHumanReadableSize] *)
Definition _AddFormat (format_func : Z → string) (value : Z) : string :=
  pretty value +:+ " (" +:+ format_func value +:+ ")".

Definition _AddHumanReadableSize (size : Z) : string :=
  _AddFormat BytesToHumanReadable size.

(** The local variables of [_CheckOperations] that its loop updates. *)
Record ops_locals := {
  total_data_used : Z;
  op_counts : gmap OpType Z;
  op_blob_totals : gmap OpType Z;
  blob_hash_counts : gmap string Z;
  old_block_counters : option (list Z);
  new_block_counters : option (list Z);
  op_num : Z;
}.

(** The loop of [_CheckOperations] over the named operations that are left;
    [n_ops] is [len(operations)]. *)
Fixpoint _CheckOperations_loop (self : PayloadChecker)
    (items : list (InstallOperation * string)) (n_ops : Z)
    (old_fs_size new_usable_size prev_data_offset : Z)
    (allow_signature : bool) (st : ops_locals) : M ops_locals :=
  match items with
  | [] => Mret st
  | (op, op_name) :: items' =>
      (let op_num := op_num st + 1 in
       (* Check: type is valid. *)
       Mraise_if (negb (bool_decide (is_Some (op_counts st !! type op))))
         (PayloadError "%s: invalid type (%d)"
            [AStr op_name;
             AInt (match type op with
                   | OpType_other n => n
                   | _ => 0
                   end)]) ;;
       op_counts <- Mlift (dict_add (op_counts st) (type op) 1) ;;
       let is_last := op_num =? n_ops in
       res <- _CheckOperation self op op_name is_last (old_block_counters st)
                (new_block_counters st) old_fs_size new_usable_size
                (prev_data_offset + total_data_used st) allow_signature
                (blob_hash_counts st) ;;
       let curr_data_used := data_used res in
       totals <-
         (if negb (curr_data_used =? 0)
          then
            op_blob_totals <-
              Mlift (dict_add (op_blob_totals st) (type op) curr_data_used) ;;
            Mret (op_blob_totals, total_data_used st + curr_data_used)
          else Mret (op_blob_totals st, total_data_used st)) ;;
       _CheckOperations_loop self items' n_ops old_fs_size new_usable_size
         prev_data_offset allow_signature
         {| total_data_used := totals.2;
            op_counts := op_counts;
            op_blob_totals := totals.1;
            blob_hash_counts := res_blob_hash_counts res;
            old_block_counters := res_old_block_counters res;
            new_block_counters := res_new_block_counters res;
            op_num := op_num |})%M
  end.

(** The local variables of [_CheckOperations] before its loop. *)
Definition _CheckOperations_init (self : PayloadChecker)
    (old_fs_size new_usable_size : Z) (allow_signature : bool)
  : result ops_locals :=
  (let blob_hash_counts : gmap string Z :=
     <["hashed" := 0]> (<["unhashed" := 0]> ∅) in
   let blob_hash_counts :=
     if allow_signature then <["signature" := 0]> blob_hash_counts
     else blob_hash_counts in
   old_block_counters <-
     (if negb (old_fs_size =? 0)
      then a <- _AllocBlockCounters self old_fs_size ;; Ok (Some a)
      else Ok None) ;;
   new_block_counters <- _AllocBlockCounters self new_usable_size ;;
   Ok {| total_data_used := 0;
         op_counts :=
           <[REPLACE := 0]> (<[REPLACE_BZ := 0]> (<[MOVE := 0]>
             (<[BSDIFF := 0]> ∅)));
         op_blob_totals :=
           <[REPLACE := 0]> (<[REPLACE_BZ := 0]> (<[BSDIFF := 0]> ∅));
         blob_hash_counts := blob_hash_counts;
         old_block_counters := old_block_counters;
         new_block_counters := Some new_block_counters;
         op_num := 0 |})%res.

(** The write histogram of [_CheckOperations]:
    [Histogram.FromKeyList(new_block_counters[:_SizeToNumBlocks(new_fs_size)])] *)
Definition new_write_hist (self : PayloadChecker) (new_fs_size : Z)
    (st : ops_locals) : result (gmap Z Z) :=
  (n <- _SizeToNumBlocks self new_fs_size ;;
   match new_block_counters st with
   | Some a => Ok (Histogram_FromKeyList (slice_to a n))
   | None => Raise TypeError
   end)%res.

(** [_CheckOperations] *)
Definition _CheckOperations (self : PayloadChecker)
    (operations : list InstallOperation) (report : report_ref)
    (base_name : string)
    (old_fs_size new_fs_size new_usable_size prev_data_offset : Z)
    (allow_signature : bool) : M Z :=
  (st <- Mlift (_CheckOperations_init self old_fs_size new_usable_size
                  allow_signature) ;;
   (* Process and verify each operation. *)
   st <- _CheckOperations_loop self (ObjNameIter operations base_name)
           (Z.of_nat (length operations)) old_fs_size new_usable_size
           prev_data_offset allow_signature st ;;
   (* Report totals and breakdown statistics. *)
   report_AddField report (Some "total operations") (pretty (op_num st))
     false 0 ;;
   report_AddField report None (str_op_histogram (op_counts st) None)
     false 1 ;;
   report_AddField report (Some "total blobs")
     (pretty (map_fold (fun _ v acc => v + acc) 0 (blob_hash_counts st)))
     false 0 ;;
   report_AddField report None (str_blob_histogram (blob_hash_counts st))
     false 1 ;;
   report_AddField report (Some "total blob size")
     (_AddHumanReadableSize (total_data_used st)) false 0 ;;
   report_AddField report None
     (str_op_histogram (op_blob_totals st) (Some _AddHumanReadableSize))
     false 1 ;;
   (* Report read/write histograms. *)
   match old_block_counters st with
   | Some (c :: a) =>
       report_AddField report (Some "block read hist")
         (str_block_histogram (Histogram_FromKeyList (c :: a))) true 1
   | _ => Mret tt
   end ;;
   hist <- Mlift (new_write_hist self new_fs_size st) ;;
   report_AddField report (Some "block write hist")
     (str_block_histogram hist) true 1 ;;
   (* Check: full update must write each dst block once. *)
   Mraise_if (bool_decide (payload_type self = Some _TYPE_FULL)
              && negb (bool_decide (Histogram_GetKeys hist = {[1]})))
     (PayloadError
        "%s: not all blocks written exactly once during full update"
        [AStr base_name]) ;;
   Mret (total_data_used st))%M.

(** The loop of [_CheckSignatures] over the named signatures. *)
Fixpoint _CheckSignatures_loop (report : report_ref)
    (pubkey_file_name : string) (payload_hasher : string)
    (items : list (Signature.t * string)) : M unit :=
  match items with
  | [] => Mret tt
  | (sig, sig_name) :: items' =>
      (sig_report <- report_AddSubReport report sig_name ;;
       (* Check: signature contains mandatory fields. *)
       version <- _CheckMandatoryField (Signature.version sig) "version"
                    (Some sig_report) (Some sig_name) pretty false 0 ;;
       data <- _CheckMandatoryField (Signature.data sig) "data" None
                 (Some sig_name) id false 0 ;;
       report_AddField sig_report (Some "data len") (pretty (len data))
         false 0 ;;
       (* Check: signatures pertains to actual payload hash. *)
       (if version =? 1
        then Mlift (_CheckSha256Signature data pubkey_file_name
                      (sha256 payload_hasher) sig_name)
        else Mraise (PayloadError "unknown signature version (%d)"
                       [AInt version])) ;;
       _CheckSignatures_loop report pubkey_file_name payload_hasher items')%M
  end.

(** [_CheckSignatures] *)
Definition _CheckSignatures (self : PayloadChecker) (report : report_ref)
    (pubkey_file_name : string) : M unit :=
  let manifest := Payload.manifest (payload self) in
  (so <- the_value (sigs_offset self) ;;
   ss <- the_value (sigs_size self) ;;
   sigs_raw <- Mlift (ReadDataBlob (payload self) so ss) ;;
   sigs <- Mlift (ParseSignatures sigs_raw) ;;
   report_AddSection report "signatures" ;;
   (* Check: at least one signature present. *)
   Mraise_if (bool_decide (sigs = []))
     (PayloadError "signature block is empty" []) ;;
   let last_ops_section :=
     if negb (bool_decide (Manifest.kernel_install_operations manifest = []))
     then Manifest.kernel_install_operations manifest
     else Manifest.install_operations manifest in
   fake_sig_op <-
     match last last_ops_section with
     | Some op => Mret op
     | None => Mraise IndexError
     end ;;
   (* Check: signatures_{offset,size} must match the last (fake) operation. *)
   Mraise_if (negb (bool_decide (type fake_sig_op = REPLACE)
                    && (so =? getattr_Z (data_offset fake_sig_op))
                    && (ss =? getattr_Z (data_length fake_sig_op))))
     (PayloadError
        ("signatures_{offset,size} (%d+%d) does not match last operation "
         +:+ "(%d+%d)")
        [AInt so; AInt ss; AInt (getattr_Z (data_offset fake_sig_op));
         AInt (getattr_Z (data_length fake_sig_op))]) ;;
   (* Compute the checksum of all data up to signature blob. *)
   data <- Mlift (Read (Payload.payload_file (payload self)) so
                    (Payload.data_offset (payload self))) ;;
   let payload_hasher := Payload.manifest_hasher (payload self) +:+ data in
   _CheckSignatures_loop report pubkey_file_name payload_hasher
     (ObjNameIter sigs "signatures"))%M.

(** The statements of the [try] block of [Run] up to the end of the
    examination of the operations (metadata signature, parts 1 to 4):
    [self] after the manifest check, and [total_blob_size]. *)
Definition Run_operations (self : PayloadChecker)
    (pubkey_file_name metadata_sig_file : option string)
    (rootfs_part_size kernel_part_size : Z) (report : report_ref)
  : M (PayloadChecker * Z) :=
  let header := Payload.header (payload self) in
  ((* Check metadata signature (if provided). *)
   match metadata_sig_file with
   | Some content =>
       Mraise_if (negb (truthy_str pubkey_file_name))
         (PayloadError
            "no public key provided, cannot verify metadata signature" []) ;;
       metadata_sig <- Mlift (b64decode content) ;;
       Mlift (_CheckSha256Signature metadata_sig
                (default EmptyString pubkey_file_name)
                (sha256 (Payload.manifest_hasher (payload self)))
                "metadata signature")
   | None => Mret tt
   end ;;
   (* Part 1: check the file header. *)
   report_AddSection report "header" ;;
   Mraise_if (negb (Header.version header =? 1))
     (PayloadError "unknown payload version (%d)"
        [AInt (Header.version header)]) ;;
   report_AddField report (Some "version") (pretty (Header.version header))
     false 0 ;;
   report_AddField report (Some "manifest len")
     (pretty (Header.manifest_len header)) false 0 ;;
   (* Part 2: check the manifest. *)
   self <- _CheckManifest self report rootfs_part_size kernel_part_size ;;
   Mraise_if (negb (truthy_str (payload_type self))) AssertionError ;;
   let manifest := Payload.manifest (payload self) in
   (* Part 3: examine rootfs operations. *)
   report_AddSection report "rootfs operations" ;;
   total_blob_size <-
     _CheckOperations self (Manifest.install_operations manifest) report
       "install_operations" (old_rootfs_fs_size self)
       (new_rootfs_fs_size self)
       (if negb (rootfs_part_size =? 0) then rootfs_part_size
        else new_rootfs_fs_size self)
       0 false ;;
   (* Part 4: examine kernel operations. *)
   report_AddSection report "kernel operations" ;;
   kernel_blob_size <-
     _CheckOperations self (Manifest.kernel_install_operations manifest)
       report "kernel_install_operations" (old_kernel_fs_size self)
       (new_kernel_fs_size self)
       (if negb (kernel_part_size =? 0) then kernel_part_size
        else new_kernel_fs_size self)
       total_blob_size true ;;
   Mret (self, total_blob_size + kernel_blob_size))%M.

(** The [try] block of [Run]. *)
Definition Run_try (self : PayloadChecker)
    (pubkey_file_name metadata_sig_file : option string)
    (rootfs_part_size kernel_part_size payload_file_size : Z)
    (report : report_ref) : M unit :=
  (ops <- Run_operations self pubkey_file_name metadata_sig_file
            rootfs_part_size kernel_part_size report ;;
   let self := ops.1 in
   let total_blob_size := ops.2 in
   (* Check: operations data reach the end of the payload file. *)
   let used_payload_size :=
     Payload.data_offset (payload self) + total_blob_size in
   Mraise_if (negb (used_payload_size =? payload_file_size))
     (PayloadError
        "used payload size (%d) different from actual file size (%d)"
        [AInt used_payload_size; AInt payload_file_size]) ;;
   (* Part 5: handle payload signatures message. *)
   (if check_payload_sig self && truthy_Z (sigs_size self)
    then
      Mraise_if (negb (truthy_str pubkey_file_name))
        (PayloadError
           "no public key provided, cannot verify payload signature" []) ;;
      _CheckSignatures self report (default EmptyString pubkey_file_name)
    else Mret tt) ;;
   (* Part 6: summary. *)
   report_AddSection report "summary" ;;
   report_AddField report (Some "update type")
     (default EmptyString (payload_type self)) false 0 ;;
   report_Finalize report)%M.

(** [Run]: its outcome, and the lines that [report.Dump] wrote to
    [report_out_file] in the [finally] clause ([None] when no file was
    given).  An exception raised by [Dump] replaces the outcome of the
    [try] block; it is raised before anything is written. *)
Definition Run (self : PayloadChecker)
    (pubkey_file_name metadata_sig_file : option string)
    (rootfs_part_size kernel_part_size : Z) (report_out_file : bool)
  : result unit * option (list string) :=
  let report := Report_init in
  (* Get payload file size. *)
  let payload_file_size := len (Payload.payload_file (payload self)) in
  let '(outcome, report) :=
    Run_try self pubkey_file_name metadata_sig_file rootfs_part_size
      kernel_part_size payload_file_size [] report in
  if report_out_file
  then match Dump report 0 2 with
       | Ok lines => (outcome, Some lines)
       | Raise e => (Raise e, Some [])
       end
  else (outcome, None).

End Checker.

(** ** Notions used to state the properties *)

(** An extent whose fields hold unsigned 64-bit values. *)
Definition uint64 (z : Z) : Prop := 0 ≤ z < 2 ^ 64.

Definition wf_extent (ex : Extent) : Prop :=
  uint64 (getattr_Z (start_block ex)) ∧ uint64 (getattr_Z (num_blocks ex)).

(** The total number of blocks of an extent sequence, pseudo-extents
    included. *)
Definition total_blocks (extents : list Extent) : Z :=
  foldr (fun ex acc => getattr_Z (num_blocks ex) + acc) 0 extents.

(** An extent sequence as runs [(first block, number of blocks)]. *)
Definition runs_of (extents : list Extent) : list (Z * Z) :=
  map (fun ex => (getattr_Z (start_block ex), getattr_Z (num_blocks ex)))
      extents.

(** The [i]-th logical block number of a sequence of runs. *)
Fixpoint block_at (runs : list (Z * Z)) (i : Z) : option Z :=
  match runs with
  | [] => None
  | (start, num) :: rest =>
      if i <? num then Some (start + i) else block_at rest (i - num)
  end.

(** The [i]-th logical block number of an extent sequence. *)
Definition nth_block (extents : list Extent) (i : Z) : option Z :=
  block_at (runs_of extents) i.

(** The runs still to be walked by the loop of [_CheckMoveOperation]: the
    rest of the current extent, then the extents left in the iterator. *)
Definition pending_runs (extent : option Extent) (idx num : Z)
    (extent_iter : list Extent) : list (Z * Z) :=
  match extent with
  | Some _ => (idx, num) :: runs_of extent_iter
  | None => runs_of extent_iter
  end.

(** The number of loop iterations that a state of [_CheckMoveOperation] can
    still need. *)
Definition move_measure (src_extent_iter dst_extent_iter : list Extent)
    (src_extent dst_extent : option Extent) : nat :=
  length src_extent_iter + length dst_extent_iter
  + (if src_extent is Some _ then 1 else 0)
  + (if dst_extent is Some _ then 1 else 0).

(** The sum of [data_length] over a sequence of operations (operations
    without data contribute nothing). *)
Definition sum_data_length (ops : list InstallOperation) : Z :=
  foldr (fun op acc => default 0 (data_length op) + acc) 0 ops.

(** The operations of a manifest in manifest order: rootfs, then kernel. *)
Definition all_operations (manifest : Manifest.t) : list InstallOperation :=
  Manifest.install_operations manifest
  ++ Manifest.kernel_install_operations manifest.

(** A computation of the checker that does not end in a [KeyError]. *)
Definition no_KeyError {A} (m : M A) : Prop :=
  ∀ r, (m r).1 ≠ Raise KeyError.

(** The keys that the loop of [_CheckOperations] relies on. *)
Definition dicts_ok (allow_signature : bool) (st : ops_locals) : Prop :=
  dom (op_counts st) = {[REPLACE; REPLACE_BZ; MOVE; BSDIFF]}
  ∧ dom (op_blob_totals st) = {[REPLACE; REPLACE_BZ; BSDIFF]}
  ∧ "hashed" ∈ dom (blob_hash_counts st)
  ∧ "unhashed" ∈ dom (blob_hash_counts st)
  ∧ (allow_signature = true → "signature" ∈ dom (blob_hash_counts st)).

(** A computation of the checker that leaves the root report finalized
    exactly if it was. *)
Definition keeps_finalized {A} (m : M A) : Prop :=
  ∀ r, is_finalized (m r).2 = is_finalized r.

(** A computation that, started on a report that is not finalized, leaves
    it finalized exactly when it raises nothing. *)
Definition seals {A} (m : M A) : Prop :=
  ∀ r, is_finalized r = false →
       is_finalized (m r).2 = (if (m r).1 is Ok _ then true else false).

(** The keys of [blob_hash_counts] that [_CheckOperation] may update. *)
Definition blob_keys_ok (allow_signature : bool)
    (blob_hash_counts : gmap string Z) : Prop :=
  "hashed" ∈ dom blob_hash_counts
  ∧ "unhashed" ∈ dom blob_hash_counts
  ∧ (allow_signature = true → "signature" ∈ dom blob_hash_counts).

Section ExtentNotions.
Context `{Externals}.

(** What [_CheckExtents] has established of an extent it went past. *)
Definition extent_checked (self : PayloadChecker) (usable_size n_extents : Z)
    (allow_pseudo allow_signature : bool) (ex : Extent) : Prop :=
  ∃ s n,
    start_block ex = Some s ∧ num_blocks ex = Some n ∧ n ≠ 0
    ∧ (s ≠ PSEUDO_EXTENT_MARKER → usable_size ≠ 0 →
       (s + n) * block_size self ≤ usable_size)
    ∧ (s = PSEUDO_EXTENT_MARKER →
       allow_pseudo = true ∨ (allow_signature = true ∧ n_extents = 1)).

End ExtentNotions.

(** A computation whose exceptions, if any, all satisfy [P]. *)
Definition raises_only {A} (P : exn → Prop) (m : M A) : Prop :=
  ∀ r e, (m r).1 = Raise e → P e.

(** The exceptions of a checked payload that is at fault, and of a block
    counter that is full. *)
Definition payload_or_overflow (e : exn) : Prop :=
  is_PayloadError e = true ∨ e = OverflowError.

(** Counter arrays that fit the sizes they are used with. *)
Definition counters_fit (self : PayloadChecker) (size : Z)
    (block_counters : option (list Z)) : Prop :=
  size ≠ 0
  ∧ ∃ a, block_counters = Some a
         ∧ size ≤ Z.of_nat (length a) * block_size self.

Section UsageNotions.
Context `{Externals}.

(** Whether an extent is a real one (no pseudo-extent) that contains
    block [i]. *)
Definition covers (ex : Extent) (i : Z) : bool :=
  negb (getattr_Z (start_block ex) =? PSEUDO_EXTENT_MARKER)
  && (getattr_Z (start_block ex) <=? i)
  && (i <? getattr_Z (start_block ex) + getattr_Z (num_blocks ex)).

(** The number of real extents of a sequence that contain block [i]. *)
Definition coverage (extents : list Extent) (i : Z) : Z :=
  foldr (fun ex acc => (if covers ex i then 1 else 0) + acc) 0 extents.

(** The exceptions of the examination of the operations when nothing is
    wrong with the checker itself: those of a payload at fault, of a full
    block counter, and those that reading the data blob raises. *)
Definition data_section_exception (e : exn) : Prop :=
  payload_or_overflow e
  ∨ ∃ p offset length, ReadDataBlob p offset length = Raise e.

End UsageNotions.

(** The operations of a sequence that have a given type. *)
Definition ops_of_type (t : OpType) (ops : list InstallOperation)
  : list InstallOperation :=
  filter (fun op => type op = t) ops.

(** The named fields of a node sequence are no longer than the
    [max_field_name_len] of the section they are printed in; [curr_len] is
    that of the section current at the head of the sequence. *)
Fixpoint names_fit (ns : list Node) (curr_len : Z) : Prop :=
  match ns with
  | [] => True
  | FieldNode name _ _ _ :: ns' =>
      (truthy_str name = true
       → Z.of_nat (String.length (default EmptyString name)) ≤ curr_len)
      ∧ names_fit ns' curr_len
  | SubReportNode _ _ :: ns' => names_fit ns' curr_len
  | SectionNode _ len :: ns' => names_fit ns' len
  end.

(** Whether some field of a report, at any depth, has an empty value that
    is to be printed on the line of the field's name (the field has no
    line break, or no name). *)
Fixpoint has_empty_field (r : Report) : bool :=
  match r with
  | mkReport nodes _ _ =>
      (fix go (ns : list Node) : bool :=
         match ns with
         | [] => false
         | FieldNode name value linebreak _ :: ns' =>
             negb (linebreak && truthy_str name)
             && bool_decide (value = EmptyString)
             || go ns'
         | SubReportNode _ sub :: ns' => has_empty_field sub || go ns'
         | SectionNode _ _ :: ns' => go ns'
         end) nodes
  end.

(** ** Concrete payloads *)

Definition toy_externals : Externals := {|
  PSEUDO_EXTENT_MARKER := 18446744073709551615;
  SIG_ASN1_HEADER := "0123456789abcdefghi";
  sha256 := fun data => ljust (String.substring 0 32 data) 32;
  b64decode := fun s => Ok s;
  _Run := fun _ send_data => (send_data, EmptyString);
  ReadDataBlob := fun p offset length =>
    let data := String.substring (Z.to_nat (Payload.data_offset p + offset))
                  (Z.to_nat length) (Payload.payload_file p) in
    if len data =? length then Ok data
    else Raise (PayloadError "reading from %s too short" []);
  Read := fun file length offset =>
    let data := String.substring (Z.to_nat offset) (Z.to_nat length) file in
    if len data =? length then Ok data
    else Raise (PayloadError "reading from %s too short" []);
  ParseSignatures := fun _ => Ok [];
  FormatSha256 := fun h => h;
  FormatExtent := fun _ _ => "extent";
  BytesToHumanReadable := fun n => pretty n +:+ " B";
  item_name := fun base idx => base +:+ "[" +:+ pretty idx +:+ "]";
  str_op_histogram := fun _ _ => "op histogram";
  str_blob_histogram := fun _ => "blob histogram";
  str_block_histogram := fun _ => "block histogram";
|}.

Definition blank_hash : string := spaces 32.

(** The same collaborators, with an RSA verifier that always returns the
    header followed by a blank digest. *)
Definition accepting_externals : Externals := {|
  PSEUDO_EXTENT_MARKER := PSEUDO_EXTENT_MARKER (Externals := toy_externals);
  SIG_ASN1_HEADER := SIG_ASN1_HEADER (Externals := toy_externals);
  sha256 := sha256 (Externals := toy_externals);
  b64decode := b64decode (Externals := toy_externals);
  _Run := fun _ _ =>
    (SIG_ASN1_HEADER (Externals := toy_externals) +:+ blank_hash,
     EmptyString);
  ReadDataBlob := ReadDataBlob (Externals := toy_externals);
  Read := Read (Externals := toy_externals);
  ParseSignatures := ParseSignatures (Externals := toy_externals);
  FormatSha256 := FormatSha256 (Externals := toy_externals);
  FormatExtent := FormatExtent (Externals := toy_externals);
  BytesToHumanReadable := BytesToHumanReadable (Externals := toy_externals);
  item_name := item_name (Externals := toy_externals);
  str_op_histogram := str_op_histogram (Externals := toy_externals);
  str_blob_histogram := str_blob_histogram (Externals := toy_externals);
  str_block_histogram := str_block_histogram (Externals := toy_externals);
|}.

Definition extent (start num : Z) : Extent :=
  {| start_block := Some start; num_blocks := Some num |}.

(** A checker as [PayloadChecker(payload)] creates it. *)
Definition new_checker (p : Payload.t) : PayloadChecker :=
  {| payload := p; block_size := 4096; payload_type := None;
     allow_unhashed := false; check_dst_pseudo_extents := true;
     check_move_same_src_dst_block := true; check_payload_sig := true;
     sigs_offset := Some 0; sigs_size := Some 0;
     old_rootfs_fs_size := 0; old_kernel_fs_size := 0;
     new_rootfs_fs_size := 0; new_kernel_fs_size := 0 |}.

Definition replace_op (src dst : list Extent) (offset length : Z)
  : InstallOperation :=
  {| type := REPLACE; src_extents := src; dst_extents := dst;
     src_length := None; dst_length := None;
     data_offset := Some offset; data_length := Some length;
     data_sha256_hash := Some blank_hash |}.

Definition move_op (src dst : list Extent) : InstallOperation :=
  {| type := MOVE; src_extents := src; dst_extents := dst;
     src_length := None; dst_length := None;
     data_offset := None; data_length := None;
     data_sha256_hash := None |}.

Definition full_manifest (rootfs_ops kernel_ops : list InstallOperation)
  : Manifest.t :=
  {| Manifest.block_size := Some 4096;
     Manifest.signatures_offset := None;
     Manifest.signatures_size := None;
     Manifest.old_kernel_info := None;
     Manifest.old_rootfs_info := None;
     Manifest.new_kernel_info :=
       Some {| size := Some 4096; hash := Some blank_hash |};
     Manifest.new_rootfs_info :=
       Some {| size := Some 8192; hash := Some blank_hash |};
     Manifest.install_operations := rootfs_ops;
     Manifest.kernel_install_operations := kernel_ops |}.

Definition payload_of (m : Manifest.t) (file_size : Z) : Payload.t :=
  {| Payload.is_init := true;
     Payload.header := {| Header.version := 1; Header.manifest_len := 100 |};
     Payload.manifest := m;
     Payload.manifest_hasher := "header and manifest";
     Payload.data_offset := 120;
     Payload.payload_file := spaces (Z.to_nat file_size) |}.

(** A minimal full payload: two blocks of rootfs and one of kernel, each
    written by one [REPLACE]; the data section is 12288 bytes long. *)
Definition full_payload : Payload.t :=
  payload_of
    (full_manifest [replace_op [] [extent 0 2] 0 8192]
                   [replace_op [] [extent 0 1] 8192 4096])
    (120 + 12288).

(** The same payload, one byte of which is not used by any operation. *)
Definition full_payload_long : Payload.t :=
  payload_of
    (full_manifest [replace_op [] [extent 0 2] 0 8192]
                   [replace_op [] [extent 0 1] 8192 4096])
    (120 + 12289).

(** A full payload whose rootfs [REPLACE] carries a source extent. *)
Definition full_payload_with_src : Payload.t :=
  payload_of
    (full_manifest [replace_op [extent 0 1] [extent 0 2] 0 8192]
                   [replace_op [] [extent 0 1] 8192 4096])
    (120 + 12288).

(** The payload with the source extent, one byte of which is not used by
    any operation. *)
Definition full_payload_with_src_long : Payload.t :=
  payload_of
    (full_manifest [replace_op [extent 0 1] [extent 0 2] 0 8192]
                   [replace_op [] [extent 0 1] 8192 4096])
    (120 + 12289).

(** A [REPLACE] with a source extent whose data starts five bytes into the
    data section, and the full payload that begins with it. *)
Definition gap_op : InstallOperation :=
  replace_op [extent 0 1] [extent 0 2] 5 8192.

Definition full_payload_gap_with_src : Payload.t :=
  payload_of
    (full_manifest [gap_op] [replace_op [] [extent 0 1] 8197 4096])
    (120 + 12293).

(** A checker of a delta payload, for operations checked one at a time. *)
Definition delta_checker : PayloadChecker :=
  set_payload_type _TYPE_DELTA (new_checker full_payload).

(** A move that swaps two blocks. *)
Definition swap_op : InstallOperation :=
  move_op [extent 1 1; extent 0 1] [extent 0 2].

(** A compressed replacement of two blocks by 100 bytes of data. *)
Definition replace_bz_op : InstallOperation :=
  {| type := REPLACE_BZ; src_extents := []; dst_extents := [extent 0 2];
     src_length := None; dst_length := None;
     data_offset := Some 0; data_length := Some 100;
     data_sha256_hash := Some blank_hash |}.

(** The collaborators of a signed payload: every digest is blank, the RSA
    verifier returns the header followed by a blank digest, and the
    signatures blob parses to one signature of version 1. *)
Definition signing_externals : Externals := {|
  PSEUDO_EXTENT_MARKER := PSEUDO_EXTENT_MARKER (Externals := toy_externals);
  SIG_ASN1_HEADER := SIG_ASN1_HEADER (Externals := toy_externals);
  sha256 := fun _ => blank_hash;
  b64decode := b64decode (Externals := toy_externals);
  _Run := fun _ _ =>
    (SIG_ASN1_HEADER (Externals := toy_externals) +:+ blank_hash,
     EmptyString);
  ReadDataBlob := ReadDataBlob (Externals := toy_externals);
  Read := Read (Externals := toy_externals);
  ParseSignatures := fun _ =>
    Ok [{| Signature.version := Some 1;
           Signature.data := Some (spaces 256) |}];
  FormatSha256 := FormatSha256 (Externals := toy_externals);
  FormatExtent := FormatExtent (Externals := toy_externals);
  BytesToHumanReadable := BytesToHumanReadable (Externals := toy_externals);
  item_name := item_name (Externals := toy_externals);
  str_op_histogram := str_op_histogram (Externals := toy_externals);
  str_blob_histogram := str_blob_histogram (Externals := toy_externals);
  str_block_histogram := str_block_histogram (Externals := toy_externals);
|}.

(** The operation that stands for the signatures blob: a [REPLACE] of 256
    bytes into a pseudo-extent. *)
Definition signature_op : InstallOperation :=
  {| type := REPLACE; src_extents := [];
     dst_extents :=
       [extent (PSEUDO_EXTENT_MARKER (Externals := toy_externals)) 1];
     src_length := None; dst_length := None;
     data_offset := Some 12288; data_length := Some 256;
     data_sha256_hash := None |}.

(** The minimal full payload, followed by a signatures blob of 256 bytes. *)
Definition signed_payload : Payload.t :=
  payload_of
    {| Manifest.block_size := Some 4096;
       Manifest.signatures_offset := Some 12288;
       Manifest.signatures_size := Some 256;
       Manifest.old_kernel_info := None;
       Manifest.old_rootfs_info := None;
       Manifest.new_kernel_info :=
         Some {| size := Some 4096; hash := Some blank_hash |};
       Manifest.new_rootfs_info :=
         Some {| size := Some 8192; hash := Some blank_hash |};
       Manifest.install_operations := [replace_op [] [extent 0 2] 0 8192];
       Manifest.kernel_install_operations :=
         [replace_op [] [extent 0 1] 8192 4096; signature_op] |}
    (120 + 12288 + 256).

(** The checker of the signed payload after its manifest was checked. *)
Definition signed_checker : PayloadChecker :=
  set_sigs (Some 12288) (Some 256)
    (set_payload_type _TYPE_FULL (new_checker signed_payload)).

(** * Properties *)

(** ** Inversion of successful computations *)

Lemma rbind_Ok {A B} (m : result A) (k : A → result B) (b : B) :
  rbind m k = Ok b → ∃ a, m = Ok a ∧ k a = Ok b.
Proof. destruct m as [a|e]; simpl; [eauto | discriminate]. Qed.

Lemma raise_if_Ok (c : bool) (e : exn) (u : unit) :
  raise_if c e = Ok u → c = false.
Proof. by destruct c. Qed.

Lemma Mbind_Ok {A B} (m : M A) (k : A → M B) (r r' : Report) (b : B) :
  Mbind m k r = (Ok b, r') → ∃ a r1, m r = (Ok a, r1) ∧ k a r1 = (Ok b, r').
Proof.
  unfold Mbind. destruct (m r) as [[a|e] r1]; [eauto | discriminate].
Qed.

Lemma Mraise_if_Ok (c : bool) (e : exn) (r r' : Report) (u : unit) :
  Mraise_if c e r = (Ok u, r') → c = false ∧ r' = r.
Proof. destruct c; [discriminate | by inversion 1]. Qed.

Lemma Mlift_Ok {A} (m : result A) (r r' : Report) (a : A) :
  Mlift m r = (Ok a, r') → m = Ok a ∧ r' = r.
Proof. by inversion 1. Qed.

Lemma Mret_Ok {A} (a b : A) (r r' : Report) :
  Mret a r = (Ok b, r') → a = b ∧ r' = r.
Proof. by inversion 1. Qed.

(** Splits a hypothesis stating that a sequence of statements succeeded
    into one hypothesis per statement. *)
Ltac inv_ok :=
  repeat match goal with
    | H : Mbind _ _ _ = (Ok _, _) |- _ =>
        let a := fresh "a" in
        let r := fresh "r" in
        let Ha := fresh "Ha" in
        apply Mbind_Ok in H as (a & r & Ha & H); cbv beta in H
    | H : Mraise_if _ _ _ = (Ok _, _) |- _ =>
        let Hc := fresh "Hc" in
        apply Mraise_if_Ok in H as [Hc ->]
    | H : Mlift _ _ = (Ok _, _) |- _ =>
        let Hl := fresh "Hl" in
        apply Mlift_Ok in H as [Hl ->]
    | H : Mret _ _ = (Ok _, _) |- _ => apply Mret_Ok in H as [<- ->]
    | H : Mraise _ _ = (Ok _, _) |- _ => discriminate H
    | H : rbind _ _ = Ok _ |- _ =>
        let a := fresh "a" in
        let Ha := fresh "Ha" in
        apply rbind_Ok in H as (a & Ha & H); cbv beta in H
    | H : raise_if _ _ = Ok _ |- _ => apply raise_if_Ok in H
    | H : Raise _ = Ok _ |- _ => discriminate H
    end.

Lemma the_value_Ok {V} (v : option V) (x : V) (r r' : Report) :
  the_value v r = (Ok x, r') → v = Some x ∧ r' = r.
Proof. destruct v; [by inversion 1 | discriminate]. Qed.

Lemma _CheckMandatoryField_None_Ok {V} (field : option V) (name : string)
    (msg_name : option string) (convert : V → string) (linebreak : bool)
    (indent : Z) (r r' : Report) (v : V) :
  _CheckMandatoryField field name None msg_name convert linebreak indent r
  = (Ok v, r') →
  field = Some v ∧ r' = r.
Proof.
  unfold _CheckMandatoryField, _CheckElem. intros Hok.
  destruct field as [x|]; simpl in Hok.
  - inv_ok. simpl in Hok. by inversion Hok.
  - discriminate.
Qed.

Lemma _CheckOptionalField_None_Ok {V} (field : option V) (name : string)
    (convert : V → string) (linebreak : bool) (indent : Z) (r r' : Report)
    (v : option V) :
  _CheckOptionalField field name None convert linebreak indent r = (Ok v, r') →
  v = field ∧ r' = r.
Proof.
  unfold _CheckOptionalField, _CheckElem. intros Hok.
  destruct field as [x|]; simpl in Hok; inv_ok; simpl; auto.
Qed.

(** [inv_ok], also through the checks of fields that add to no report. *)
Ltac inv_fields :=
  repeat (inv_ok;
          match goal with
          | H : _CheckMandatoryField _ _ None _ _ _ _ _ = (Ok _, _) |- _ =>
              let Hf := fresh "Hfield" in
              apply _CheckMandatoryField_None_Ok in H as [Hf ->]
          | H : _CheckOptionalField _ _ None _ _ _ _ = (Ok _, _) |- _ =>
              apply _CheckOptionalField_None_Ok in H as [-> ->]
          | H : the_value _ _ = (Ok _, _) |- _ =>
              let Hv := fresh "Hvalue" in
              apply the_value_Ok in H as [Hv ->]
          end); inv_ok.

Section Properties.
Context `{Externals}.

Lemma ObjNameIter_items {A} (items : list A) (base_name : string) :
  map fst (ObjNameIter items base_name) = items.
Proof.
  unfold ObjNameIter. generalize (item_name base_name).
  induction items as [|x l IH]; intros f; simpl; [done|].
  f_equal. apply IH.
Qed.

(** ** Extents *)

Lemma _CheckExtents_loop_Ok self items n_extents usable_size block_counters
    allow_pseudo allow_signature total r res r' :
  _CheckExtents_loop self items n_extents usable_size block_counters
    allow_pseudo allow_signature total r = (Ok res, r') →
  r' = r
  ∧ res.1 = total + total_blocks (map fst items)
  ∧ Forall (extent_checked self usable_size n_extents allow_pseudo
              allow_signature) (map fst items).
Proof.
  revert block_counters total r.
  induction items as [|[ex ex_name] items IH]; intros bc total r Hok.
  - simpl in Hok. inv_ok. simpl. split_and!; [done | lia | constructor].
  - simpl in Hok. inv_fields.
    apply IH in Hok as (-> & Htot & Hall).
    match goal with
    | Hs : start_block ex = Some ?s, Hn : num_blocks ex = Some ?n,
      Hz : (?n =? 0) = false,
      Hb : (if negb (?s =? _) then _ else _) ?r0 = (Ok _, ?r1) |- _ =>
        assert (r1 = r0 ∧ extent_checked self usable_size n_extents
                             allow_pseudo allow_signature ex) as [-> Hex];
        [ apply Z.eqb_neq in Hz;
          destruct (s =? PSEUDO_EXTENT_MARKER) eqn:Hpseudo; simpl in Hb;
          inv_ok; (split; [done|]); exists s, n
        | split_and!; [done | | by constructor];
          simpl; rewrite Htot; unfold getattr_Z; rewrite Hn; simpl; lia ]
    end.
    + apply Z.eqb_eq in Hpseudo. split_and!; auto; try done.
      intros _.
      match goal with
      | Hc : negb _ = false |- _ =>
          apply negb_false_iff, orb_true_iff in Hc as [Hp|Hsig];
          [by left | right]
      end.
      apply andb_true_iff in Hsig as [Hsig Hone].
      by apply Z.eqb_eq in Hone.
    + apply Z.eqb_neq in Hpseudo. split_and!; auto; try done.
      intros _ Hus.
      match goal with
      | Hc : _ && _ = false |- _ =>
          apply andb_false_iff in Hc as [Hz'|Hle]
      end.
      * apply negb_false_iff, Z.eqb_eq in Hz'. done.
      * apply Z.ltb_ge in Hle. done.
Qed.

Lemma _CheckExtents_Ok self extents usable_size block_counters name
    allow_pseudo allow_signature r res r' :
  _CheckExtents self extents usable_size block_counters name allow_pseudo
    allow_signature r = (Ok res, r') →
  r' = r
  ∧ res.1 = total_blocks extents
  ∧ Forall (extent_checked self usable_size (Z.of_nat (length extents))
              allow_pseudo allow_signature) extents.
Proof.
  unfold _CheckExtents. intros Hok.
  apply _CheckExtents_loop_Ok in Hok. rewrite ObjNameIter_items in Hok.
  destruct Hok as (? & ? & ?). split_and!; [done | lia | done].
Qed.

(** C3 (as amended): every extent of a sequence accepted by
    [_CheckExtents] has both fields set and a non-zero number of blocks
    (more than zero, for the unsigned field of the message), and when it is
    not a pseudo-extent and [usable_size] is not zero, it ends within
    [usable_size]. *)
Theorem C3_extents_within_nonzero_usable_size
    (self : PayloadChecker) (extents : list Extent) (usable_size : Z)
    (block_counters : option (list Z)) (name : string)
    (allow_pseudo allow_signature : bool) (r r' : Report)
    (res : Z * option (list Z)) (ex : Extent) :
  _CheckExtents self extents usable_size block_counters name allow_pseudo
    allow_signature r = (Ok res, r') →
  ex ∈ extents →
  0 ≤ getattr_Z (num_blocks ex) →
  ∃ s n,
    start_block ex = Some s ∧ num_blocks ex = Some n ∧ 0 < n
    ∧ (s ≠ PSEUDO_EXTENT_MARKER → usable_size ≠ 0 →
       (s + n) * block_size self ≤ usable_size).
Proof.
  intros Hok Hin Hnonneg.
  apply _CheckExtents_Ok in Hok as (_ & _ & Hall).
  rewrite Forall_forall in Hall.
  destruct (Hall ex Hin) as (s & n & Hs & Hn & Hnz & Hfit & _).
  exists s, n. unfold getattr_Z in Hnonneg. rewrite Hn in Hnonneg.
  simpl in Hnonneg. split_and!; auto. lia.
Qed.

End Properties.

(** Witness of C3: a two-block extent on a partition of two blocks. *)
Lemma C3_witness :
  ∃ s n,
    start_block (extent 0 2) = Some s ∧ num_blocks (extent 0 2) = Some n
    ∧ 0 < n
    ∧ (s ≠ PSEUDO_EXTENT_MARKER (Externals := toy_externals) → 8192 ≠ 0 →
       (s + n) * block_size delta_checker ≤ 8192).
Proof.
  apply (C3_extents_within_nonzero_usable_size (H := toy_externals)
           delta_checker [extent 0 2] 8192 (Some [0; 0]) "dst_extents" false
           false Report_init Report_init (2, Some [1; 1]) (extent 0 2)).
  - vm_compute. reflexivity.
  - apply list_elem_of_here.
  - vm_compute. discriminate.
Defined.

(** Counterexample to C3 as stated: with [usable_size = 0] the bound is not
    checked, and an extent of one block is accepted although
    [(0 + 1) * block_size] exceeds [0]. *)
Lemma C3_counterexample :
  _CheckExtents (H := toy_externals) delta_checker [extent 0 1] 0
    (Some [0]) "dst_extents" false false Report_init
  = (Ok (1, Some [1]), Report_init)
  ∧ start_block (extent 0 1) ≠ Some (PSEUDO_EXTENT_MARKER (Externals := toy_externals))
  ∧ ¬ ((0 + 1) * block_size delta_checker ≤ 0).
Proof.
  split_and!; [vm_compute; reflexivity | discriminate | vm_compute; tauto].
Qed.

Section OperationProperties.
Context `{Externals}.

(** ** Single operations *)

Lemma _CheckPresentIff_Ok {A B} (val1 : option A) (val2 : option B)
    (name1 name2 : string) (obj_name : option string) (u : unit) :
  _CheckPresentIff val1 val2 name1 name2 obj_name = Ok u →
  (is_Some val1 ↔ is_Some val2).
Proof.
  unfold _CheckPresentIff.
  destruct val1, val2; simpl; try discriminate; intros _;
    split; intros [? ?]; try discriminate; eauto.
Qed.

(** What a successful [_CheckOperation] has established. *)
Lemma _CheckOperation_Ok self op op_name is_last old_block_counters
    new_block_counters old_fs_size new_usable_size prev_data_offset
    allow_signature blob_hash_counts r res r' :
  _CheckOperation self op op_name is_last old_block_counters
    new_block_counters old_fs_size new_usable_size prev_data_offset
    allow_signature blob_hash_counts r = (Ok res, r') →
  data_used res = default 0 (data_length op)
  ∧ Forall (extent_checked self old_fs_size
              (Z.of_nat (length (src_extents op))) true false)
           (src_extents op)
  ∧ Forall (extent_checked self new_usable_size
              (Z.of_nat (length (dst_extents op)))
              (negb (check_dst_pseudo_extents self))
              (allow_signature && is_last && bool_decide (type op = REPLACE)))
           (dst_extents op)
  ∧ (is_Some (data_offset op) ↔ is_Some (data_length op))
  ∧ dst_extents op ≠ []
  ∧ (∀ off, data_offset op = Some off → off = prev_data_offset)
  ∧ (if bool_decide (type op ∈ [REPLACE; REPLACE_BZ])
     then _CheckReplaceOperation self op (data_length op)
            (total_blocks (dst_extents op)) op_name = Ok tt
     else payload_type self ≠ Some _TYPE_FULL
          ∧ if bool_decide (type op = MOVE)
            then _CheckMoveOperation self op (data_offset op)
                   (total_blocks (src_extents op))
                   (total_blocks (dst_extents op)) op_name = Ok tt
            else type op = BSDIFF
                 ∧ _CheckBsdiffOperation self (data_length op)
                     (total_blocks (dst_extents op)) op_name = Ok tt).
Proof.
  unfold _CheckOperation. intros Hok. inv_fields.
  repeat match goal with
         | Hx : _CheckExtents _ _ _ _ _ _ _ _ = (Ok _, _) |- _ =>
             apply _CheckExtents_Ok in Hx as (-> & ? & ?)
         | Hp : _CheckPresentIff _ _ _ _ _ = Ok _ |- _ =>
             apply _CheckPresentIff_Ok in Hp
         | Hd : bool_decide (dst_extents op = []) = false |- _ =>
             apply bool_decide_eq_false in Hd
         end.
  split_and!; try done.
  - intros off Hoff.
    match goal with
    | Hc : match data_offset op with _ => _ end _ = (Ok _, _) |- _ =>
        rewrite Hoff in Hc; inv_ok
    end.
    match goal with
    | Hc : negb _ = false |- _ =>
        apply negb_false_iff, Z.eqb_eq in Hc; exact Hc
    end.
  - match goal with
    | Hc : (if bool_decide (type op ∈ _) then _ else _) _ = (Ok _, _),
      Hs : _.1 = total_blocks (src_extents op),
      Hd : _.1 = total_blocks (dst_extents op) |- _ =>
        rewrite Hs, Hd in Hc;
        repeat case_bool_decide; inv_ok;
        repeat match goal with u : unit |- _ => destruct u end;
        split_and?; try done
    end.
Qed.

Lemma _CheckBlocksFitLength_Ok length num_blocks block_size length_name
    block_name u :
  _CheckBlocksFitLength length num_blocks block_size length_name block_name
  = Ok u →
  (num_blocks - 1) * block_size < length ≤ num_blocks * block_size.
Proof.
  unfold _CheckBlocksFitLength. intros Hok. inv_ok.
  apply Z.ltb_ge in Ha. apply Z.leb_gt in Hok. lia.
Qed.

(** C7: an accepted [REPLACE] operation has no source extents, carries
    [data_offset] and [data_length], and its [data_length] fills the
    destination blocks, pseudo-extents counted, up to the last one:
    [(total_dst_blocks - 1) * block_size < data_length <=
     total_dst_blocks * block_size]. *)
Theorem C7_replace_data_fills_dst_blocks
    (self : PayloadChecker) (op : InstallOperation) (op_name : string)
    (is_last : bool) (old_block_counters new_block_counters : option (list Z))
    (old_fs_size new_usable_size prev_data_offset : Z)
    (allow_signature : bool) (blob_hash_counts : gmap string Z)
    (r r' : Report) (res : op_result) :
  type op = REPLACE →
  _CheckOperation self op op_name is_last old_block_counters
    new_block_counters old_fs_size new_usable_size prev_data_offset
    allow_signature blob_hash_counts r = (Ok res, r') →
  src_extents op = []
  ∧ ∃ offset length,
      data_offset op = Some offset ∧ data_length op = Some length
      ∧ (total_blocks (dst_extents op) - 1) * block_size self < length
      ∧ length ≤ total_blocks (dst_extents op) * block_size self.
Proof.
  intros Htype Hok.
  apply _CheckOperation_Ok in Hok
    as (Hused & Hsrc & Hdst & Hiff & Hne & Hcur & Hty).
  rewrite Htype in Hty.
  rewrite bool_decide_eq_true_2 in Hty by apply list_elem_of_here.
  unfold _CheckReplaceOperation in Hty. inv_ok.
  apply negb_false_iff, bool_decide_eq_true in Ha. split; [done|].
  destruct (data_length op) as [length|] eqn:Hlen; [|discriminate].
  destruct (proj2 Hiff) as [offset Hoff]; [eauto|].
  exists offset, length. rewrite Htype in Hty.
  rewrite bool_decide_eq_true_2 in Hty by done.
  apply _CheckBlocksFitLength_Ok in Hty. split_and!; auto; lia.
Qed.

End OperationProperties.

(** Witness of C7: the rootfs operation of the minimal full payload. *)
Lemma C7_witness :
  src_extents (replace_op [] [extent 0 2] 0 8192) = []
  ∧ ∃ offset length,
      data_offset (replace_op [] [extent 0 2] 0 8192) = Some offset
      ∧ data_length (replace_op [] [extent 0 2] 0 8192) = Some length
      ∧ (total_blocks (dst_extents (replace_op [] [extent 0 2] 0 8192)) - 1)
        * block_size (new_checker full_payload) < length
      ∧ length
        ≤ total_blocks (dst_extents (replace_op [] [extent 0 2] 0 8192))
          * block_size (new_checker full_payload).
Proof.
  eapply (C7_replace_data_fills_dst_blocks (H := toy_externals)
            (new_checker full_payload) (replace_op [] [extent 0 2] 0 8192)
            "install_operations[0]" true None (Some [0; 0]) 0 8192 0 false
            {["hashed" := 0]} Report_init).
  - reflexivity.
  - vm_compute. reflexivity.
Defined.

(** ** The walk of [_CheckMoveOperation] *)

Lemma block_at_head (idx num : Z) (rest : list (Z * Z)) (j : Z) :
  j < num → block_at ((idx, num) :: rest) j = Some (idx + j).
Proof. intros Hj. simpl. by rewrite (proj2 (Z.ltb_lt j num) Hj). Qed.

(** Skipping the first [advance] blocks of the first run. *)
Lemma block_at_advance (idx num advance : Z) (rest : list (Z * Z)) (j : Z) :
  advance ≤ num → advance ≤ j →
  block_at ((idx, num) :: rest) j
  = block_at (if num - advance =? 0 then rest
              else (idx + advance, num - advance) :: rest) (j - advance).
Proof.
  intros Hadv Hj. simpl.
  destruct (num - advance =? 0) eqn:Hrest.
  - apply Z.eqb_eq in Hrest.
    rewrite (proj2 (Z.ltb_ge j num)) by lia. f_equal. lia.
  - simpl. destruct (j <? num) eqn:Hlt.
    + apply Z.ltb_lt in Hlt.
      rewrite (proj2 (Z.ltb_lt (j - advance) (num - advance))) by lia.
      f_equal. lia.
    + apply Z.ltb_ge in Hlt.
      rewrite (proj2 (Z.ltb_ge (j - advance) (num - advance))) by lia.
      f_equal. lia.
Qed.

Lemma pending_runs_advance (ex : Extent) (idx num advance : Z)
    (extent_iter : list Extent) :
  pending_runs (if num - advance =? 0 then None else Some ex)
    (idx + advance) (num - advance) extent_iter
  = (if num - advance =? 0 then runs_of extent_iter
     else (idx + advance, num - advance) :: runs_of extent_iter).
Proof. by destruct (num - advance =? 0). Qed.

Lemma MOVE_not_replace : bool_decide (MOVE ∈ [REPLACE; REPLACE_BZ]) = false.
Proof. reflexivity. Qed.

Section MoveProperties.
Context `{Externals}.

(** The loop ends within as many iterations as its state can still need. *)
Lemma _CheckMoveOperation_loop_terminates fuel self total_src_blocks
    total_dst_blocks op_name i src_extent_iter dst_extent_iter src_extent
    dst_extent src_idx src_num dst_idx dst_num :
  (move_measure src_extent_iter dst_extent_iter src_extent dst_extent
   < fuel)%nat →
  _CheckMoveOperation_loop fuel self total_src_blocks total_dst_blocks
    op_name i src_extent_iter dst_extent_iter src_extent dst_extent src_idx
    src_num dst_idx dst_num ≠ None.
Proof.
  revert i src_extent_iter dst_extent_iter src_extent dst_extent src_idx
    src_num dst_idx dst_num.
  induction fuel as [|fuel IH]; intros i si di se de sidx snum didx dnum Hm;
    [lia|].
  simpl. destruct (negb (i <? total_src_blocks)); [done|].
  destruct se as [sx|]; [|destruct si as [|sx si]; [done|]];
    (destruct de as [dx|]; [|destruct di as [|dx di]; [done|]]);
    (match goal with
     | |- (if ?c then _ else _) ≠ None => destruct c; [done|]
     end;
     apply IH; unfold move_measure in *; simpl in *;
     match goal with
     | |- context [Z.min ?a ?b] =>
         destruct (Z.min_spec a b) as [[_ ->]|[_ ->]];
         rewrite ?Z.sub_diag; simpl;
         repeat match goal with
                | |- context [if ?c then _ else _] => destruct c
                end; simpl; lia
     end).
Qed.

(** Within [total_src_blocks], the blocks that the loop walked differ
    position by position: the comparison at the head of a chunk decides
    the whole chunk, since both block numbers advance together. *)
Lemma _CheckMoveOperation_loop_differ fuel self total_src_blocks
    total_dst_blocks op_name i src_extent_iter dst_extent_iter src_extent
    dst_extent src_idx src_num dst_idx dst_num exit_state :
  check_move_same_src_dst_block self = true →
  Forall (fun ex => 0 ≤ getattr_Z (num_blocks ex)) src_extent_iter →
  Forall (fun ex => 0 ≤ getattr_Z (num_blocks ex)) dst_extent_iter →
  (is_Some src_extent → 0 ≤ src_num) →
  (is_Some dst_extent → 0 ≤ dst_num) →
  _CheckMoveOperation_loop fuel self total_src_blocks total_dst_blocks
    op_name i src_extent_iter dst_extent_iter src_extent dst_extent src_idx
    src_num dst_idx dst_num = Some (Ok exit_state) →
  ∀ j, 0 ≤ j < total_src_blocks - i →
    ∃ a b,
      block_at (pending_runs src_extent src_idx src_num src_extent_iter) j
      = Some a
      ∧ block_at (pending_runs dst_extent dst_idx dst_num dst_extent_iter) j
        = Some b
      ∧ a ≠ b.
Proof.
  intros Hcheck. revert i src_extent_iter dst_extent_iter src_extent
    dst_extent src_idx src_num dst_idx dst_num.
  induction fuel as [|fuel IH];
    intros i si di se de sidx snum didx dnum Hsi Hdi Hsn Hdn Hloop j Hj;
    simpl in Hloop;
    (destruct (i <? total_src_blocks) eqn:Hi; simpl in Hloop;
     [apply Z.ltb_lt in Hi | apply Z.ltb_ge in Hi; lia]);
    [discriminate|].
  (* the runs after the two fetches *)
  assert (∃ si' sx sidx' snum' di' dx didx' dnum',
    pending_runs se sidx snum si = (sidx', snum') :: runs_of si'
    ∧ pending_runs de didx dnum di = (didx', dnum') :: runs_of di'
    ∧ 0 ≤ snum' ∧ 0 ≤ dnum'
    ∧ Forall (fun ex => 0 ≤ getattr_Z (num_blocks ex)) si'
    ∧ Forall (fun ex => 0 ≤ getattr_Z (num_blocks ex)) di'
    ∧ sidx' ≠ didx'
    ∧ let advance := Z.min snum' dnum' in
      _CheckMoveOperation_loop fuel self total_src_blocks total_dst_blocks
        op_name (i + advance) si' di'
        (if snum' - advance =? 0 then None else Some sx)
        (if dnum' - advance =? 0 then None else Some dx)
        (sidx' + advance) (snum' - advance) (didx' + advance)
        (dnum' - advance) = Some (Ok exit_state))
    as (si' & sx & sidx' & snum' & di' & dx & didx' & dnum'
        & -> & -> & Hsn' & Hdn' & Hsi' & Hdi' & Hne & Hrec).
  { rewrite Hcheck in Hloop. simpl in Hloop.
    destruct se as [sx|]; [|destruct si as [|sx si]; [discriminate|]];
      (destruct de as [dx|]; [|destruct di as [|dx di]; [discriminate|]]);
      match type of Hloop with
      | (if ?s =? ?d then _ else _) = _ =>
          destruct (s =? d) eqn:Hsame; [discriminate|];
          apply Z.eqb_neq in Hsame
      end;
      repeat match goal with
             | Hall : Forall _ (_ :: _) |- _ =>
                 apply Forall_cons in Hall as [? ?]
             end;
      do 8 eexists; (split_and!; [reflexivity | reflexivity | ..]);
      eauto. }
  set (advance := Z.min snum' dnum') in *.
  assert (0 ≤ advance ∧ advance ≤ snum' ∧ advance ≤ dnum') as (? & ? & ?)
    by (unfold advance; lia).
  destruct (Z.lt_ge_cases j advance) as [Hin|Hout].
  - exists (sidx' + j), (didx' + j).
    rewrite !block_at_head by lia. split_and!; [done | done | lia].
  - rewrite (block_at_advance sidx' snum' advance) by lia.
    rewrite (block_at_advance didx' dnum' advance) by lia.
    assert (is_Some (if snum' - advance =? 0 then None else Some sx) →
            0 ≤ snum' - advance) as Hsn'' by lia.
    assert (is_Some (if dnum' - advance =? 0 then None else Some dx) →
            0 ≤ dnum' - advance) as Hdn'' by lia.
    assert (0 ≤ j - advance < total_src_blocks - (i + advance)) as Hj'
      by lia.
    pose proof (IH _ _ _ _ _ _ _ _ _ Hsi' Hdi' Hsn'' Hdn'' Hrec _ Hj')
      as Hres.
    rewrite !pending_runs_advance in Hres. exact Hres.
Qed.

(** The loop raises nothing but [PayloadError]. *)
Lemma _CheckMoveOperation_loop_raises fuel self total_src_blocks
    total_dst_blocks op_name i src_extent_iter dst_extent_iter src_extent
    dst_extent src_idx src_num dst_idx dst_num e :
  _CheckMoveOperation_loop fuel self total_src_blocks total_dst_blocks
    op_name i src_extent_iter dst_extent_iter src_extent dst_extent src_idx
    src_num dst_idx dst_num = Some (Raise e) →
  is_PayloadError e = true.
Proof.
  revert i src_extent_iter dst_extent_iter src_extent dst_extent src_idx
    src_num dst_idx dst_num.
  induction fuel as [|fuel IH]; intros i si di se de sidx snum didx dnum;
    simpl; (destruct (negb (i <? total_src_blocks)); [discriminate|]);
    [discriminate|].
  destruct se as [sx|]; [|destruct si as [|sx si]; [by intros [= <-]|]];
    (destruct de as [dx|]; [|destruct di as [|dx di]; [by intros [= <-]|]]);
    (match goal with
     | |- (if ?c then _ else _) = _ → _ =>
         destruct c; [by intros [= <-] | apply IH]
     end).
Qed.

(** The loop bound of [_CheckMoveOperation] is never reached. *)
Lemma _CheckMoveOperation_terminates self op data_offset total_src_blocks
    total_dst_blocks op_name :
  _CheckMoveOperation self op data_offset total_src_blocks total_dst_blocks
    op_name ≠ Raise Diverged.
Proof.
  unfold _CheckMoveOperation.
  pose proof (_CheckMoveOperation_loop_terminates
                (S (length (src_extents op) + length (dst_extents op))) self
                total_src_blocks total_dst_blocks op_name 0 (src_extents op)
                (dst_extents op) None None 0 0 0 0) as Hterm.
  destruct (_CheckMoveOperation_loop _ _ _ _ _ _ _ _ _ _ _ _ _ _)
    as [[[se de]|e]|] eqn:Hloop;
    (destruct (bool_decide (is_Some data_offset)); [done|]);
    (destruct (negb (total_src_blocks =? total_dst_blocks)); [done|]);
    cbn [rbind raise_if].
  - destruct (bool_decide (is_Some se)); [done|].
    destruct (bool_decide (is_Some de)); done.
  - intros [= ->]. by apply _CheckMoveOperation_loop_raises in Hloop.
  - exfalso. apply Hterm; [|done]. unfold move_measure. simpl. lia.
Qed.

Lemma _CheckMoveOperation_Ok self op data_offset total_src_blocks
    total_dst_blocks op_name u :
  Forall (fun ex => 0 ≤ getattr_Z (num_blocks ex)) (src_extents op) →
  Forall (fun ex => 0 ≤ getattr_Z (num_blocks ex)) (dst_extents op) →
  _CheckMoveOperation self op data_offset total_src_blocks total_dst_blocks
    op_name = Ok u →
  data_offset = None
  ∧ total_src_blocks = total_dst_blocks
  ∧ (check_move_same_src_dst_block self = true →
     ∀ j, 0 ≤ j < total_src_blocks →
       ∃ a b, nth_block (src_extents op) j = Some a
              ∧ nth_block (dst_extents op) j = Some b ∧ a ≠ b).
Proof.
  intros Hsrc Hdst. unfold _CheckMoveOperation.
  destruct (_CheckMoveOperation_loop _ _ _ _ _ _ _ _ _ _ _ _ _ _)
    as [[exit_state|e]|] eqn:Hloop; intros Hok; inv_ok; try discriminate.
  match goal with
  | Hd : bool_decide (is_Some data_offset) = false,
    Ht : negb (_ =? _) = false |- _ =>
      apply bool_decide_eq_false in Hd;
      apply negb_false_iff, Z.eqb_eq in Ht
  end.
  split_and!; [by destruct data_offset; [exfalso; eauto|] | done |].
  intros Hcheck j Hj.
  eapply (_CheckMoveOperation_loop_differ _ _ _ _ _ _ _ _ _ _ _ _ _ _ _
            Hcheck Hsrc Hdst) in Hloop;
    [exact Hloop | by intros [? ?] | by intros [? ?] | lia].
Qed.

(** C5: an accepted [MOVE] operation carries neither [data_offset] nor
    [data_length], has as many source blocks as destination blocks, and,
    when [check_move_same_src_dst_block] is enabled, its [i]-th logical
    source block differs from its [i]-th logical destination block for
    every position [i] below the total number of source blocks. *)
Theorem C5_move_blocks_differ_by_position
    (self : PayloadChecker) (op : InstallOperation) (op_name : string)
    (is_last : bool) (old_block_counters new_block_counters : option (list Z))
    (old_fs_size new_usable_size prev_data_offset : Z)
    (allow_signature : bool) (blob_hash_counts : gmap string Z)
    (r r' : Report) (res : op_result) :
  type op = MOVE →
  Forall wf_extent (src_extents op) →
  Forall wf_extent (dst_extents op) →
  _CheckOperation self op op_name is_last old_block_counters
    new_block_counters old_fs_size new_usable_size prev_data_offset
    allow_signature blob_hash_counts r = (Ok res, r') →
  data_offset op = None
  ∧ data_length op = None
  ∧ total_blocks (src_extents op) = total_blocks (dst_extents op)
  ∧ (check_move_same_src_dst_block self = true →
     ∀ i, 0 ≤ i < total_blocks (src_extents op) →
       ∃ a b, nth_block (src_extents op) i = Some a
              ∧ nth_block (dst_extents op) i = Some b ∧ a ≠ b).
Proof.
  intros Htype Hsrc Hdst Hok.
  apply _CheckOperation_Ok in Hok
    as (Hused & _ & _ & Hiff & Hne & Hcur & Hty).
  rewrite Htype in Hty.
  rewrite MOVE_not_replace in Hty.
  destruct Hty as [_ Hty]. rewrite bool_decide_eq_true_2 in Hty by done.
  apply _CheckMoveOperation_Ok in Hty as (Hoff & Htot & Hdiff).
  - split_and!; [done | | done | done].
    destruct (data_length op) eqn:Hlen; [|done].
    destruct (proj2 Hiff) as [? Hsome]; [eauto | congruence].
  - eapply Forall_impl; [exact Hsrc|]. intros ex [_ [? _]]. done.
  - eapply Forall_impl; [exact Hdst|]. intros ex [_ [? _]]. done.
Qed.

End MoveProperties.

(** Witness of C5: the move that swaps the two blocks of a partition. *)
Lemma C5_witness :
  data_offset swap_op = None
  ∧ data_length swap_op = None
  ∧ total_blocks (src_extents swap_op) = total_blocks (dst_extents swap_op)
  ∧ (check_move_same_src_dst_block delta_checker = true →
     ∀ i, 0 ≤ i < total_blocks (src_extents swap_op) →
       ∃ a b, nth_block (src_extents swap_op) i = Some a
              ∧ nth_block (dst_extents swap_op) i = Some b ∧ a ≠ b).
Proof.
  eapply (C5_move_blocks_differ_by_position (H := toy_externals)
            delta_checker swap_op "install_operations[0]" true
            (Some [0; 0]) (Some [0; 0]) 8192 8192 0 false ∅ Report_init).
  - reflexivity.
  - repeat constructor; vm_compute; congruence.
  - repeat constructor; vm_compute; congruence.
  - vm_compute. reflexivity.
Defined.


(** ** The signature primitive *)

Lemma startswith_app (s p : string) :
  startswith s p = true ↔ ∃ tail, s = p +:+ tail.
Proof.
  revert s. induction p as [|c p IH]; intros s; simpl.
  - split; [intros _; by exists s | done].
  - destruct s as [|d s].
    + split; [done | intros [tail ?]; discriminate].
    + rewrite andb_true_iff, bool_decide_eq_true, IH. split.
      * intros [-> [tail ->]]. by exists tail.
      * intros [tail [= -> ->]]. eauto.
Qed.

Section SignatureProperties.
Context `{Externals}.

(** C8: [_CheckSha256Signature] succeeds exactly when the signature is 256
    bytes long and the plaintext that the RSA verifier returns has the
    length of [SIG_ASN1_HEADER] plus 32, starts with [SIG_ASN1_HEADER] and
    ends with the expected digest in its last 32 bytes; in every other case
    it raises a [PayloadError].  Only the output of the verifier is
    looked at. *)
Theorem C8_sha256_signature_accepts_iff
    (sig_data pubkey_file_name actual_hash sig_name : string) :
  let signed_data :=
    (_Run ["openssl"; "rsautl"; "-verify"; "-pubin"; "-inkey";
           pubkey_file_name] sig_data).1 in
  let accepted :=
    len sig_data = 256
    ∧ len signed_data = len SIG_ASN1_HEADER + 32
    ∧ (∃ tail, signed_data = SIG_ASN1_HEADER +:+ tail)
    ∧ str_from (String.length signed_data - 32) signed_data = actual_hash in
  (_CheckSha256Signature sig_data pubkey_file_name actual_hash sig_name
   = Ok tt ↔ accepted)
  ∧ (¬ accepted →
     ∃ fmt args,
       _CheckSha256Signature sig_data pubkey_file_name actual_hash sig_name
       = Raise (PayloadError fmt args)).
Proof.
  intros signed_data accepted.
  assert (len signed_data = len SIG_ASN1_HEADER + 32 →
          (String.length signed_data - 32)%nat
          = String.length SIG_ASN1_HEADER) as Hdrop
    by (unfold len; lia).
  assert (_CheckSha256Signature sig_data pubkey_file_name actual_hash sig_name
          = Ok tt ∧ accepted
          ∨ (¬ accepted
             ∧ ∃ fmt args,
                 _CheckSha256Signature sig_data pubkey_file_name actual_hash
                   sig_name = Raise (PayloadError fmt args))) as Hcases.
  { unfold _CheckSha256Signature, accepted. fold signed_data.
    destruct (len sig_data =? 256) eqn:Hsig; simpl;
      [apply Z.eqb_eq in Hsig | apply Z.eqb_neq in Hsig; right; split;
                                [tauto | eauto]].
    destruct (len signed_data =? len SIG_ASN1_HEADER + 32) eqn:Hlen; simpl;
      [apply Z.eqb_eq in Hlen | apply Z.eqb_neq in Hlen; right; split;
                                [tauto | eauto]].
    destruct (startswith signed_data SIG_ASN1_HEADER) eqn:Hpre; simpl.
    - rewrite <- (Hdrop Hlen).
      apply startswith_app in Hpre.
      case_bool_decide as Hhash; simpl.
      + left. split_and!; done.
      + right. split; [tauto | eauto].
    - right. split; [|eauto]. intros (_ & _ & Hpre' & _).
      apply startswith_app in Hpre'. congruence. }
  split.
  - split.
    + intros Hok. destruct Hcases as [[_ ?]|[_ (? & ? & Hraise)]]; [done|].
      congruence.
    + intros Hacc. destruct Hcases as [[? _]|[? _]]; done.
  - intros Hnot. destruct Hcases as [[_ ?]|[_ ?]]; done.
Qed.

End SignatureProperties.

(** Witness of C8: a verifier that returns the header followed by the
    expected digest makes a 256-byte signature pass. *)
Lemma C8_witness :
  _CheckSha256Signature (H := accepting_externals) (spaces 256) "key.pem"
    blank_hash "metadata signature" = Ok tt.
Proof.
  apply (C8_sha256_signature_accepts_iff (H := accepting_externals)
           (spaces 256) "key.pem" blank_hash "metadata signature").
  split_and!; [reflexivity | reflexivity | | reflexivity].
  exists blank_hash. reflexivity.
Defined.


(** ** Sequences of operations *)

Lemma sum_data_length_app (ops1 ops2 : list InstallOperation) :
  sum_data_length (ops1 ++ ops2) = sum_data_length ops1 + sum_data_length ops2.
Proof. induction ops1 as [|op ops1 IH]; simpl; lia. Qed.

Section SequenceProperties.
Context `{Externals}.

(** The loop of [_CheckOperations] adds up the data lengths, and checked
    every data offset against the running total. *)
Lemma _CheckOperations_loop_Ok self items n_ops old_fs_size new_usable_size
    prev_data_offset allow_signature st r st' r' :
  _CheckOperations_loop self items n_ops old_fs_size new_usable_size
    prev_data_offset allow_signature st r = (Ok st', r') →
  total_data_used st'
  = total_data_used st + sum_data_length (map fst items)
  ∧ ∀ k op offset,
      map fst items !! k = Some op → data_offset op = Some offset →
      offset = prev_data_offset + total_data_used st
               + sum_data_length (take k (map fst items)).
Proof.
  revert st r.
  induction items as [|[op op_name] items IH]; intros st r Hok;
    simpl in Hok; inv_ok.
  - simpl. split; [lia | done].
  - apply IH in Hok as [Htotal Hoffsets]. simpl in Htotal, Hoffsets.
    match goal with
    | Hop : _CheckOperation _ _ _ _ _ _ _ _ _ _ _ _ = (Ok ?res, _),
      Ht : (if negb (data_used ?res =? 0) then _ else _) _ = (Ok ?tot, _)
      |- _ =>
        apply _CheckOperation_Ok in Hop
          as (Hused & _ & _ & _ & _ & Hcur & _);
        assert (tot.2 = total_data_used st + default 0 (data_length op))
          as Htot2
          by (destruct (data_used res =? 0) eqn:Hz; simpl in Ht; inv_ok;
              simpl; [apply Z.eqb_eq in Hz|]; lia)
    end.
    rewrite Htot2 in Htotal, Hoffsets. split; [simpl; lia|].
    intros [|k] op' offset Hlookup Hoff; simpl in Hlookup |- *.
    + injection Hlookup as <-. apply Hcur in Hoff. lia.
    + rewrite (Hoffsets k op' offset Hlookup Hoff). lia.
Qed.

Lemma _CheckOperations_Ok self operations report base_name old_fs_size
    new_fs_size new_usable_size prev_data_offset allow_signature r total r' :
  _CheckOperations self operations report base_name old_fs_size new_fs_size
    new_usable_size prev_data_offset allow_signature r = (Ok total, r') →
  total = sum_data_length operations
  ∧ ∀ k op offset,
      operations !! k = Some op → data_offset op = Some offset →
      offset = prev_data_offset + sum_data_length (take k operations).
Proof.
  unfold _CheckOperations. intros Hok. inv_ok.
  match goal with
  | Hinit : _CheckOperations_init _ _ _ _ = Ok ?st0,
    Hloop : _CheckOperations_loop _ _ _ _ _ _ _ _ _ = (Ok _, _) |- _ =>
      apply _CheckOperations_loop_Ok in Hloop as [Htotal Hoffsets];
      rewrite ObjNameIter_items in Htotal, Hoffsets;
      assert (total_data_used st0 = 0) as Hzero
        by (unfold _CheckOperations_init in Hinit; inv_ok;
            by injection Hinit as <-)
  end.
  rewrite Hzero in Htotal, Hoffsets. split; [lia|].
  intros k op offset Hlookup Hoff.
  rewrite (Hoffsets k op offset Hlookup Hoff). lia.
Qed.

(** ** The driver *)

Lemma _CheckManifest_payload self report rootfs_part_size kernel_part_size
    r self' r' :
  _CheckManifest self report rootfs_part_size kernel_part_size r
  = (Ok self', r') →
  payload self' = payload self.
Proof.
  unfold _CheckManifest. intros Hok. inv_ok.
  match goal with
  | Hb : match _ with Some _ => _ | None => _ end _ = (Ok ?s, _) |- _ =>
      assert (payload s = payload self) as Hs;
      [ destruct (_.1) in Hb; inv_ok;
        [ destruct (_.1) in Hb; inv_ok | ]; done
      | simpl; exact Hs ]
  end.
Qed.

(** The two sequences are checked with one advancing cursor. *)
Lemma Run_operations_Ok self pubkey_file_name metadata_sig_file
    rootfs_part_size kernel_part_size report r self' total r' :
  Run_operations self pubkey_file_name metadata_sig_file rootfs_part_size
    kernel_part_size report r = (Ok (self', total), r') →
  payload self' = payload self
  ∧ total = sum_data_length (all_operations (Payload.manifest (payload self)))
  ∧ ∀ k op offset,
      all_operations (Payload.manifest (payload self)) !! k = Some op →
      data_offset op = Some offset →
      offset = sum_data_length
                 (take k (all_operations (Payload.manifest (payload self)))).
Proof.
  unfold Run_operations, all_operations. intros Hok. inv_ok.
  apply Mret_Ok in Hok as [[= <- <-] ->].
  match goal with
  | Hm : _CheckManifest _ _ _ _ _ = (Ok ?s, _) |- _ =>
      apply _CheckManifest_payload in Hm as Hpayload;
      rewrite Hpayload in *
  end.
  repeat match goal with
         | Hops : _CheckOperations _ _ _ _ _ _ _ _ _ _ = (Ok _, _) |- _ =>
             apply _CheckOperations_Ok in Hops as [-> ?]
         end.
  set (rootfs := Manifest.install_operations _) in *.
  set (kernel := Manifest.kernel_install_operations _) in *.
  split_and!; [done | by rewrite sum_data_length_app |].
  intros k op offset Hlookup Hoff.
  destruct (decide (k < length rootfs)%nat) as [Hk|Hk].
  - rewrite lookup_app_l in Hlookup by done.
    rewrite take_app_le by lia.
    match goal with
    | Hr : ∀ k op offset, rootfs !! k = Some op → _ |- _ =>
        rewrite (Hr k op offset Hlookup Hoff); lia
    end.
  - rewrite lookup_app_r in Hlookup by lia.
    rewrite take_app_ge by lia. rewrite sum_data_length_app.
    match goal with
    | Hr : ∀ k op offset, kernel !! k = Some op → _ |- _ =>
        rewrite (Hr _ op offset Hlookup Hoff); lia
    end.
Qed.

Lemma Run_try_Ok self pubkey_file_name metadata_sig_file rootfs_part_size
    kernel_part_size payload_file_size report r u r' :
  Run_try self pubkey_file_name metadata_sig_file rootfs_part_size
    kernel_part_size payload_file_size report r = (Ok u, r') →
  ∃ self' total r1,
    Run_operations self pubkey_file_name metadata_sig_file rootfs_part_size
      kernel_part_size report r = (Ok (self', total), r1)
    ∧ Payload.data_offset (payload self) + total = payload_file_size.
Proof.
  unfold Run_try. intros Hok. inv_ok.
  match goal with
  | Hops : Run_operations _ _ _ _ _ _ _ = (Ok ?ops, ?r1),
    Hc : negb (_ =? _) = false |- _ =>
      destruct ops as [self' total]; exists self', total, r1;
      apply negb_false_iff, Z.eqb_eq in Hc; simpl in Hc;
      apply Run_operations_Ok in Hops as Hfacts;
      destruct Hfacts as (Hpayload & _ & _); rewrite Hpayload in Hc
  end.
  done.
Qed.

Lemma Run_Ok self pubkey_file_name metadata_sig_file rootfs_part_size
    kernel_part_size report_out_file :
  (Run self pubkey_file_name metadata_sig_file rootfs_part_size
     kernel_part_size report_out_file).1 = Ok tt →
  ∃ r',
    Run_try self pubkey_file_name metadata_sig_file rootfs_part_size
      kernel_part_size (len (Payload.payload_file (payload self))) []
      Report_init = (Ok tt, r').
Proof.
  unfold Run.
  destruct (Run_try _ _ _ _ _ _ _ _) as [outcome report].
  destruct report_out_file; [destruct (Dump report 0 2)|]; simpl;
    intros Houtcome; try discriminate; subst; eauto.
Qed.

End SequenceProperties.


Section DataSectionProperties.
Context `{Externals}.

(** One step of a computation followed in a hypothesis and in the goal at
    once: the statement that both run first is evaluated on its state. *)
Ltac step_both Hok :=
  unfold Mbind at 1 in Hok; unfold Mbind at 1;
  match type of Hok with
  | match ?m with _ => _ end = _ =>
      let Hstep := fresh "Hstep" in
      destruct m as [[?|?] ?] eqn:Hstep;
      [cbv beta iota in Hok |- * | discriminate Hok]
  end.

(** An operation accepted at one value of the cursor is rejected, with the
    error of the contiguity check, at any other value. *)
Lemma _CheckOperation_other_cursor self op op_name is_last
    old_block_counters new_block_counters old_fs_size new_usable_size
    prev_data_offset allow_signature blob_hash_counts r res r' offset
    other_offset :
  _CheckOperation self op op_name is_last old_block_counters
    new_block_counters old_fs_size new_usable_size prev_data_offset
    allow_signature blob_hash_counts r = (Ok res, r') →
  data_offset op = Some offset →
  other_offset ≠ prev_data_offset →
  (_CheckOperation self op op_name is_last old_block_counters
     new_block_counters old_fs_size new_usable_size other_offset
     allow_signature blob_hash_counts r).1
  = Raise (PayloadError
             "%s: data offset (%d) not matching amount used so far (%d)"
             [AStr op_name; AInt offset; AInt other_offset]).
Proof.
  intros Hok Hoff Hother.
  pose proof (_CheckOperation_Ok _ _ _ _ _ _ _ _ _ _ _ _ _ _ Hok)
    as (_ & _ & _ & _ & _ & Hcur & _).
  specialize (Hcur offset Hoff). subst prev_data_offset.
  unfold _CheckOperation in *.
  do 9 step_both Hok.
  match goal with
  | Hf : _CheckOptionalField (data_offset op) _ _ _ _ _ _ = (Ok ?v, _) |- _ =>
      apply _CheckOptionalField_None_Ok in Hf as [Hv _]; subst v
  end.
  rewrite Hoff. unfold Mbind at 1, Mraise_if.
  rewrite (proj2 (Z.eqb_neq offset other_offset)) by done. reflexivity.
Qed.

(** X22: [Run] accepts a payload only if [payload.data_offset] plus the sum
    of [data_length] over the rootfs and then the kernel operations equals
    the size of the payload file; and when the operations have been
    examined without error and the two differ, [Run] raises the
    [PayloadError] of that check (with or without a report file, unless
    dumping the report fails itself). *)
Theorem X22_used_payload_size_is_file_size
    (self : PayloadChecker) (pubkey_file_name metadata_sig_file : option string)
    (rootfs_part_size kernel_part_size : Z) (report_out_file : bool) :
  let file_size := len (Payload.payload_file (payload self)) in
  let used :=
    Payload.data_offset (payload self)
    + sum_data_length (all_operations (Payload.manifest (payload self))) in
  ((Run self pubkey_file_name metadata_sig_file rootfs_part_size
      kernel_part_size report_out_file).1 = Ok tt →
   used = file_size)
  ∧ (∀ self' total r',
       Run_operations self pubkey_file_name metadata_sig_file
         rootfs_part_size kernel_part_size [] Report_init
       = (Ok (self', total), r') →
       used ≠ file_size →
       let error :=
         PayloadError
           "used payload size (%d) different from actual file size (%d)"
           [AInt used; AInt file_size] in
       Run self pubkey_file_name metadata_sig_file rootfs_part_size
         kernel_part_size false = (Raise error, None)
       ∧ ∀ lines, Dump r' 0 2 = Ok lines →
           Run self pubkey_file_name metadata_sig_file rootfs_part_size
             kernel_part_size true = (Raise error, Some lines)).
Proof.
  intros file_size used. split.
  - intros Hrun. apply Run_Ok in Hrun as [r' Htry].
    apply Run_try_Ok in Htry as (self' & total & r1 & Hops & Hsize).
    apply Run_operations_Ok in Hops as (_ & -> & _). exact Hsize.
  - intros self' total r' Hops Hdiffer error.
    pose proof (Run_operations_Ok _ _ _ _ _ _ _ _ _ _ Hops)
      as (Hpayload & -> & _).
    assert (Run_try self pubkey_file_name metadata_sig_file rootfs_part_size
              kernel_part_size file_size [] Report_init = (Raise error, r'))
      as Htry.
    { unfold Run_try. unfold Mbind at 1. rewrite Hops. cbv beta iota.
      simpl fst. simpl snd. rewrite Hpayload. unfold Mbind at 1, Mraise_if.
      fold used. rewrite (proj2 (Z.eqb_neq used file_size)) by done.
      reflexivity. }
    unfold Run. fold file_size. rewrite Htry. split; [done|].
    intros lines ->. done.
Qed.

(** X23: in an accepted payload, every operation that carries data has a
    [data_offset] equal to the sum of [data_length] over the operations
    before it, in manifest order, rootfs operations first; and an
    operation that passes at the running total of the cursor raises the
    [PayloadError] of the contiguity check at any other cursor value, that
    is, when its [data_offset] is anything else than the running total. *)
Theorem X23_data_offsets_are_contiguous
    (self : PayloadChecker) (pubkey_file_name metadata_sig_file : option string)
    (rootfs_part_size kernel_part_size : Z) (report_out_file : bool) :
  ((Run self pubkey_file_name metadata_sig_file rootfs_part_size
      kernel_part_size report_out_file).1 = Ok tt →
   ∀ k op offset,
     all_operations (Payload.manifest (payload self)) !! k = Some op →
     data_offset op = Some offset →
     offset = sum_data_length
                (take k (all_operations (Payload.manifest (payload self)))))
  ∧ (∀ op op_name is_last old_block_counters new_block_counters old_fs_size
       new_usable_size prev_data_offset allow_signature blob_hash_counts r
       res r' offset other_offset,
       _CheckOperation self op op_name is_last old_block_counters
         new_block_counters old_fs_size new_usable_size prev_data_offset
         allow_signature blob_hash_counts r = (Ok res, r') →
       data_offset op = Some offset →
       other_offset ≠ prev_data_offset →
       offset = prev_data_offset
       ∧ (_CheckOperation self op op_name is_last old_block_counters
            new_block_counters old_fs_size new_usable_size other_offset
            allow_signature blob_hash_counts r).1
         = Raise (PayloadError
                    "%s: data offset (%d) not matching amount used so far (%d)"
                    [AStr op_name; AInt offset; AInt other_offset])).
Proof.
  split.
  - intros Hrun. apply Run_Ok in Hrun as [r' Htry].
    apply Run_try_Ok in Htry as (self' & total & r1 & Hops & _).
    apply Run_operations_Ok in Hops as (_ & _ & Hoffsets). exact Hoffsets.
  - intros. split.
    + eapply _CheckOperation_Ok; eauto.
    + eapply _CheckOperation_other_cursor; eauto.
Qed.

End DataSectionProperties.

(** Witness of X22: the minimal full payload is accepted and uses its whole
    file; with one more byte in the file, it is rejected. *)
Lemma X22_witness :
  Payload.data_offset full_payload
  + sum_data_length (all_operations (Payload.manifest full_payload))
  = len (Payload.payload_file full_payload)
  ∧ Run (H := toy_externals) (new_checker full_payload_long) None None 0 0
      false
    = (Raise (PayloadError
                "used payload size (%d) different from actual file size (%d)"
                [AInt 12408; AInt 12409]), None).
Proof.
  split.
  - apply (proj1 (X22_used_payload_size_is_file_size (H := toy_externals)
                    (new_checker full_payload) None None 0 0 false)).
    vm_compute. reflexivity.
  - eapply (proj2 (X22_used_payload_size_is_file_size (H := toy_externals)
                     (new_checker full_payload_long) None None 0 0 false)).
    + vm_compute. reflexivity.
    + vm_compute. discriminate.
Defined.

(** Witness of X23: the two operations of the minimal full payload start at
    0 and at 8192, and the kernel operation is rejected at cursor 8193. *)
Lemma X23_witness :
  (∀ k op offset,
     all_operations (Payload.manifest full_payload) !! k = Some op →
     data_offset op = Some offset →
     offset = sum_data_length
                (take k (all_operations (Payload.manifest full_payload))))
  ∧ (_CheckOperation (H := toy_externals)
       (set_payload_type _TYPE_FULL (new_checker full_payload))
       (replace_op [] [extent 0 1] 8192 4096) "kernel_install_operations[0]"
       true None (Some [0]) 0 4096 8193 true {["hashed" := 0]}
       Report_init).1
    = Raise (PayloadError
               "%s: data offset (%d) not matching amount used so far (%d)"
               [AStr "kernel_install_operations[0]"; AInt 8192; AInt 8193]).
Proof.
  split.
  - apply (proj1 (X23_data_offsets_are_contiguous (H := toy_externals)
                    (new_checker full_payload) None None 0 0 false)).
    vm_compute. reflexivity.
  - eapply (proj2 (X23_data_offsets_are_contiguous (H := toy_externals)
                     (set_payload_type _TYPE_FULL (new_checker full_payload))
                     None None 0 0 false)
              (replace_op [] [extent 0 1] 8192 4096)
              "kernel_install_operations[0]" true None (Some [0]) 0 4096
              8192 true {["hashed" := 0]} Report_init).
    + vm_compute. reflexivity.
    + reflexivity.
    + discriminate.
Defined.

(** ** Full payloads write each block once *)

Lemma dom_Histogram_FromKeyList_acc (key_list : list Z) (counts : gmap Z Z) :
  dom (foldl (fun count_dict key =>
                <[key := default 0 (count_dict !! key) + 1]> count_dict)
             counts key_list)
  = dom counts ∪ list_to_set key_list.
Proof.
  revert counts. induction key_list as [|key l IH]; intros counts; simpl.
  - by rewrite (right_id_L ∅ (∪)).
  - rewrite IH, dom_insert_L.
    by rewrite (comm_L (∪) {[key]} (dom counts)), (assoc_L (∪)).
Qed.

Lemma Histogram_GetKeys_FromKeyList (key_list : list Z) :
  Histogram_GetKeys (Histogram_FromKeyList key_list) = list_to_set key_list.
Proof.
  unfold Histogram_GetKeys, Histogram_FromKeyList.
  by rewrite dom_Histogram_FromKeyList_acc, dom_empty_L, (left_id_L ∅ (∪)).
Qed.

Lemma _SizeToNumBlocks_ceil self size n :
  0 < block_size self →
  _SizeToNumBlocks self size = Ok n →
  (n - 1) * block_size self < size ≤ n * block_size self.
Proof.
  unfold _SizeToNumBlocks, py_floordiv. intros Hpos.
  destruct (block_size self =? 0); [discriminate|]. intros [= <-].
  pose proof (Z.div_mod (size + block_size self - 1) (block_size self)).
  pose proof (Z.mod_pos_bound (size + block_size self - 1) (block_size self)).
  nia.
Qed.

Section FullPayloadProperties.
Context `{Externals}.

(** C4: when the payload type is full, [_CheckOperations] succeeds only if,
    after its loop has processed all the operations, the counters
    [new_block_counters[:_SizeToNumBlocks(new_fs_size)]] are all equal to 1:
    the key set of the write histogram is exactly [{1}].  The slice has one
    counter per block of the reported size [new_fs_size], rounded up
    (as far as the array, allocated for [new_usable_size], reaches). *)
Theorem C4_full_payload_writes_each_block_once
    (self : PayloadChecker) (operations : list InstallOperation)
    (report : report_ref) (base_name : string)
    (old_fs_size new_fs_size new_usable_size prev_data_offset : Z)
    (allow_signature : bool) (r r' : Report) (total : Z) :
  payload_type self = Some _TYPE_FULL →
  _CheckOperations self operations report base_name old_fs_size new_fs_size
    new_usable_size prev_data_offset allow_signature r = (Ok total, r') →
  ∃ st0 st r1 n counters,
    _CheckOperations_init self old_fs_size new_usable_size allow_signature
    = Ok st0
    ∧ _CheckOperations_loop self (ObjNameIter operations base_name)
        (Z.of_nat (length operations)) old_fs_size new_usable_size
        prev_data_offset allow_signature st0 r = (Ok st, r1)
    ∧ new_block_counters st = Some counters
    ∧ _SizeToNumBlocks self new_fs_size = Ok n
    ∧ (0 < block_size self →
       (n - 1) * block_size self < new_fs_size ≤ n * block_size self)
    ∧ Histogram_GetKeys (Histogram_FromKeyList (slice_to counters n)) = {[1]}
    ∧ slice_to counters n ≠ []
    ∧ ∀ c, c ∈ slice_to counters n → c = 1.
Proof.
  intros Hfull. unfold _CheckOperations. intros Hok. inv_ok.
  match goal with
  | Hinit : _CheckOperations_init _ _ _ _ = Ok ?st0,
    Hloop : _CheckOperations_loop _ _ _ _ _ _ _ ?st0 _ = (Ok ?st, ?r1),
    Hhist : new_write_hist _ _ ?st = Ok ?hist,
    Hc : _ && negb (bool_decide (Histogram_GetKeys ?hist = _)) = false |- _ =>
      unfold new_write_hist in Hhist; inv_ok;
      destruct (new_block_counters st) as [counters|] eqn:Hcounters;
        [|discriminate];
      injection Hhist as <-;
      rewrite Hfull, bool_decide_eq_true_2 in Hc by done;
      apply negb_false_iff, bool_decide_eq_true in Hc;
      match goal with
      | Hn : _SizeToNumBlocks _ _ = Ok ?n |- _ =>
          exists st0, st, r1, n, counters;
          split_and!; try done;
          [ intros Hpos; by apply _SizeToNumBlocks_ceil | | ]
      end;
      rewrite Histogram_GetKeys_FromKeyList in Hc
  end.
  - intros Hnil. rewrite Hnil in Hc. simpl in Hc.
    assert (1 ∈ (∅ : gset Z)) as Hin
      by (rewrite Hc; by apply elem_of_singleton).
    by apply not_elem_of_empty in Hin.
  - intros c Hin. apply (elem_of_list_to_set (C := gset Z)) in Hin.
    rewrite Hc in Hin. by apply elem_of_singleton in Hin.
Qed.

End FullPayloadProperties.

(** Witness of C4: the rootfs sequence of the minimal full payload. *)
Lemma C4_witness :
  ∃ st0 st r1 n counters,
    _CheckOperations_init
      (set_payload_type _TYPE_FULL (new_checker full_payload)) 0 8192 false
    = Ok st0
    ∧ _CheckOperations_loop (H := toy_externals)
        (set_payload_type _TYPE_FULL (new_checker full_payload))
        (ObjNameIter (H := toy_externals)
           [replace_op [] [extent 0 2] 0 8192] "install_operations")
        (Z.of_nat (length [replace_op [] [extent 0 2] 0 8192])) 0 8192 0
        false st0 Report_init = (Ok st, r1)
    ∧ new_block_counters st = Some counters
    ∧ _SizeToNumBlocks
        (set_payload_type _TYPE_FULL (new_checker full_payload)) 8192 = Ok n
    ∧ (0 < block_size (set_payload_type _TYPE_FULL (new_checker full_payload)) →
       (n - 1)
       * block_size (set_payload_type _TYPE_FULL (new_checker full_payload))
       < 8192
       ≤ n * block_size (set_payload_type _TYPE_FULL
                           (new_checker full_payload)))
    ∧ Histogram_GetKeys (Histogram_FromKeyList (slice_to counters n)) = {[1]}
    ∧ slice_to counters n ≠ []
    ∧ ∀ c, c ∈ slice_to counters n → c = 1.
Proof.
  eapply (C4_full_payload_writes_each_block_once (H := toy_externals)
            (set_payload_type _TYPE_FULL (new_checker full_payload))
            [replace_op [] [extent 0 2] 0 8192] [] "install_operations" 0
            8192 8192 0 false Report_init).
  - reflexivity.
  - vm_compute. reflexivity.
Defined.

(** ** No dictionary access misses its key *)

Lemma rbind_no_KeyError {A B} (m : result A) (k : A → result B) :
  m ≠ Raise KeyError → (∀ a, m = Ok a → k a ≠ Raise KeyError) →
  rbind m k ≠ Raise KeyError.
Proof.
  intros Hm Hk. destruct m as [a|e]; simpl; [eauto|].
  intros [= ->]. by apply Hm.
Qed.

Lemma raise_if_no_KeyError (c : bool) (e : exn) :
  e ≠ KeyError → raise_if c e ≠ Raise KeyError.
Proof. destruct c; simpl; congruence. Qed.

Lemma no_KeyError_ret {A} (a : A) : no_KeyError (Mret a).
Proof. by intros r. Qed.

Lemma no_KeyError_raise {A} (e : exn) :
  e ≠ KeyError → no_KeyError (Mraise (A := A) e).
Proof. intros He r. simpl. congruence. Qed.

Lemma no_KeyError_raise_if (c : bool) (e : exn) :
  e ≠ KeyError → no_KeyError (Mraise_if c e).
Proof. intros He r. destruct c; simpl; congruence. Qed.

Lemma no_KeyError_lift {A} (m : result A) :
  m ≠ Raise KeyError → no_KeyError (Mlift m).
Proof. by intros Hm r. Qed.

Lemma no_KeyError_bind {A B} (m : M A) (k : A → M B) :
  no_KeyError m → (∀ a r r', m r = (Ok a, r') → no_KeyError (k a)) →
  no_KeyError (Mbind m k).
Proof.
  intros Hm Hk r. unfold Mbind. specialize (Hm r).
  destruct (m r) as [[a|e] r1] eqn:Hmr; simpl in *; [by eapply Hk|].
  intros [= ->]. by apply Hm.
Qed.

Lemma at_report_no_KeyError {A} (p : report_ref)
    (f : Report → result (A * Report)) (r : Report) :
  (∀ r, f r ≠ Raise KeyError) → at_report p f r ≠ Raise KeyError.
Proof.
  intros Hf. revert r. induction p as [|i p IH]; intros r; simpl; [done|].
  destruct r as [ns glen fin]. destruct (ns !! i) as [[| title sub |]|];
    try done.
  specialize (IH sub). by destruct (at_report p f sub) as [[a sub']|e].
Qed.

Lemma no_KeyError_on_report {A} (p : report_ref)
    (f : Report → result (A * Report)) :
  (∀ r, f r ≠ Raise KeyError) → no_KeyError (on_report p f).
Proof.
  intros Hf r. unfold on_report.
  pose proof (at_report_no_KeyError p f r Hf) as Hat.
  destruct (at_report p f r) as [[a r']|e]; simpl; [done|].
  intros [= ->]. by apply Hat.
Qed.

Lemma no_KeyError_AddField report name value linebreak indent :
  no_KeyError (report_AddField report name value linebreak indent).
Proof.
  apply no_KeyError_on_report. intros [ns glen fin]. simpl. by destruct fin.
Qed.

Lemma no_KeyError_AddSubReport report title :
  no_KeyError (report_AddSubReport report title).
Proof.
  apply no_KeyError_on_report. intros [ns glen fin]. simpl. by destruct fin.
Qed.

Lemma no_KeyError_AddSection report title :
  no_KeyError (report_AddSection report title).
Proof.
  apply no_KeyError_on_report. intros [ns glen fin]. simpl. by destruct fin.
Qed.

(** Reduces a goal [no_KeyError m] or [m ≠ Raise KeyError] along the
    structure of [m]. *)
Ltac no_KeyError_step :=
  match goal with
  | |- no_KeyError (Mret _) => apply no_KeyError_ret
  | |- no_KeyError (Mraise _) => apply no_KeyError_raise; discriminate
  | |- no_KeyError (Mraise_if _ _) => apply no_KeyError_raise_if; discriminate
  | |- no_KeyError (Mlift _) => apply no_KeyError_lift
  | |- no_KeyError (Mbind _ _) =>
      apply no_KeyError_bind; [|intros ? ? ? ?; cbv beta]
  | |- no_KeyError (report_AddField _ _ _ _ _) => apply no_KeyError_AddField
  | |- no_KeyError (report_AddSubReport _ _) => apply no_KeyError_AddSubReport
  | |- no_KeyError (report_AddSection _ _) => apply no_KeyError_AddSection
  | |- no_KeyError (match ?x with _ => _ end) => destruct x eqn:?
  | |- rbind _ _ ≠ Raise KeyError =>
      apply rbind_no_KeyError; [|intros ? ?; cbv beta]
  | |- raise_if _ _ ≠ Raise KeyError =>
      apply raise_if_no_KeyError; discriminate
  | |- Raise _ ≠ Raise KeyError => discriminate
  | |- Ok _ ≠ Raise KeyError => discriminate
  | |- (match ?x with _ => _ end) ≠ Raise KeyError => destruct x eqn:?
  end.

Lemma dict_add_no_KeyError `{Countable K} (d : gmap K Z) (k : K) (v : Z) :
  k ∈ dom d → dict_add d k v ≠ Raise KeyError.
Proof.
  intros [x Hx]%elem_of_dom. unfold dict_add. by rewrite Hx.
Qed.

Lemma dict_add_dom `{Countable K} (d d' : gmap K Z) (k : K) (v : Z) :
  dict_add d k v = Ok d' → dom d' = dom d.
Proof.
  unfold dict_add. destruct (d !! k) as [x|] eqn:Hx; [|discriminate].
  intros [= <-]. rewrite dom_insert_L.
  apply subseteq_union_1_L, singleton_subseteq_l, elem_of_dom. eauto.
Qed.

Lemma no_KeyError_CheckElem {V} (field : option V) name report is_mandatory
    is_submsg convert msg_name linebreak indent :
  no_KeyError (_CheckElem field name report is_mandatory is_submsg convert
                 msg_name linebreak indent).
Proof. unfold _CheckElem. repeat no_KeyError_step. Qed.

Lemma no_KeyError_the_value {V} (v : option V) : no_KeyError (the_value v).
Proof. unfold the_value. repeat no_KeyError_step. Qed.

Lemma no_KeyError_CheckMandatoryField {V} (field : option V) name report
    msg_name convert linebreak indent :
  no_KeyError (_CheckMandatoryField field name report msg_name convert
                 linebreak indent).
Proof.
  unfold _CheckMandatoryField. repeat no_KeyError_step.
  - apply no_KeyError_CheckElem.
  - apply no_KeyError_the_value.
Qed.

Lemma no_KeyError_CheckOptionalField {V} (field : option V) name report
    convert linebreak indent :
  no_KeyError (_CheckOptionalField field name report convert linebreak indent).
Proof.
  unfold _CheckOptionalField. repeat no_KeyError_step.
  apply no_KeyError_CheckElem.
Qed.

Lemma _CheckPresentIff_no_KeyError {A B} (val1 : option A) (val2 : option B)
    name1 name2 obj_name :
  _CheckPresentIff val1 val2 name1 name2 obj_name ≠ Raise KeyError.
Proof.
  unfold _CheckPresentIff.
  destruct (_ && _); [|done]. by destruct (negb _).
Qed.

Lemma _CheckBlocksFitLength_no_KeyError length num_blocks block_size
    length_name block_name :
  _CheckBlocksFitLength length num_blocks block_size length_name block_name
  ≠ Raise KeyError.
Proof. unfold _CheckBlocksFitLength. repeat no_KeyError_step. Qed.

Lemma py_range_no_KeyError start stop : py_range start stop ≠ Raise KeyError.
Proof. unfold py_range. by destruct (2 ^ 63 <=? stop - start). Qed.

Lemma record_block_usage_no_KeyError blocks block_counters :
  record_block_usage blocks block_counters ≠ Raise KeyError.
Proof.
  revert block_counters. induction blocks as [|i blocks IH]; intros bc; simpl;
    [done|].
  no_KeyError_step; [|apply IH].
  unfold counter_incr. repeat no_KeyError_step.
Qed.

Section KeyProperties.
Context `{Externals}.

Lemma no_KeyError_CheckExtents_loop self items n_extents usable_size
    block_counters allow_pseudo allow_signature total :
  no_KeyError (_CheckExtents_loop self items n_extents usable_size
                 block_counters allow_pseudo allow_signature total).
Proof.
  revert block_counters total.
  induction items as [|[ex ex_name] items IH]; intros bc total; simpl.
  - apply no_KeyError_ret.
  - repeat first
      [ apply no_KeyError_CheckMandatoryField
      | apply py_range_no_KeyError
      | apply record_block_usage_no_KeyError
      | apply IH
      | no_KeyError_step ].
Qed.

Lemma _CheckLength_no_KeyError self length total_blocks op_name length_name :
  _CheckLength self length total_blocks op_name length_name ≠ Raise KeyError.
Proof.
  unfold _CheckLength.
  repeat first [apply _CheckBlocksFitLength_no_KeyError | no_KeyError_step].
Qed.

Lemma _CheckReplaceOperation_no_KeyError self op data_length
    total_dst_blocks op_name :
  _CheckReplaceOperation self op data_length total_dst_blocks op_name
  ≠ Raise KeyError.
Proof.
  unfold _CheckReplaceOperation.
  repeat first [apply _CheckBlocksFitLength_no_KeyError | no_KeyError_step].
Qed.

Lemma _CheckMoveOperation_no_KeyError self op data_offset total_src_blocks
    total_dst_blocks op_name :
  _CheckMoveOperation self op data_offset total_src_blocks total_dst_blocks
    op_name ≠ Raise KeyError.
Proof.
  unfold _CheckMoveOperation.
  destruct (_CheckMoveOperation_loop _ _ _ _ _ _ _ _ _ _ _ _ _ _)
    as [[[se de]|e]|] eqn:Hloop; repeat no_KeyError_step.
  intros [= ->]. by apply _CheckMoveOperation_loop_raises in Hloop.
Qed.

Lemma _CheckBsdiffOperation_no_KeyError self data_length total_dst_blocks
    op_name :
  _CheckBsdiffOperation self data_length total_dst_blocks op_name
  ≠ Raise KeyError.
Proof. unfold _CheckBsdiffOperation. repeat no_KeyError_step. Qed.

Lemma no_KeyError_CheckOperation self op op_name is_last old_block_counters
    new_block_counters old_fs_size new_usable_size prev_data_offset
    allow_signature blob_hash_counts :
  (∀ p offset length, ReadDataBlob p offset length ≠ Raise KeyError) →
  blob_keys_ok allow_signature blob_hash_counts →
  no_KeyError (_CheckOperation self op op_name is_last old_block_counters
                 new_block_counters old_fs_size new_usable_size
                 prev_data_offset allow_signature blob_hash_counts).
Proof.
  intros Hread (Hhashed & Hunhashed & Hsignature). unfold _CheckOperation.
  repeat first
    [ apply no_KeyError_CheckExtents_loop
    | apply no_KeyError_CheckOptionalField
    | apply no_KeyError_the_value
    | apply _CheckPresentIff_no_KeyError
    | apply _CheckLength_no_KeyError
    | apply _CheckReplaceOperation_no_KeyError
    | apply _CheckMoveOperation_no_KeyError
    | apply _CheckBsdiffOperation_no_KeyError
    | apply Hread
    | by apply dict_add_no_KeyError
    | no_KeyError_step ].
  apply dict_add_no_KeyError, Hsignature. by destruct allow_signature.
Qed.

(** The keys of [blob_hash_counts] are the same after [_CheckOperation]. *)
Lemma _CheckOperation_blob_keys self op op_name is_last old_block_counters
    new_block_counters old_fs_size new_usable_size prev_data_offset
    allow_signature blob_hash_counts r res r' :
  _CheckOperation self op op_name is_last old_block_counters
    new_block_counters old_fs_size new_usable_size prev_data_offset
    allow_signature blob_hash_counts r = (Ok res, r') →
  dom (res_blob_hash_counts res) = dom blob_hash_counts.
Proof.
  unfold _CheckOperation. intros Hok. inv_ok. simpl.
  match goal with
  | Hb : match data_sha256_hash op with _ => _ end _ = (Ok _, _) |- _ =>
      destruct (data_sha256_hash op);
      [ inv_ok; destruct (_ : option Z) in Hb; inv_fields
      | repeat match type of Hb with
               | (if ?c then _ else _) _ = _ => destruct c
               end; inv_ok ]
  end;
    first [done | by eapply dict_add_dom].
Qed.

(** An accepted [MOVE] operation carries no data. *)
Lemma _CheckOperation_MOVE_no_data self op op_name is_last
    old_block_counters new_block_counters old_fs_size new_usable_size
    prev_data_offset allow_signature blob_hash_counts r res r' :
  type op = MOVE →
  _CheckOperation self op op_name is_last old_block_counters
    new_block_counters old_fs_size new_usable_size prev_data_offset
    allow_signature blob_hash_counts r = (Ok res, r') →
  data_offset op = None ∧ data_length op = None ∧ data_used res = 0.
Proof.
  intros Htype Hok.
  apply _CheckOperation_Ok in Hok
    as (Hused & _ & _ & Hiff & _ & _ & Hty).
  rewrite Htype, MOVE_not_replace in Hty. destruct Hty as [_ Hty].
  rewrite bool_decide_eq_true_2 in Hty by done.
  unfold _CheckMoveOperation in Hty. apply rbind_Ok in Hty as (u & Hdata & Hrest).
  apply raise_if_Ok, bool_decide_eq_false in Hdata.
  assert (data_offset op = None) as Hoff
    by (destruct (data_offset op); [exfalso; eauto | done]).
  assert (data_length op = None) as Hlen.
  { destruct (data_length op) eqn:Hlen; [|done].
    destruct (proj2 Hiff) as [? Hsome]; [eauto | congruence]. }
  rewrite Hused, Hlen. done.
Qed.

(** The dictionaries keep their keys along the loop of
    [_CheckOperations], and every update finds its key. *)
Lemma no_KeyError_CheckOperations_loop self items n_ops old_fs_size
    new_usable_size prev_data_offset allow_signature st :
  (∀ p offset length, ReadDataBlob p offset length ≠ Raise KeyError) →
  dicts_ok allow_signature st →
  no_KeyError (_CheckOperations_loop self items n_ops old_fs_size
                 new_usable_size prev_data_offset allow_signature st).
Proof.
  intros Hread. revert st.
  induction items as [|[op op_name] items IH];
    intros st (Hcounts & Htotals & Hhashed & Hunhashed & Hsignature); simpl.
  - apply no_KeyError_ret.
  - apply no_KeyError_bind; [no_KeyError_step|]. intros [] r0 r0' Hvalid.
    apply Mraise_if_Ok in Hvalid as [Hvalid _].
    apply negb_false_iff, bool_decide_eq_true, elem_of_dom in Hvalid.
    apply no_KeyError_bind;
      [by apply no_KeyError_lift, dict_add_no_KeyError|].
    intros op_counts' r1 r1' [Hadd _]%Mlift_Ok.
    apply no_KeyError_bind; [by apply no_KeyError_CheckOperation|].
    intros res r2 r2' Hop.
    apply no_KeyError_bind.
    + destruct (negb (data_used res =? 0)) eqn:Hdata; [|apply no_KeyError_ret].
      apply no_KeyError_bind; [|intros; apply no_KeyError_ret].
      apply no_KeyError_lift, dict_add_no_KeyError.
      rewrite Htotals. rewrite Hcounts in Hvalid.
      destruct (decide (type op = MOVE)) as [Hmove|Hmove].
      * apply (_CheckOperation_MOVE_no_data _ _ _ _ _ _ _ _ _ _ _ _ _ _ Hmove)
          in Hop as (_ & _ & Hzero).
        rewrite Hzero in Hdata. discriminate.
      * revert Hvalid Hmove. rewrite !elem_of_union, !elem_of_singleton.
        tauto.
    + intros totals r3 r3' Htotals'. apply IH.
      apply dict_add_dom in Hadd.
      apply _CheckOperation_blob_keys in Hop.
      unfold dicts_ok. simpl. rewrite Hadd, Hop.
      split_and!; try done.
      destruct (negb (data_used res =? 0)); inv_ok; simpl; [|done].
      match goal with
      | Hd : dict_add (op_blob_totals st) _ _ = Ok _ |- _ =>
          apply dict_add_dom in Hd; by rewrite Hd
      end.
Qed.

Lemma _CheckOperations_init_dicts_ok self old_fs_size new_usable_size
    allow_signature st :
  _CheckOperations_init self old_fs_size new_usable_size allow_signature
  = Ok st →
  dicts_ok allow_signature st.
Proof.
  unfold _CheckOperations_init. intros Hinit. inv_ok.
  injection Hinit as <-. unfold dicts_ok. simpl.
  rewrite !dom_insert_L, !dom_empty_L, !(right_id_L ∅ (∪)).
  split_and!; [by rewrite !(assoc_L (∪)) | by rewrite !(assoc_L (∪)) | ..];
    destruct allow_signature; rewrite ?dom_insert_L, !elem_of_union,
      !elem_of_singleton; try tauto.
  discriminate.
Qed.

Lemma _CheckOperations_init_no_KeyError self old_fs_size new_usable_size
    allow_signature :
  _CheckOperations_init self old_fs_size new_usable_size allow_signature
  ≠ Raise KeyError.
Proof.
  unfold _CheckOperations_init, _AllocBlockCounters, _SizeToNumBlocks,
    py_floordiv.
  repeat no_KeyError_step.
Qed.

(** C10: [op_blob_totals] has no entry for [MOVE], and yet no statement of
    [_CheckOperations] looks up a missing key: a [MOVE] operation that
    passes [_CheckOperation] has neither [data_offset] nor [data_length]
    and yields 0, and the totals are updated only for a non-zero amount
    (the payload reader is assumed not to raise [KeyError] itself). *)
Theorem C10_blob_totals_never_miss_a_key
    (self : PayloadChecker) (operations : list InstallOperation)
    (report : report_ref) (base_name : string)
    (old_fs_size new_fs_size new_usable_size prev_data_offset : Z)
    (allow_signature : bool) :
  (∀ p offset length, ReadDataBlob p offset length ≠ Raise KeyError) →
  no_KeyError (_CheckOperations self operations report base_name old_fs_size
                 new_fs_size new_usable_size prev_data_offset allow_signature)
  ∧ (∀ st, _CheckOperations_init self old_fs_size new_usable_size
             allow_signature = Ok st →
           op_blob_totals st !! MOVE = None)
  ∧ (∀ op op_name is_last old_block_counters new_block_counters cursor
       blob_hash_counts r res r',
       type op = MOVE →
       _CheckOperation self op op_name is_last old_block_counters
         new_block_counters old_fs_size new_usable_size cursor
         allow_signature blob_hash_counts r = (Ok res, r') →
       data_offset op = None ∧ data_length op = None ∧ data_used res = 0).
Proof.
  intros Hread. split_and!.
  - unfold _CheckOperations.
    apply no_KeyError_bind;
      [apply no_KeyError_lift, _CheckOperations_init_no_KeyError|].
    intros st0 r0 r0' [Hinit _]%Mlift_Ok.
    apply no_KeyError_bind;
      [apply no_KeyError_CheckOperations_loop;
       [done | by eapply _CheckOperations_init_dicts_ok]|].
    intros st r1 r1' _.
    unfold new_write_hist, _SizeToNumBlocks, py_floordiv.
    repeat no_KeyError_step.
  - intros st Hinit. unfold _CheckOperations_init in Hinit. inv_ok.
    injection Hinit as <-. reflexivity.
  - intros. by eapply _CheckOperation_MOVE_no_data.
Qed.

End KeyProperties.

(** Witness of C10: the payload reader of the concrete payloads raises
    nothing but [PayloadError]. *)
Lemma C10_witness :
  no_KeyError (_CheckOperations (H := toy_externals) delta_checker [swap_op]
                 [] "install_operations" 8192 8192 8192 0 false)
  ∧ (∀ st, _CheckOperations_init delta_checker 8192 8192 false = Ok st →
           op_blob_totals st !! MOVE = None)
  ∧ (∀ op op_name is_last old_block_counters new_block_counters cursor
       blob_hash_counts r res r',
       type op = MOVE →
       _CheckOperation (H := toy_externals) delta_checker op op_name is_last
         old_block_counters new_block_counters 8192 8192 cursor false
         blob_hash_counts r = (Ok res, r') →
       data_offset op = None ∧ data_length op = None ∧ data_used res = 0).
Proof.
  apply (C10_blob_totals_never_miss_a_key (H := toy_externals) delta_checker
           [swap_op] [] "install_operations" 8192 8192 8192 0 false).
  intros p offset length. simpl. by destruct (len _ =? length).
Defined.

(** ** The report is sealed by the last statement only *)

Lemma keeps_finalized_ret {A} (a : A) : keeps_finalized (Mret a).
Proof. by intros r. Qed.

Lemma keeps_finalized_raise {A} (e : exn) :
  keeps_finalized (Mraise (A := A) e).
Proof. by intros r. Qed.

Lemma keeps_finalized_raise_if (c : bool) (e : exn) :
  keeps_finalized (Mraise_if c e).
Proof. intros r. by destruct c. Qed.

Lemma keeps_finalized_lift {A} (m : result A) : keeps_finalized (Mlift m).
Proof. by intros r. Qed.

Lemma keeps_finalized_bind {A B} (m : M A) (k : A → M B) :
  keeps_finalized m → (∀ a, keeps_finalized (k a)) →
  keeps_finalized (Mbind m k).
Proof.
  intros Hm Hk r. unfold Mbind. specialize (Hm r).
  destruct (m r) as [[a|e] r1]; simpl in *; [|done].
  by rewrite (Hk a r1).
Qed.

Lemma at_report_finalized {A} (p : report_ref)
    (f : Report → result (A * Report)) (r r' : Report) (a : A) :
  (∀ r a r', f r = Ok (a, r') → is_finalized r' = is_finalized r) →
  at_report p f r = Ok (a, r') → is_finalized r' = is_finalized r.
Proof.
  intros Hf. destruct p as [|i p]; simpl; [apply Hf|].
  destruct r as [ns glen fin]. destruct (ns !! i) as [[| title sub |]|];
    try done.
  destruct (at_report p f sub) as [[a' sub']|e]; [|done].
  by intros [= _ <-].
Qed.

Lemma keeps_finalized_on_report {A} (p : report_ref)
    (f : Report → result (A * Report)) :
  (∀ r a r', f r = Ok (a, r') → is_finalized r' = is_finalized r) →
  keeps_finalized (on_report p f).
Proof.
  intros Hf r. unfold on_report.
  destruct (at_report p f r) as [[a r']|e] eqn:Hat; simpl; [|done].
  by eapply at_report_finalized.
Qed.

Lemma keeps_finalized_AddField report name value linebreak indent :
  keeps_finalized (report_AddField report name value linebreak indent).
Proof.
  apply keeps_finalized_on_report. intros [ns glen fin] a r'. simpl.
  destruct fin; [done|]. by intros [= _ <-].
Qed.

Lemma keeps_finalized_AddSubReport report title :
  keeps_finalized (report_AddSubReport report title).
Proof.
  apply keeps_finalized_on_report. intros [ns glen fin] a r'. simpl.
  destruct fin; [done|]. by intros [= _ <-].
Qed.

Lemma keeps_finalized_AddSection report title :
  keeps_finalized (report_AddSection report title).
Proof.
  apply keeps_finalized_on_report. intros [ns glen fin] a r'. simpl.
  destruct fin; [done|]. by intros [= _ <-].
Qed.

(** Reduces a goal [keeps_finalized m] along the structure of [m]. *)
Ltac keeps_finalized_step :=
  match goal with
  | |- keeps_finalized (Mret _) => apply keeps_finalized_ret
  | |- keeps_finalized (Mraise _) => apply keeps_finalized_raise
  | |- keeps_finalized (Mraise_if _ _) => apply keeps_finalized_raise_if
  | |- keeps_finalized (Mlift _) => apply keeps_finalized_lift
  | |- keeps_finalized (Mbind _ _) =>
      apply keeps_finalized_bind; [|intros ?; cbv beta]
  | |- keeps_finalized (report_AddField _ _ _ _ _) =>
      apply keeps_finalized_AddField
  | |- keeps_finalized (report_AddSubReport _ _) =>
      apply keeps_finalized_AddSubReport
  | |- keeps_finalized (report_AddSection _ _) =>
      apply keeps_finalized_AddSection
  | |- keeps_finalized (match ?x with _ => _ end) => destruct x
  | |- keeps_finalized (let _ := _ in _) => cbv zeta
  end.

Lemma keeps_finalized_CheckElem {V} (field : option V) name report
    is_mandatory is_submsg convert msg_name linebreak indent :
  keeps_finalized (_CheckElem field name report is_mandatory is_submsg
                     convert msg_name linebreak indent).
Proof. unfold _CheckElem. repeat keeps_finalized_step. Qed.

Lemma keeps_finalized_the_value {V} (v : option V) :
  keeps_finalized (the_value v).
Proof. unfold the_value. repeat keeps_finalized_step. Qed.

Lemma keeps_finalized_CheckMandatoryField {V} (field : option V) name report
    msg_name convert linebreak indent :
  keeps_finalized (_CheckMandatoryField field name report msg_name convert
                     linebreak indent).
Proof.
  unfold _CheckMandatoryField.
  repeat first [apply keeps_finalized_CheckElem
               | apply keeps_finalized_the_value | keeps_finalized_step].
Qed.

Lemma keeps_finalized_CheckOptionalField {V} (field : option V) name report
    convert linebreak indent :
  keeps_finalized (_CheckOptionalField field name report convert linebreak
                     indent).
Proof.
  unfold _CheckOptionalField.
  repeat first [apply keeps_finalized_CheckElem | keeps_finalized_step].
Qed.

Lemma keeps_finalized_CheckMandatorySubMsg {V} (field : option V) name report
    msg_name :
  keeps_finalized (_CheckMandatorySubMsg field name report msg_name).
Proof.
  unfold _CheckMandatorySubMsg.
  repeat first [apply keeps_finalized_CheckElem
               | apply keeps_finalized_the_value | keeps_finalized_step].
Qed.

Lemma seals_bind {A B} (m : M A) (k : A → M B) :
  keeps_finalized m → (∀ a, seals (k a)) → seals (Mbind m k).
Proof.
  intros Hm Hk r Hr. unfold Mbind. specialize (Hm r).
  destruct (m r) as [[a|e] r1]; simpl in *; [|congruence].
  apply Hk. congruence.
Qed.

Lemma seals_Finalize : seals (report_Finalize []).
Proof. intros [ns glen fin] Hr. reflexivity. Qed.

Section ReportProperties.
Context `{Externals}.

(** The statements of the checker that may touch the report. *)
Ltac keeps_finalized_solve :=
  repeat first
    [ apply keeps_finalized_CheckMandatoryField
    | apply keeps_finalized_CheckOptionalField
    | apply keeps_finalized_CheckMandatorySubMsg
    | apply keeps_finalized_CheckElem
    | apply keeps_finalized_the_value
    | keeps_finalized_step ].

Lemma keeps_finalized_CheckManifest self report rootfs_part_size
    kernel_part_size :
  keeps_finalized (_CheckManifest self report rootfs_part_size
                     kernel_part_size).
Proof.
  unfold _CheckManifest, _CheckOptionalSubMsg. keeps_finalized_solve.
Qed.

Lemma keeps_finalized_CheckExtents_loop self items n_extents usable_size
    block_counters allow_pseudo allow_signature total :
  keeps_finalized (_CheckExtents_loop self items n_extents usable_size
                     block_counters allow_pseudo allow_signature total).
Proof.
  revert block_counters total.
  induction items as [|[ex ex_name] items IH]; intros bc total; simpl.
  - apply keeps_finalized_ret.
  - repeat first [apply IH | keeps_finalized_solve].
Qed.

Lemma keeps_finalized_CheckOperation self op op_name is_last
    old_block_counters new_block_counters old_fs_size new_usable_size
    prev_data_offset allow_signature blob_hash_counts :
  keeps_finalized (_CheckOperation self op op_name is_last old_block_counters
                     new_block_counters old_fs_size new_usable_size
                     prev_data_offset allow_signature blob_hash_counts).
Proof.
  unfold _CheckOperation, _CheckExtents.
  repeat first [apply keeps_finalized_CheckExtents_loop
               | keeps_finalized_solve].
Qed.

Lemma keeps_finalized_CheckOperations_loop self items n_ops old_fs_size
    new_usable_size prev_data_offset allow_signature st :
  keeps_finalized (_CheckOperations_loop self items n_ops old_fs_size
                     new_usable_size prev_data_offset allow_signature st).
Proof.
  revert st. induction items as [|[op op_name] items IH]; intros st; simpl.
  - apply keeps_finalized_ret.
  - repeat first [apply IH | apply keeps_finalized_CheckOperation
                 | keeps_finalized_solve].
Qed.

Lemma keeps_finalized_CheckOperations self operations report base_name
    old_fs_size new_fs_size new_usable_size prev_data_offset allow_signature :
  keeps_finalized (_CheckOperations self operations report base_name
                     old_fs_size new_fs_size new_usable_size prev_data_offset
                     allow_signature).
Proof.
  unfold _CheckOperations.
  repeat first [apply keeps_finalized_CheckOperations_loop
               | keeps_finalized_solve].
Qed.

Lemma keeps_finalized_CheckSignatures_loop report pubkey_file_name
    payload_hasher items :
  keeps_finalized (_CheckSignatures_loop report pubkey_file_name
                     payload_hasher items).
Proof.
  induction items as [|[sig sig_name] items IH]; simpl.
  - apply keeps_finalized_ret.
  - repeat first [apply IH | keeps_finalized_solve].
Qed.

Lemma keeps_finalized_CheckSignatures self report pubkey_file_name :
  keeps_finalized (_CheckSignatures self report pubkey_file_name).
Proof.
  unfold _CheckSignatures.
  repeat first [apply keeps_finalized_CheckSignatures_loop
               | keeps_finalized_solve].
Qed.

Lemma keeps_finalized_Run_operations self pubkey_file_name metadata_sig_file
    rootfs_part_size kernel_part_size report :
  keeps_finalized (Run_operations self pubkey_file_name metadata_sig_file
                     rootfs_part_size kernel_part_size report).
Proof.
  unfold Run_operations.
  repeat first [apply keeps_finalized_CheckManifest
               | apply keeps_finalized_CheckOperations
               | keeps_finalized_solve].
Qed.

(** The report that the [try] block of [Run] leaves is finalized exactly
    when the block ended without an exception. *)
Lemma Run_try_seals self pubkey_file_name metadata_sig_file rootfs_part_size
    kernel_part_size payload_file_size :
  seals (Run_try self pubkey_file_name metadata_sig_file rootfs_part_size
           kernel_part_size payload_file_size []).
Proof.
  unfold Run_try.
  repeat (apply seals_bind;
          [repeat first [apply keeps_finalized_Run_operations
                        | apply keeps_finalized_CheckSignatures
                        | keeps_finalized_solve]
          | intros ?; cbv beta]).
  apply seals_Finalize.
Qed.

(** C9 (as amended): when [Dump] is called on a report that has not been
    finalized and that generates at least one line, what it writes ends
    with the line [(incomplete report)]; when the report generates no
    line, as after an error of [Run] that precedes the first report node,
    [Dump] writes nothing.  The report left by the [try] block of [Run] is
    finalized exactly when the block raised nothing, and with a
    [report_out_file], [Run] dumps that report whatever the outcome. *)
Theorem C9_dump_marks_unfinished_report_with_lines :
  (∀ r base_indent sub_indent out,
     is_finalized r = false →
     Dump r base_indent sub_indent = Ok out →
     ∃ lines,
       GenerateLines r base_indent sub_indent = Ok lines
       ∧ ((lines = [] ∧ out = [])
          ∨ (lines ≠ [] ∧ out = lines ++ [incomplete_marker]
             ∧ last out = Some incomplete_marker)))
  ∧ (∀ self pubkey_file_name metadata_sig_file rootfs_part_size
       kernel_part_size,
       ∃ outcome report,
         Run_try self pubkey_file_name metadata_sig_file rootfs_part_size
           kernel_part_size (len (Payload.payload_file (payload self))) []
           Report_init = (outcome, report)
         ∧ is_finalized report = (if outcome is Ok _ then true else false)
         ∧ Run self pubkey_file_name metadata_sig_file rootfs_part_size
             kernel_part_size true
           = match Dump report 0 2 with
             | Ok lines => (outcome, Some lines)
             | Raise e => (Raise e, Some [])
             end).
Proof.
  split.
  - intros r base_indent sub_indent out Hfin. unfold Dump. rewrite Hfin.
    destruct (GenerateLines r base_indent sub_indent) as [lines|e];
      simpl; [|discriminate].
    intros [= <-]. exists lines. split; [done|].
    case_bool_decide as Hnil; simpl.
    + left. by subst.
    + right. split_and!; [done | done | apply last_snoc].
  - intros self pubkey_file_name metadata_sig_file rootfs_part_size
      kernel_part_size.
    pose proof (Run_try_seals self pubkey_file_name metadata_sig_file
                  rootfs_part_size kernel_part_size
                  (len (Payload.payload_file (payload self))) Report_init
                  eq_refl) as Hseal.
    unfold Run.
    destruct (Run_try _ _ _ _ _ _ _ _) as [outcome report].
    exists outcome, report. split_and!; [done | exact Hseal | done].
Qed.

End ReportProperties.

(** Witness of C9: a report with a section title that was not finalized. *)
Lemma C9_witness :
  ∃ lines,
    GenerateLines (mkReport [SectionNode (Some "header") 0] 0 false) 0 2
    = Ok lines
    ∧ ((lines = []
        ∧ ["=== header ===" +:+ nl; incomplete_marker] = [])
       ∨ (lines ≠ []
          ∧ ["=== header ===" +:+ nl; incomplete_marker]
            = lines ++ [incomplete_marker]
          ∧ last ["=== header ===" +:+ nl; incomplete_marker]
            = Some incomplete_marker)).
Proof.
  apply (proj1 (C9_dump_marks_unfinished_report_with_lines
                  (H := toy_externals))
           (mkReport [SectionNode (Some "header") 0] 0 false) 0 2).
  - reflexivity.
  - vm_compute. reflexivity.
Defined.

(** Counterexample to C9 as stated: [Run] is given a metadata signature and
    no public key; it raises before any node is added to the report, and
    the dump of the unfinalized report is empty: it does not end with the
    line [(incomplete report)]. *)
Lemma C9_counterexample :
  Run (H := toy_externals) (new_checker full_payload) None (Some "c2ln") 0 0
    true
  = (Raise (PayloadError
              "no public key provided, cannot verify metadata signature" []),
     Some [])
  ∧ is_finalized Report_init = false
  ∧ Dump Report_init 0 2 = Ok []
  ∧ last ([] : list string) ≠ Some incomplete_marker.
Proof.
  split_and!; [vm_compute; reflexivity | reflexivity | reflexivity
              | discriminate].
Qed.

(** C2 does not hold of the code: on a full payload whose [REPLACE]
    operation carries a source extent, [Run] ends in a [TypeError] (the
    read counters of a full payload are [None], and the extent check
    subscripts them), before [_CheckReplaceOperation] gets to reject the
    operation with the [PayloadError] written for this case. *)
Theorem C2_Run_raises_TypeError_on_replace_with_src_extents :
  Run (H := toy_externals) (new_checker full_payload_with_src) None None 0 0
    false
  = (Raise TypeError, None)
  ∧ is_PayloadError TypeError = false
  ∧ _CheckReplaceOperation
      (set_payload_type _TYPE_FULL (new_checker full_payload_with_src))
      (replace_op [extent 0 1] [extent 0 2] 0 8192) (Some 8192) 2
      "install_operations[0]"
    = Raise (PayloadError "%s: contains src_extents"
               [AStr "install_operations[0]"]).
Proof.
  split_and!; [vm_compute; reflexivity | reflexivity | reflexivity].
Qed.

(** C1 does not hold of the code: on the full payload whose [REPLACE]
    carries a source extent and whose file has one byte that no operation
    uses, the used size and the file size differ, and [Run] ends in a
    [TypeError], not in a [PayloadError]: the extent check subscripts the
    missing read counters before the sizes are compared.  Without the
    source extent, the same payload is rejected with the [PayloadError]
    written for this case. *)
Theorem C1_Run_raises_TypeError_when_sizes_differ :
  Payload.data_offset full_payload_with_src_long
  + sum_data_length
      (all_operations (Payload.manifest full_payload_with_src_long))
  ≠ len (Payload.payload_file full_payload_with_src_long)
  ∧ Run (H := toy_externals) (new_checker full_payload_with_src_long) None
      None 0 0 false
    = (Raise TypeError, None)
  ∧ is_PayloadError TypeError = false
  ∧ Run (H := toy_externals) (new_checker full_payload_long) None None 0 0
      false
    = (Raise (PayloadError
                "used payload size (%d) different from actual file size (%d)"
                [AInt 12408; AInt 12409]), None).
Proof.
  split_and!; [vm_compute; discriminate | vm_compute; reflexivity
              | reflexivity | vm_compute; reflexivity].
Qed.

(** C6 does not hold of the code: the first operation of this full payload
    has a [data_offset] of 5 where nothing of the data section is used
    yet, and [Run] ends in a [TypeError], not in a [PayloadError]: the
    operation carries a source extent, and the extent check subscripts the
    missing read counters before the offset is compared.  With read
    counters, the same operation is rejected with the [PayloadError]
    written for this case. *)
Theorem C6_Run_raises_TypeError_on_data_offset_gap :
  all_operations (Payload.manifest full_payload_gap_with_src) !! 0%nat
  = Some gap_op
  ∧ data_offset gap_op = Some 5
  ∧ sum_data_length
      (take 0 (all_operations (Payload.manifest full_payload_gap_with_src)))
    = 0
  ∧ Run (H := toy_externals) (new_checker full_payload_gap_with_src) None
      None 0 0 false
    = (Raise TypeError, None)
  ∧ is_PayloadError TypeError = false
  ∧ (_CheckOperation (H := toy_externals) delta_checker gap_op
       "install_operations[0]" false (Some [0; 0]) (Some [0; 0]) 8192 8192 0
       false {["hashed" := 0]} Report_init).1
    = Raise (PayloadError
               "%s: data offset (%d) not matching amount used so far (%d)"
               [AStr "install_operations[0]"; AInt 5; AInt 0]).
Proof.
  split_and!; [reflexivity | reflexivity | reflexivity
              | vm_compute; reflexivity | reflexivity
              | vm_compute; reflexivity].
Qed.

(** * Further properties of the checker *)

(** ** Block sizes *)

Lemma land_even_odd (a b : Z) : Z.land (2 * a) (2 * b + 1) = 2 * Z.land a b.
Proof.
  apply Z.bits_inj'. intros n Hn. rewrite Z.land_spec.
  destruct (Z.eq_dec n 0) as [->|Hnz].
  - rewrite !Z.testbit_even_0. reflexivity.
  - replace n with (Z.succ (n - 1)) by lia.
    rewrite !Z.testbit_even_succ, Z.testbit_odd_succ by lia.
    by rewrite Z.land_spec.
Qed.

Lemma land_pred_pos (p : positive) :
  Z.land (Z.pos p) (Z.pos p - 1) = 0 ↔ ∃ k : nat, Z.pos p = 2 ^ Z.of_nat k.
Proof.
  induction p as [q IH|q IH|].
  - replace (Z.pos q~1 - 1) with (Z.pos q~0) by lia. split.
    + intros Hland.
      assert (∀ n, 0 ≤ n →
                Z.testbit (Z.land (Z.pos q~1) (Z.pos q~0)) (Z.succ n)
                = Z.testbit (Z.pos q) n) as Hbits.
      { intros n Hn. rewrite Z.land_spec.
        change (Z.pos q~1) with (2 * Z.pos q + 1).
        change (Z.pos q~0) with (2 * Z.pos q).
        rewrite Z.testbit_odd_succ, Z.testbit_even_succ by lia.
        apply andb_diag. }
      exfalso.
      assert (Z.pos q = 0); [|lia].
      apply Z.bits_inj'. intros n Hn.
      rewrite <- Hbits, Hland by done. by rewrite !Z.bits_0.
    + intros [k Hk]. destruct k as [|k]; [simpl in Hk; lia|].
      rewrite Nat2Z.inj_succ, Z.pow_succ_r in Hk by lia. lia.
  - replace (Z.pos q~0) with (2 * Z.pos q) by lia.
    replace (2 * Z.pos q - 1) with (2 * (Z.pos q - 1) + 1) by lia.
    rewrite land_even_odd. split.
    + intros Hland. destruct (proj1 IH) as [k Hk]; [lia|].
      exists (S k). rewrite Nat2Z.inj_succ, Z.pow_succ_r by lia. lia.
    + intros [k Hk]. destruct k as [|k]; [simpl in Hk; lia|].
      rewrite Nat2Z.inj_succ, Z.pow_succ_r in Hk by lia.
      rewrite (proj2 IH); [lia|]. exists k. lia.
  - split; [intros _; by exists 0%nat | done].
Qed.

Lemma _IsPowerOfTwo_spec (val : Z) :
  _IsPowerOfTwo val = true ↔ ∃ k : nat, val = 2 ^ Z.of_nat k.
Proof.
  unfold _IsPowerOfTwo. rewrite andb_true_iff, Z.ltb_lt, Z.eqb_eq.
  destruct val as [|p|p].
  - split; [lia|]. intros [k Hk]. pose proof (Z.pow_pos_nonneg 2 (Z.of_nat k)).
    lia.
  - rewrite land_pred_pos. split; [tauto|]. intros Hk. split; [lia | done].
  - split; [lia|]. intros [k Hk]. pose proof (Z.pow_pos_nonneg 2 (Z.of_nat k)).
    lia.
Qed.

(** X1: [_IsPowerOfTwo] returns [True] exactly on the powers of two
    [1, 2, 4, ...]; zero and the negative numbers are rejected, and so is
    every number with two bits set. *)
Theorem X1_IsPowerOfTwo_iff (val : Z) :
  (_IsPowerOfTwo val = true ↔ ∃ k : nat, val = 2 ^ Z.of_nat k)
  ∧ (val ≤ 0 → _IsPowerOfTwo val = false).
Proof.
  unfold _IsPowerOfTwo. split.
  - rewrite andb_true_iff, Z.ltb_lt, Z.eqb_eq.
    destruct val as [|p|p].
    + split; [lia|]. intros [k Hk].
      pose proof (Z.pow_pos_nonneg 2 (Z.of_nat k)). lia.
    + rewrite land_pred_pos. split; [tauto|]. intros Hk. split; [lia | done].
    + split; [lia|]. intros [k Hk].
      pose proof (Z.pow_pos_nonneg 2 (Z.of_nat k)). lia.
  - intros Hval.
    destruct (0 <? val) eqn:Hpos; [apply Z.ltb_lt in Hpos; lia | done].
Qed.

(** X2: [PayloadChecker.__init__] succeeds exactly when the payload is
    initialized, the block size (4096 when none is given) is a power of
    two, and [assert_type] is [None], ['full'] or ['delta'].  The checker
    then has that positive block size, the asserted type, one check
    enabled for every test that is not disabled, and zeroed sizes. *)
Theorem X2_init_configuration
    (p : Payload.t) (assert_type : option string) (block_size_arg : Z)
    (unhashed : bool) (disabled_tests : list string) :
  let bs := if block_size_arg =? 0 then 4096 else block_size_arg in
  let valid :=
    Payload.is_init p = true
    ∧ (∃ k : nat, bs = 2 ^ Z.of_nat k)
    ∧ (assert_type = None ∨ assert_type = Some "full"
       ∨ assert_type = Some "delta") in
  (valid ↔
   ∃ c, PayloadChecker_init p assert_type block_size_arg unhashed
          disabled_tests = Ok c)
  ∧ ∀ c,
      PayloadChecker_init p assert_type block_size_arg unhashed
        disabled_tests = Ok c →
      payload c = p ∧ block_size c = bs ∧ 0 < block_size c
      ∧ payload_type c = assert_type ∧ allow_unhashed c = unhashed
      ∧ (check_dst_pseudo_extents c = true
         ↔ "dst-pseudo-extents" ∉ disabled_tests)
      ∧ (check_move_same_src_dst_block c = true
         ↔ "move-same-src-dst-block" ∉ disabled_tests)
      ∧ (check_payload_sig c = true ↔ "payload-sig" ∉ disabled_tests)
      ∧ sigs_offset c = Some 0 ∧ sigs_size c = Some 0
      ∧ old_rootfs_fs_size c = 0 ∧ old_kernel_fs_size c = 0
      ∧ new_rootfs_fs_size c = 0 ∧ new_kernel_fs_size c = 0.
Proof.
  intros bs valid.
  assert ((if negb (block_size_arg =? 0) then block_size_arg
           else _DEFAULT_BLOCK_SIZE) = bs) as Hbs
    by (unfold bs; by destruct (block_size_arg =? 0)).
  assert (∀ c, PayloadChecker_init p assert_type block_size_arg unhashed
                 disabled_tests = Ok c →
               valid ∧ block_size c = bs) as Hinv.
  { unfold PayloadChecker_init. rewrite Hbs. intros c Hok. inv_ok.
    injection Hok as <-. simpl. split; [|done]. unfold valid.
    repeat match goal with
           | Hc : negb _ = false |- _ => apply negb_false_iff in Hc
           end.
    split_and!; [done | by apply _IsPowerOfTwo_spec |].
    match goal with
    | Hc : bool_decide (_ ∈ _) = true |- _ =>
        apply bool_decide_eq_true in Hc;
        rewrite !elem_of_cons, elem_of_nil in Hc
    end. tauto. }
  split; [split|].
  - intros (Hinit & Hpow & Htype). unfold PayloadChecker_init.
    rewrite Hbs, Hinit. apply _IsPowerOfTwo_spec in Hpow. rewrite Hpow.
    rewrite bool_decide_eq_true_2;
      [simpl; eauto | rewrite !elem_of_cons; tauto].
  - intros [c Hok]. by apply Hinv in Hok as [? _].
  - intros c Hok. pose proof (Hinv c Hok) as [(_ & [k Hk] & _) Hblock].
    unfold PayloadChecker_init in Hok. rewrite Hbs in Hok. inv_ok.
    injection Hok as <-. simpl.
    rewrite !negb_true_iff, !bool_decide_eq_false.
    pose proof (Z.pow_pos_nonneg 2 (Z.of_nat k)).
    split_and!; try done; lia.
Qed.

(** X3: [_CheckPresentIff] succeeds exactly when both values are [None] or
    neither is; otherwise it raises a [PayloadError] that names the value
    that is present before the one that is missing. *)
Theorem X3_CheckPresentIff_iff {A B} (val1 : option A) (val2 : option B)
    (name1 name2 : string) (obj_name : option string) :
  (_CheckPresentIff val1 val2 name1 name2 obj_name = Ok tt
   ↔ (val1 = None ↔ val2 = None))
  ∧ (val1 ≠ None → val2 = None →
     ∃ where_,
       _CheckPresentIff val1 val2 name1 name2 obj_name
       = Raise (PayloadError "'%s' present without '%s'%s"
                  [AStr name1; AStr name2; AStr where_]))
  ∧ (val1 = None → val2 ≠ None →
     ∃ where_,
       _CheckPresentIff val1 val2 name1 name2 obj_name
       = Raise (PayloadError "'%s' present without '%s'%s"
                  [AStr name2; AStr name1; AStr where_])).
Proof.
  unfold _CheckPresentIff.
  destruct val1 as [v1|], val2 as [v2|]; simpl; split_and!;
    try (intros; congruence); try (intros; eauto; fail);
    try (split; [congruence|]; intros [Hl Hr];
         first [ by specialize (Hl eq_refl) | by specialize (Hr eq_refl) ]).
  all: split; [done | tauto].
Qed.

(** X4: for a positive block size, [_CheckBlocksFitLength] succeeds exactly
    when [num_blocks] is the number of blocks that [_SizeToNumBlocks]
    computes for [length]; every other case is a [PayloadError]. *)
Theorem X4_CheckBlocksFitLength_iff_SizeToNumBlocks
    (self : PayloadChecker) (length num_blocks : Z) (length_name : string)
    (block_name : option string) :
  0 < block_size self →
  (_CheckBlocksFitLength length num_blocks (block_size self) length_name
     block_name = Ok tt
   ↔ _SizeToNumBlocks self length = Ok num_blocks)
  ∧ (_SizeToNumBlocks self length ≠ Ok num_blocks →
     ∃ fmt args,
       _CheckBlocksFitLength length num_blocks (block_size self) length_name
         block_name = Raise (PayloadError fmt args)).
Proof.
  intros Hpos.
  assert (_SizeToNumBlocks self length = Ok num_blocks
          ↔ (num_blocks - 1) * block_size self < length
            ≤ num_blocks * block_size self) as Hceil.
  { split; [by apply _SizeToNumBlocks_ceil|].
    intros Hfit. unfold _SizeToNumBlocks, py_floordiv.
    rewrite (proj2 (Z.eqb_neq _ 0)) by lia. f_equal.
    symmetry. apply (Z.div_unique _ _ _
      (length + block_size self - 1 - block_size self * num_blocks)); lia. }
  rewrite Hceil. unfold _CheckBlocksFitLength.
  destruct (num_blocks * block_size self <? length) eqn:Hhigh; simpl.
  - apply Z.ltb_lt in Hhigh. split; [split; [done | lia] | eauto].
  - apply Z.ltb_ge in Hhigh.
    destruct (length <=? (num_blocks - 1) * block_size self) eqn:Hlow; simpl.
    + apply Z.leb_le in Hlow. split; [split; [done | lia] | eauto].
    + apply Z.leb_gt in Hlow. split; [split; [lia | done] | lia].
Qed.

(** ** The manifest *)

Lemma _CheckElem_Ok {V} (field : option V) name report is_mandatory is_submsg
    convert msg_name linebreak indent r res r' :
  _CheckElem field name report is_mandatory is_submsg convert msg_name
    linebreak indent r = (Ok res, r') →
  res.1 = field ∧ (is_mandatory = true → is_Some field).
Proof.
  unfold _CheckElem. intros Hok.
  destruct field as [value|].
  - split; [|eauto].
    destruct is_submsg; [destruct report|]; inv_ok; try done;
      by apply Mret_Ok in Hok as [<- _].
  - destruct is_mandatory; inv_ok. split; [done | discriminate].
Qed.

Lemma _CheckMandatoryField_Ok {V} (field : option V) name report msg_name
    convert linebreak indent r v r' :
  _CheckMandatoryField field name report msg_name convert linebreak indent r
  = (Ok v, r') →
  field = Some v.
Proof.
  unfold _CheckMandatoryField. intros Hok. inv_ok.
  apply the_value_Ok in Hok as [Hv _].
  match goal with
  | He : _CheckElem _ _ _ _ _ _ _ _ _ _ = _ |- _ =>
      apply _CheckElem_Ok in He as [<- _]
  end. done.
Qed.

Lemma _CheckOptionalField_Ok {V} (field : option V) name report convert
    linebreak indent r v r' :
  _CheckOptionalField field name report convert linebreak indent r
  = (Ok v, r') →
  v = field.
Proof.
  unfold _CheckOptionalField. intros Hok. inv_ok.
  match goal with
  | He : _CheckElem _ _ _ _ _ _ _ _ _ _ = _ |- _ =>
      apply _CheckElem_Ok in He as [<- _]
  end. done.
Qed.

Lemma _CheckMandatorySubMsg_Ok {V} (field : option V) name report msg_name r
    res r' :
  _CheckMandatorySubMsg field name report msg_name r = (Ok res, r') →
  field = Some res.1.
Proof.
  unfold _CheckMandatorySubMsg. intros Hok. inv_ok. simpl.
  match goal with
  | Hv : the_value _ _ = _ |- _ => apply the_value_Ok in Hv as [Hv _]
  end.
  match goal with
  | He : _CheckElem _ _ _ _ _ _ _ _ _ _ = _ |- _ =>
      apply _CheckElem_Ok in He as [<- _]
  end. done.
Qed.

Section ManifestProperties.
Context `{Externals}.

Lemma _CheckManifest_sigs self report rootfs_part_size kernel_part_size r
    self' r' :
  _CheckManifest self report rootfs_part_size kernel_part_size r
  = (Ok self', r') →
  sigs_offset self'
  = Manifest.signatures_offset (Payload.manifest (payload self))
  ∧ sigs_size self'
    = Manifest.signatures_size (Payload.manifest (payload self))
  ∧ check_payload_sig self' = check_payload_sig self.
Proof.
  unfold _CheckManifest. intros Hok. inv_ok.
  repeat match goal with
         | Hf : _CheckOptionalField _ _ _ _ _ _ _ = (Ok _, _) |- _ =>
             apply _CheckOptionalField_Ok in Hf; subst
         end.
  match goal with
  | Hb : match _ with Some _ => _ | None => _ end _ = (Ok ?s, _) |- _ =>
      assert (sigs_offset s
              = Manifest.signatures_offset (Payload.manifest (payload self))
              ∧ sigs_size s
                = Manifest.signatures_size (Payload.manifest (payload self))
              ∧ check_payload_sig s = check_payload_sig self) as Hs;
      [ destruct (_.1) in Hb; inv_ok;
        [ destruct (_.1) in Hb; inv_ok | ]; done
      | simpl; exact Hs ]
  end.
Qed.

(** X5: what [_CheckManifest] has established when it succeeds, and the
    attributes it leaves on the checker: the block size of the manifest is
    the configured one; the signature offset and size are recorded and are
    both present or both absent; the old partition infos are both present,
    which makes the payload a delta (not allowed when ['full'] was
    asserted) and records their sizes, or both absent, which makes it full
    (not allowed when ['delta'] was asserted); the new partition infos
    carry a size and a hash; no recorded size exceeds a partition size
    that is given as non-zero; and there is at least one operation. *)
Theorem X5_CheckManifest_exported_state
    (self : PayloadChecker) (report : report_ref)
    (rootfs_part_size kernel_part_size : Z) (r r' : Report)
    (self' : PayloadChecker) :
  _CheckManifest self report rootfs_part_size kernel_part_size r
  = (Ok self', r') →
  let m := Payload.manifest (payload self) in
  Manifest.block_size m = Some (block_size self)
  ∧ sigs_offset self' = Manifest.signatures_offset m
  ∧ sigs_size self' = Manifest.signatures_size m
  ∧ (is_Some (Manifest.signatures_offset m)
     ↔ is_Some (Manifest.signatures_size m))
  ∧ match Manifest.old_kernel_info m, Manifest.old_rootfs_info m with
    | Some oki, Some ori =>
        payload_type self ≠ Some "full" ∧ payload_type self' = Some "delta"
        ∧ size oki = Some (old_kernel_fs_size self') ∧ is_Some (hash oki)
        ∧ size ori = Some (old_rootfs_fs_size self') ∧ is_Some (hash ori)
        ∧ (kernel_part_size ≠ 0 → old_kernel_fs_size self' ≤ kernel_part_size)
        ∧ (rootfs_part_size ≠ 0 → old_rootfs_fs_size self' ≤ rootfs_part_size)
    | None, None =>
        payload_type self ≠ Some "delta" ∧ payload_type self' = Some "full"
        ∧ old_kernel_fs_size self' = old_kernel_fs_size self
        ∧ old_rootfs_fs_size self' = old_rootfs_fs_size self
    | _, _ => False
    end
  ∧ (∃ nki nri,
       Manifest.new_kernel_info m = Some nki
       ∧ size nki = Some (new_kernel_fs_size self') ∧ is_Some (hash nki)
       ∧ Manifest.new_rootfs_info m = Some nri
       ∧ size nri = Some (new_rootfs_fs_size self') ∧ is_Some (hash nri))
  ∧ (kernel_part_size ≠ 0 → new_kernel_fs_size self' ≤ kernel_part_size)
  ∧ (rootfs_part_size ≠ 0 → new_rootfs_fs_size self' ≤ rootfs_part_size)
  ∧ (Manifest.install_operations m ≠ []
     ∨ Manifest.kernel_install_operations m ≠ [])
  ∧ payload self' = payload self ∧ block_size self' = block_size self
  ∧ allow_unhashed self' = allow_unhashed self
  ∧ check_dst_pseudo_extents self' = check_dst_pseudo_extents self
  ∧ check_move_same_src_dst_block self' = check_move_same_src_dst_block self
  ∧ check_payload_sig self' = check_payload_sig self.
Proof.
  intros Hok. cbv zeta. unfold _CheckManifest, _CheckOptionalSubMsg in Hok.
  set (m := Payload.manifest (payload self)) in *. inv_ok.
  repeat match goal with
         | Hf : _CheckMandatoryField _ _ _ _ _ _ _ _ = (Ok _, _) |- _ =>
             apply _CheckMandatoryField_Ok in Hf
         | Hf : _CheckOptionalField _ _ _ _ _ _ _ = (Ok _, _) |- _ =>
             apply _CheckOptionalField_Ok in Hf; subst
         | Hf : _CheckMandatorySubMsg _ _ _ _ _ = (Ok _, _) |- _ =>
             apply _CheckMandatorySubMsg_Ok in Hf
         | Hf : _CheckElem _ _ _ _ _ _ _ _ _ _ = (Ok _, _) |- _ =>
             apply _CheckElem_Ok in Hf as [Hf _]
         | Hf : _CheckPresentIff _ _ _ _ _ = Ok _ |- _ =>
             apply _CheckPresentIff_Ok in Hf
         | Hc : negb (_ =? _) = false |- _ =>
             apply negb_false_iff, Z.eqb_eq in Hc
         end.
  (* the branch on the old partition infos *)
  match goal with
  | Hb : match ?oki.1 with Some _ => _ | None => _ end _ = (Ok ?s, _),
    Hk : ?oki.1 = Manifest.old_kernel_info m,
    Hr : ?ori.1 = Manifest.old_rootfs_info m,
    Hso : is_Some (Manifest.signatures_offset m) ↔ _ |- _ =>
      rewrite Hk, Hr in *;
      assert (match Manifest.old_kernel_info m, Manifest.old_rootfs_info m
              with
              | Some oki, Some ori =>
                  payload_type self ≠ Some "full"
                  ∧ payload_type s = Some "delta"
                  ∧ size oki = Some (old_kernel_fs_size s) ∧ is_Some (hash oki)
                  ∧ size ori = Some (old_rootfs_fs_size s) ∧ is_Some (hash ori)
                  ∧ (kernel_part_size ≠ 0 →
                     old_kernel_fs_size s ≤ kernel_part_size)
                  ∧ (rootfs_part_size ≠ 0 →
                     old_rootfs_fs_size s ≤ rootfs_part_size)
              | None, None =>
                  payload_type self ≠ Some "delta"
                  ∧ payload_type s = Some "full"
                  ∧ old_kernel_fs_size s = old_kernel_fs_size self
                  ∧ old_rootfs_fs_size s = old_rootfs_fs_size self
              | _, _ => False
              end
              ∧ sigs_offset s = Manifest.signatures_offset m
              ∧ sigs_size s = Manifest.signatures_size m
              ∧ payload s = payload self ∧ block_size s = block_size self
              ∧ allow_unhashed s = allow_unhashed self
              ∧ check_dst_pseudo_extents s = check_dst_pseudo_extents self
              ∧ check_move_same_src_dst_block s
                = check_move_same_src_dst_block self
              ∧ check_payload_sig s = check_payload_sig self) as Hold
  end.
  { destruct (Manifest.old_kernel_info m) as [oki|],
      (Manifest.old_rootfs_info m) as [ori|]; inv_ok;
      repeat match goal with
             | Hf : _CheckMandatoryField _ _ _ _ _ _ _ _ = (Ok _, _) |- _ =>
                 apply _CheckMandatoryField_Ok in Hf
             | Hc : bool_decide _ = false |- _ =>
                 apply bool_decide_eq_false in Hc
             | Hc : negb _ && (_ <? _) = false |- _ =>
                 apply andb_false_iff in Hc;
                 rewrite negb_false_iff, Z.eqb_eq, Z.ltb_ge in Hc
             end; simpl in *;
      split_and!; eauto; try done; try (intros; lia);
      match goal with
      | Hl : is_Some None ↔ is_Some (Some _) |- _ =>
          destruct (proj2 Hl) as [? ?]; [eauto | discriminate]
      | Hl : is_Some (Some _) ↔ is_Some None |- _ =>
          destruct (proj1 Hl) as [? ?]; [eauto | discriminate]
      end. }
  destruct Hold as (Hold & Hso' & Hss' & Hp & Hbs & Hu & Hd & Hmv & Hps).
  repeat match goal with
         | Hc : negb _ && (_ <? _) = false |- _ =>
             apply andb_false_iff in Hc;
             rewrite negb_false_iff, Z.eqb_eq, Z.ltb_ge in Hc
         | Hc : negb (_ || _) = false |- _ =>
             apply negb_false_iff, orb_true_iff in Hc;
             rewrite !negb_true_iff, !bool_decide_eq_false in Hc
         end.
  simpl in *.
  split_and!; try done; try (intros; lia); try (by subst).
  eexists _, _. split_and!; eauto.
Qed.

End ManifestProperties.

(** ** Block accounting *)

(** Case analysis on the integer comparisons of the goal. *)
Ltac case_Z_compare :=
  repeat match goal with
         | |- context [?x <=? ?y] => destruct (Z.leb_spec x y)
         | |- context [?x <? ?y] => destruct (Z.ltb_spec x y)
         | |- context [?x =? ?y] => destruct (Z.eqb_spec x y)
         end.

Lemma counter_incr_Some_Ok (a : list Z) (i : Z) bc' :
  0 ≤ i →
  counter_incr (Some a) i = Ok bc' →
  ∃ c, a !! Z.to_nat i = Some c ∧ c < 255
       ∧ bc' = Some (<[Z.to_nat i := c + 1]> a).
Proof.
  intros Hi. unfold counter_incr.
  rewrite (proj2 (Z.ltb_ge i 0)) by lia.
  destruct ((i <? 0) || (Z.of_nat (length a) <=? i)); [discriminate|].
  destruct (a !! Z.to_nat i) as [c|]; [|discriminate].
  destruct (255 <=? c) eqn:Hc; [discriminate|].
  apply Z.leb_gt in Hc. intros [= <-]. eauto.
Qed.

(** Recording the usage of [n] blocks from block [i] on adds one to each
    of their counters and leaves the others alone. *)
Lemma py_range_Ok (start stop : Z) (blocks : list Z) :
  py_range start stop = Ok blocks →
  stop - start < 2 ^ 63
  ∧ blocks = range_from (Z.to_nat (stop - start)) start.
Proof.
  unfold py_range. destruct (Z.leb_spec (2 ^ 63) (stop - start));
    [discriminate|]. by intros [= <-].
Qed.

Lemma record_block_usage_Ok (n : nat) (i : Z) (a : list Z) bc' :
  0 ≤ i →
  record_block_usage (range_from n i) (Some a) = Ok bc' →
  ∃ a', bc' = Some a' ∧ length a' = length a
        ∧ ∀ j : nat,
            a' !! j
            = (fun c => c + (if (i <=? Z.of_nat j) && (Z.of_nat j <? i + Z.of_nat n)
                             then 1 else 0)) <$> a !! j.
Proof.
  revert i a. induction n as [|n IH]; intros i a Hi Hok; simpl in Hok.
  - injection Hok as <-. exists a. split_and!; [done | done |].
    intros j. destruct (a !! j); simpl; [|done]. f_equal.
    case_Z_compare; simpl; lia.
  - apply rbind_Ok in Hok as (bc1 & Hincr & Hok).
    apply counter_incr_Some_Ok in Hincr as (c & Hc & _ & ->); [|done].
    apply IH in Hok as (a' & -> & Hlen & Hget); [|lia].
    exists a'. rewrite length_insert in Hlen. split_and!; [done | done |].
    intros j. rewrite Hget.
    destruct (decide (j = Z.to_nat i)) as [->|Hne].
    + rewrite list_lookup_insert_eq by (by eapply lookup_lt_Some).
      rewrite Hc. simpl. f_equal. case_Z_compare; simpl; lia.
    + rewrite list_lookup_insert_ne by done.
      destruct (a !! j); simpl; [|done]. f_equal.
      case_Z_compare; simpl; lia.
Qed.

Section AccountingProperties.
Context `{Externals}.

Lemma _CheckExtents_loop_accounting self items n_extents usable_size a
    allow_pseudo allow_signature total r res r' :
  Forall (fun ex => 0 ≤ getattr_Z (start_block ex)
                    ∧ 0 ≤ getattr_Z (num_blocks ex)) (map fst items) →
  _CheckExtents_loop self items n_extents usable_size (Some a) allow_pseudo
    allow_signature total r = (Ok res, r') →
  ∃ a', res.2 = Some a' ∧ length a' = length a
        ∧ ∀ j : nat,
            a' !! j
            = (fun c => c + coverage (map fst items) (Z.of_nat j)) <$> a !! j.
Proof.
  revert a total r.
  induction items as [|[ex ex_name] items IH]; intros a total r Hwf Hok;
    simpl in Hok.
  - inv_ok. exists a. split_and!; [done | done |].
    intros j. simpl. destruct (a !! j); simpl; [|done]. f_equal. lia.
  - simpl in Hwf. apply Forall_cons in Hwf as [[Hstart Hnum] Hwf].
    inv_fields.
    match goal with
    | Hs : start_block ex = Some ?s, Hn : num_blocks ex = Some ?n,
      Hb : (if negb (?s =? _) then _ else _) ?r0 = (Ok ?bc, ?r1) |- _ =>
        unfold getattr_Z in Hstart, Hnum; rewrite Hs in Hstart;
        rewrite Hn in Hnum; simpl in Hstart, Hnum;
        assert (∃ cs, bc = Some cs ∧ length cs = length a
                      ∧ ∀ j : nat,
                          cs !! j
                          = (fun c => c + (if covers ex (Z.of_nat j)
                                           then 1 else 0)) <$> a !! j)
          as (cs & -> & Hlen1 & Hget1)
    end.
    { unfold covers, getattr_Z.
      repeat match goal with
             | Hf : _ ex = Some _ |- _ => rewrite Hf; clear Hf
             end. simpl.
      match goal with
      | Hb : (if negb (?s =? _) then _ else _) _ = _ |- _ =>
          destruct (s =? PSEUDO_EXTENT_MARKER); simpl in Hb; inv_ok
      end.
      - exists a. split_and!; [done | done |].
        intros j. destruct (a !! j); simpl; [|done]. f_equal. lia.
      - match goal with
        | Hp : py_range _ _ = Ok _,
          Hr : record_block_usage _ _ = Ok _ |- _ =>
            apply py_range_Ok in Hp as [_ ->];
            apply record_block_usage_Ok in Hr as (cs & -> & Hlen & Hget);
            [|done]
        end.
        exists cs. split_and!; [done | done |].
        intros j. rewrite Hget. destruct (a !! j); simpl; [|done]. f_equal.
        rewrite Z2Nat.id by lia. case_Z_compare; simpl; lia. }
    apply IH in Hok as (a' & Hres & Hlen & Hget); [|done].
    exists a'. split_and!; [done | lia |].
    intros j. rewrite Hget, Hget1. simpl.
    destruct (a !! j); simpl; [|done]. f_equal. lia.
Qed.

(** X6: on success, [_CheckExtents] leaves a counter array of the same
    length, in which the counter of every block has grown by the number of
    real extents of the sequence that contain the block; pseudo-extents
    count for no block. *)
Theorem X6_CheckExtents_counts_block_usage
    (self : PayloadChecker) (extents : list Extent) (usable_size : Z)
    (counters : list Z) (name : string) (allow_pseudo allow_signature : bool)
    (r r' : Report) (res : Z * option (list Z)) :
  Forall wf_extent extents →
  _CheckExtents self extents usable_size (Some counters) name allow_pseudo
    allow_signature r = (Ok res, r') →
  ∃ counters',
    res.2 = Some counters' ∧ length counters' = length counters
    ∧ ∀ i : nat,
        counters' !! i
        = (fun c => c + coverage extents (Z.of_nat i)) <$> counters !! i.
Proof.
  intros Hwf Hok. unfold _CheckExtents in Hok.
  apply _CheckExtents_loop_accounting in Hok.
  - by rewrite ObjNameIter_items in Hok.
  - rewrite ObjNameIter_items. eapply Forall_impl; [exact Hwf|].
    intros ex [[? _] [? _]]. done.
Qed.

Lemma record_block_usage_None (n : nat) (i : Z) :
  n ≠ 0%nat → record_block_usage (range_from n i) None = Raise TypeError.
Proof. by destruct n. Qed.

Lemma _CheckExtents_loop_None self items n_extents usable_size allow_pseudo
    allow_signature total r res r' :
  Forall (fun ex => 0 ≤ getattr_Z (num_blocks ex)) (map fst items) →
  _CheckExtents_loop self items n_extents usable_size None allow_pseudo
    allow_signature total r = (Ok res, r') →
  res.2 = None
  ∧ Forall (fun ex => start_block ex = Some PSEUDO_EXTENT_MARKER)
           (map fst items).
Proof.
  revert total r.
  induction items as [|[ex ex_name] items IH]; intros total r Hwf Hok;
    simpl in Hok.
  - inv_ok. by split.
  - simpl in Hwf. apply Forall_cons in Hwf as [Hnum Hwf]. inv_fields.
    match goal with
    | Hs : start_block ex = Some ?s, Hn : num_blocks ex = Some ?n,
      Hz : (?n =? 0) = false,
      Hb : (if negb (?s =? _) then _ else _) ?r0 = (Ok ?bc, ?r1) |- _ =>
        unfold getattr_Z in Hnum; rewrite Hn in Hnum; simpl in Hnum;
        apply Z.eqb_neq in Hz;
        assert (bc = None ∧ s = PSEUDO_EXTENT_MARKER) as [-> ->]
    end.
    { match goal with
      | Hb : (if negb (?s =? _) then _ else _) _ = _ |- _ =>
          destruct (Z.eqb_spec s PSEUDO_EXTENT_MARKER); simpl in Hb; inv_ok
      end; [done|].
      match goal with
      | Hp : py_range _ _ = Ok _,
        Hr : record_block_usage _ None = Ok _ |- _ =>
          apply py_range_Ok in Hp as [_ ->];
          rewrite record_block_usage_None in Hr by lia; discriminate
      end. }
    apply IH in Hok as [Hres Hall]; [|done].
    split; [done | by constructor].
Qed.

(** X7: without a counter array ([block_counters] is [None], as for the
    source extents of a full payload), [_CheckExtents] accepts a sequence
    only if all its extents are pseudo-extents; a real extent that gets
    past the checks is not accepted, and what it ends in is no
    [PayloadError]: [range()] fails to build its list, or the first
    [block_counters[i] += 1] fails on [None].  The report is left as it
    was. *)
Theorem X7_CheckExtents_without_counters
    (self : PayloadChecker) (extents : list Extent) (usable_size : Z)
    (name : string) (allow_pseudo allow_signature : bool) (r : Report) :
  Forall wf_extent extents →
  (∀ res r',
     _CheckExtents self extents usable_size None name allow_pseudo
       allow_signature r = (Ok res, r') →
     res.2 = None
     ∧ Forall (fun ex => start_block ex = Some PSEUDO_EXTENT_MARKER) extents)
  ∧ (∀ ex,
       extents = [ex] → 0 < getattr_Z (num_blocks ex) →
       is_Some (start_block ex) → is_Some (num_blocks ex) →
       getattr_Z (start_block ex) ≠ PSEUDO_EXTENT_MARKER →
       (usable_size = 0
        ∨ (getattr_Z (start_block ex) + getattr_Z (num_blocks ex))
          * block_size self ≤ usable_size) →
       ∃ e,
         _CheckExtents self extents usable_size None name allow_pseudo
           allow_signature r = (Raise e, r)
         ∧ is_PayloadError e = false).
Proof.
  intros Hwf. split.
  - intros res r' Hok. unfold _CheckExtents in Hok.
    apply _CheckExtents_loop_None in Hok.
    + by rewrite ObjNameIter_items in Hok.
    + rewrite ObjNameIter_items. eapply Forall_impl; [exact Hwf|].
      intros ex [_ [? _]]. done.
  - intros ex -> Hnum [s Hs] [n Hn] Hreal Hfit.
    unfold getattr_Z in *. rewrite Hs, Hn in *. simpl in *.
    unfold _CheckExtents, ObjNameIter. simpl.
    unfold _CheckMandatoryField, _CheckElem, Mbind. rewrite Hs, Hn. simpl.
    rewrite (proj2 (Z.eqb_neq n 0)) by lia. simpl.
    rewrite (proj2 (Z.eqb_neq s PSEUDO_EXTENT_MARKER)) by done. simpl.
    replace (negb (usable_size =? 0)
             && (usable_size <? (s + n) * block_size self)) with false
      by (symmetry; apply andb_false_iff;
          rewrite negb_false_iff, Z.eqb_eq, Z.ltb_ge; lia).
    simpl. unfold Mlift, py_range.
    destruct (2 ^ 63 <=? s + n - s); [by exists OverflowError|].
    rewrite record_block_usage_None by lia. by exists TypeError.
Qed.

End AccountingProperties.

(** ** Which exceptions can be raised *)

Lemma raises_only_ret {A} (P : exn → Prop) (a : A) : raises_only P (Mret a).
Proof. intros r e. discriminate. Qed.

Lemma raises_only_raise {A} (P : exn → Prop) (e : exn) :
  P e → raises_only P (Mraise (A := A) e).
Proof. intros He r e'. by intros [= <-]. Qed.

Lemma raises_only_raise_if (P : exn → Prop) (c : bool) (e : exn) :
  P e → raises_only P (Mraise_if c e).
Proof. intros He r e'. destruct c; [by intros [= <-] | discriminate]. Qed.

Lemma raises_only_lift {A} (P : exn → Prop) (m : result A) :
  (∀ e, m = Raise e → P e) → raises_only P (Mlift m).
Proof. intros Hm r e. apply Hm. Qed.

Lemma raises_only_bind {A B} (P : exn → Prop) (m : M A) (k : A → M B) :
  raises_only P m → (∀ a r r', m r = (Ok a, r') → raises_only P (k a)) →
  raises_only P (Mbind m k).
Proof.
  intros Hm Hk r e. unfold Mbind. specialize (Hm r).
  destruct (m r) as [[a|e'] r1] eqn:Hmr; simpl in *.
  - by eapply Hk.
  - intros [= <-]. by apply Hm.
Qed.

Lemma rbind_raises {A B} (P : exn → Prop) (m : result A)
    (k : A → result B) e :
  (∀ e, m = Raise e → P e) → (∀ a e, m = Ok a → k a = Raise e → P e) →
  rbind m k = Raise e → P e.
Proof.
  intros Hm Hk. destruct m as [a|e']; simpl; [eauto|]. intros [= <-]. eauto.
Qed.

(** Reduces a goal [raises_only P m] along the structure of [m], leaving
    the side conditions [P e] of the exceptions that [m] raises itself. *)
Ltac raises_only_step :=
  match goal with
  | |- raises_only _ (Mret _) => apply raises_only_ret
  | |- raises_only _ (Mraise _) => apply raises_only_raise
  | |- raises_only _ (Mraise_if _ _) => apply raises_only_raise_if
  | |- raises_only _ (Mlift _) => apply raises_only_lift
  | |- raises_only _ (Mbind _ _) =>
      apply raises_only_bind; [|intros ? ? ? ?; cbv beta]
  | |- raises_only _ (match ?x with _ => _ end) => destruct x eqn:?
  end.

Lemma raises_only_CheckElem_None {V} (P : exn → Prop) (field : option V) name
    is_mandatory is_submsg convert msg_name linebreak indent :
  (∀ fmt args, P (PayloadError fmt args)) →
  raises_only P (_CheckElem field name None is_mandatory is_submsg convert
                   msg_name linebreak indent).
Proof. intros HP. unfold _CheckElem. repeat raises_only_step. apply HP. Qed.

Lemma raises_only_CheckMandatoryField_None {V} (P : exn → Prop)
    (field : option V) name msg_name convert linebreak indent :
  (∀ fmt args, P (PayloadError fmt args)) →
  raises_only P (_CheckMandatoryField field name None msg_name convert
                   linebreak indent).
Proof.
  intros HP. unfold _CheckMandatoryField.
  apply raises_only_bind; [by apply raises_only_CheckElem_None|].
  intros res r r' Hok. apply _CheckElem_Ok in Hok as [-> Hsome].
  destruct (Hsome eq_refl) as [v ->]. apply raises_only_ret.
Qed.

Lemma raises_only_CheckOptionalField_None {V} (P : exn → Prop)
    (field : option V) name convert linebreak indent :
  (∀ fmt args, P (PayloadError fmt args)) →
  raises_only P (_CheckOptionalField field name None convert linebreak indent).
Proof.
  intros HP. unfold _CheckOptionalField.
  apply raises_only_bind; [by apply raises_only_CheckElem_None|].
  intros. apply raises_only_ret.
Qed.

(** Within the array, recording block usage fails on a full counter
    only. *)
Lemma record_block_usage_in_range (n : nat) (i : Z) (a : list Z) e :
  0 ≤ i → i + Z.of_nat n ≤ Z.of_nat (length a) →
  record_block_usage (range_from n i) (Some a) = Raise e →
  e = OverflowError.
Proof.
  revert i a e.
  induction n as [|n IH]; intros i a e Hi Hn; simpl; [discriminate|].
  apply (rbind_raises (fun e => e = OverflowError)).
  - unfold counter_incr. intros e'. cbv zeta.
    rewrite !(proj2 (Z.ltb_ge i 0)) by lia.
    rewrite (proj2 (Z.leb_gt (Z.of_nat (length a)) i)) by lia. simpl.
    destruct (a !! Z.to_nat i) as [c|] eqn:Hc.
    + destruct (255 <=? c); intros Heq; congruence.
    + apply lookup_ge_None in Hc. lia.
  - intros bc e' Hincr.
    apply counter_incr_Some_Ok in Hincr as (c & _ & _ & ->); [|done].
    apply IH; [lia|]. rewrite length_insert. lia.
Qed.

Lemma _AllocBlockCounters_length self total_size a :
  0 < block_size self →
  _AllocBlockCounters self total_size = Ok a →
  total_size ≤ Z.of_nat (length a) * block_size self
  ∧ Forall (eq 0) a.
Proof.
  intros Hpos. unfold _AllocBlockCounters. intros Hok. inv_ok.
  injection Hok as <-.
  match goal with
  | Hn : _SizeToNumBlocks _ _ = Ok ?n |- _ =>
      apply _SizeToNumBlocks_ceil in Hn; [|done]
  end.
  rewrite length_replicate. split; [nia|].
  apply Forall_forall. by intros x [-> _]%elem_of_replicate.
Qed.

Section ExceptionProperties.
Context `{Externals}.

Lemma raises_only_CheckExtents_loop self items n_extents usable_size a
    allow_pseudo allow_signature total :
  0 < block_size self → usable_size ≠ 0 →
  usable_size ≤ Z.of_nat (length a) * block_size self →
  Forall (fun ex => 0 ≤ getattr_Z (start_block ex)
                    ∧ 0 ≤ getattr_Z (num_blocks ex)) (map fst items) →
  raises_only payload_or_overflow
    (_CheckExtents_loop self items n_extents usable_size (Some a)
       allow_pseudo allow_signature total).
Proof.
  intros Hpos Hus. revert a total.
  assert (∀ fmt args, payload_or_overflow (PayloadError fmt args)) as HP
    by (by left).
  induction items as [|[ex ex_name] items IH]; intros a total Hlen Hwf; simpl.
  - apply raises_only_ret.
  - simpl in Hwf. apply Forall_cons in Hwf as [[Hstart Hnum] Hwf].
    apply raises_only_bind;
      [by apply raises_only_CheckMandatoryField_None|].
    intros s r0 r0' Hs. apply _CheckMandatoryField_None_Ok in Hs as [Hs _].
    apply raises_only_bind;
      [by apply raises_only_CheckMandatoryField_None|].
    intros n r1 r1' Hn. apply _CheckMandatoryField_None_Ok in Hn as [Hn _].
    unfold getattr_Z in Hstart, Hnum. rewrite Hs in Hstart.
    rewrite Hn in Hnum. simpl in Hstart, Hnum.
    apply raises_only_bind; [by apply raises_only_raise_if|].
    intros _ _ _ _.
    apply raises_only_bind.
    + destruct (negb (s =? PSEUDO_EXTENT_MARKER));
        [|repeat raises_only_step; apply HP].
      apply raises_only_bind; [by apply raises_only_raise_if|].
      intros [] r2 r2' [Hfit _]%Mraise_if_Ok.
      apply raises_only_bind.
      { apply raises_only_lift. intros e He. right. unfold py_range in He.
        destruct (2 ^ 63 <=? s + n - s); [by injection He as <- | done]. }
      intros blocks r3 r3' [Hblocks _]%Mlift_Ok.
      apply py_range_Ok in Hblocks as [_ ->].
      apply raises_only_lift. intros e He. right.
      apply andb_false_iff in Hfit.
      rewrite negb_false_iff, Z.eqb_eq, Z.ltb_ge in Hfit.
      eapply record_block_usage_in_range; [| |exact He]; [done|].
      rewrite Z2Nat.id by lia. nia.
    + intros bc r2 r2' Hbc.
      assert (∃ a', bc = Some a' ∧ length a' = length a) as (a' & -> & Hlen').
      { destruct (negb (s =? PSEUDO_EXTENT_MARKER)); inv_ok; [|eauto].
        match goal with
        | Hp : py_range _ _ = Ok _,
          Hr : record_block_usage _ _ = Ok _ |- _ =>
            apply py_range_Ok in Hp as [_ ->];
            apply record_block_usage_Ok in Hr as (a' & -> & ? & _); [|done]
        end. eauto. }
      apply IH; [by rewrite Hlen' | done].
Qed.

(** X8: on a counter array that was allocated for the non-zero
    [usable_size] (or any array of that length), [_CheckExtents] never
    subscripts out of range: it raises nothing but [PayloadError], or
    [OverflowError] when a counter is at 255 already. *)
Theorem X8_CheckExtents_on_allocated_counters
    (self : PayloadChecker) (extents : list Extent) (usable_size : Z)
    (allocated counters : list Z) (name : string)
    (allow_pseudo allow_signature : bool) (r : Report) (e : exn) :
  0 < block_size self → usable_size ≠ 0 →
  _AllocBlockCounters self usable_size = Ok allocated →
  length counters = length allocated →
  Forall wf_extent extents →
  (_CheckExtents self extents usable_size (Some counters) name allow_pseudo
     allow_signature r).1 = Raise e →
  is_PayloadError e = true ∨ e = OverflowError.
Proof.
  intros Hpos Hus Halloc Hlen Hwf.
  apply _AllocBlockCounters_length in Halloc as [Hsize _]; [|done].
  apply (raises_only_CheckExtents_loop self (ObjNameIter extents name)
           (Z.of_nat (length extents)) usable_size counters allow_pseudo
           allow_signature 0 Hpos Hus).
  - by rewrite Hlen.
  - rewrite ObjNameIter_items. eapply Forall_impl; [exact Hwf|].
    intros ex [[? _] [? _]]. done.
Qed.

End ExceptionProperties.

(** The type-specific checks raise nothing but [PayloadError]. *)
Lemma raise_if_raises (c : bool) (e e' : exn) :
  raise_if c e = Raise e' → e' = e.
Proof. destruct c; simpl; congruence. Qed.

Lemma _CheckPresentIff_raises {A B} (val1 : option A) (val2 : option B)
    name1 name2 obj_name e :
  _CheckPresentIff val1 val2 name1 name2 obj_name = Raise e →
  is_PayloadError e = true.
Proof.
  unfold _CheckPresentIff. destruct (_ && _); [|discriminate].
  destruct (negb _); by intros [= <-].
Qed.

Lemma _CheckBlocksFitLength_raises length num_blocks block_size length_name
    block_name e :
  _CheckBlocksFitLength length num_blocks block_size length_name block_name
  = Raise e →
  is_PayloadError e = true.
Proof.
  unfold _CheckBlocksFitLength.
  apply (rbind_raises (fun e => is_PayloadError e = true)).
  - by intros e' ->%raise_if_raises.
  - by intros _ e' _ ->%raise_if_raises.
Qed.

Lemma _CheckLength_raises self length total_blocks op_name length_name e :
  _CheckLength self length total_blocks op_name length_name = Raise e →
  is_PayloadError e = true.
Proof.
  unfold _CheckLength.
  apply (rbind_raises (fun e => is_PayloadError e = true)).
  - by intros e' ->%raise_if_raises.
  - intros _ e' _. apply _CheckBlocksFitLength_raises.
Qed.

Section TypeCheckProperties.
Context `{Externals}.

Lemma _CheckReplaceOperation_raises self op data_length total_dst_blocks
    op_name e :
  _CheckReplaceOperation self op data_length total_dst_blocks op_name
  = Raise e →
  is_PayloadError e = true.
Proof.
  unfold _CheckReplaceOperation.
  apply (rbind_raises (fun e => is_PayloadError e = true)).
  - by intros e' ->%raise_if_raises.
  - intros _ e' _. destruct data_length as [l|]; [|by intros [= <-]].
    destruct (bool_decide _).
    + apply _CheckBlocksFitLength_raises.
    + by intros ->%raise_if_raises.
Qed.

Lemma _CheckMoveOperation_raises self op data_offset total_src_blocks
    total_dst_blocks op_name e :
  _CheckMoveOperation self op data_offset total_src_blocks total_dst_blocks
    op_name = Raise e →
  is_PayloadError e = true.
Proof.
  pose proof (_CheckMoveOperation_terminates self op data_offset
                total_src_blocks total_dst_blocks op_name) as Hterm.
  revert Hterm. unfold _CheckMoveOperation.
  destruct (_CheckMoveOperation_loop _ _ _ _ _ _ _ _ _ _ _ _ _ _)
    as [[[se de]|e']|] eqn:Hloop; intros Hterm.
  - repeat (apply (rbind_raises (fun e => is_PayloadError e = true));
            [by intros e' ->%raise_if_raises | intros _ ? _]).
    by intros ->%raise_if_raises.
  - repeat (apply (rbind_raises (fun e => is_PayloadError e = true));
            [by intros e'' ->%raise_if_raises | intros _ ? _]).
    intros [= <-]. by apply _CheckMoveOperation_loop_raises in Hloop.
  - intros Hraise. destruct (bool_decide (is_Some data_offset));
      [by injection Hraise as <-|].
    destruct (negb (total_src_blocks =? total_dst_blocks));
      [by injection Hraise as <-|].
    simpl in *. congruence.
Qed.

Lemma _CheckBsdiffOperation_raises self data_length total_dst_blocks
    op_name e :
  _CheckBsdiffOperation self data_length total_dst_blocks op_name = Raise e →
  is_PayloadError e = true.
Proof.
  unfold _CheckBsdiffOperation.
  destruct data_length; [by intros ->%raise_if_raises | by intros [= <-]].
Qed.

End TypeCheckProperties.

Section DataSectionExceptions.
Context `{Externals}.

Lemma dict_add_raises `{Countable K} (d : gmap K Z) (k : K) (v : Z) e :
  k ∈ dom d → dict_add d k v = Raise e → False.
Proof.
  intros [x Hx]%elem_of_dom. unfold dict_add. by rewrite Hx.
Qed.

Lemma _CheckExtents_keeps_fit self extents usable_size block_counters name
    allow_pseudo allow_signature r res r' :
  Forall wf_extent extents →
  counters_fit self usable_size block_counters →
  _CheckExtents self extents usable_size block_counters name allow_pseudo
    allow_signature r = (Ok res, r') →
  counters_fit self usable_size res.2.
Proof.
  intros Hwf (Hsize & a & -> & Hlen) Hok. unfold _CheckExtents in Hok.
  apply _CheckExtents_loop_accounting in Hok as (a' & Hres & Hlen' & _).
  - split; [done|]. exists a'. split; [done|]. by rewrite Hlen'.
  - rewrite ObjNameIter_items. eapply Forall_impl; [exact Hwf|].
    intros ex [[? _] [? _]]. done.
Qed.

Lemma raises_only_CheckExtents self extents usable_size block_counters name
    allow_pseudo allow_signature :
  0 < block_size self →
  Forall wf_extent extents →
  counters_fit self usable_size block_counters →
  raises_only data_section_exception
    (_CheckExtents self extents usable_size block_counters name allow_pseudo
       allow_signature).
Proof.
  intros Hpos Hwf (Hsize & a & -> & Hlen) r e He. left.
  eapply (raises_only_CheckExtents_loop self (ObjNameIter extents name));
    [done | done | exact Hlen | | exact He].
  rewrite ObjNameIter_items. eapply Forall_impl; [exact Hwf|].
  intros ex [[? _] [? _]]. done.
Qed.

Lemma raises_only_CheckOperation self op op_name is_last old_block_counters
    new_block_counters old_fs_size new_usable_size prev_data_offset
    allow_signature blob_hash_counts :
  0 < block_size self →
  Forall wf_extent (src_extents op) → Forall wf_extent (dst_extents op) →
  counters_fit self old_fs_size old_block_counters →
  counters_fit self new_usable_size new_block_counters →
  blob_keys_ok allow_signature blob_hash_counts →
  type op ∈ [REPLACE; REPLACE_BZ; MOVE; BSDIFF] →
  raises_only data_section_exception
    (_CheckOperation self op op_name is_last old_block_counters
       new_block_counters old_fs_size new_usable_size prev_data_offset
       allow_signature blob_hash_counts).
Proof.
  intros Hpos Hsrc Hdst Hold Hnew (Hhashed & Hunhashed & Hsignature) Htype.
  assert (∀ fmt args, data_section_exception (PayloadError fmt args)) as HP
    by (intros; by left; left).
  assert (∀ e, is_PayloadError e = true → data_section_exception e) as HP'
    by (intros; by left; left).
  unfold _CheckOperation.
  apply raises_only_bind; [by apply raises_only_CheckExtents|].
  intros src r0 r0' _.
  apply raises_only_bind; [by apply raises_only_CheckExtents|].
  intros dst r1 r1' _.
  apply raises_only_bind; [by apply raises_only_CheckOptionalField_None|].
  intros data_offset r2 r2' Hf.
  apply _CheckOptionalField_None_Ok in Hf as [-> _].
  apply raises_only_bind; [by apply raises_only_CheckOptionalField_None|].
  intros data_length r3 r3' Hf.
  apply _CheckOptionalField_None_Ok in Hf as [-> _].
  apply raises_only_bind;
    [apply raises_only_lift; intros e He;
     apply HP'; by eapply _CheckPresentIff_raises|].
  intros [] r4 r4' [Hiff _]%Mlift_Ok. apply _CheckPresentIff_Ok in Hiff.
  repeat (apply raises_only_bind;
          [repeat raises_only_step;
           first [ apply HP
                 | intros e He; apply HP'; by eapply _CheckLength_raises ]
          | intros ? ? ? _]).
  apply raises_only_bind.
  - destruct (data_sha256_hash op) as [op_hash|].
    + apply raises_only_bind;
        [apply raises_only_lift; intros e He;
         by apply dict_add_raises in He|].
      intros counts rx rx' _.
      destruct (data_offset op) as [offset|] eqn:Hoff;
        [|apply raises_only_raise, HP].
      destruct (proj1 Hiff) as [length Hlength]; [eauto|].
      rewrite Hlength. simpl.
      repeat raises_only_step; try apply HP; try discriminate.
      intros e He. right. eauto.
    + repeat raises_only_step; try apply HP;
        intros e He; apply dict_add_raises in He; try done.
      apply Hsignature.
      match goal with
      | Hb : allow_signature && _ && _ = true |- _ =>
          by destruct allow_signature
      end.
  - intros counts ry ry' _.
    apply raises_only_bind; [repeat raises_only_step; apply HP|].
    intros _ _ _ _.
    apply raises_only_bind; [|intros; apply raises_only_ret].
    repeat case_bool_decide; repeat raises_only_step; try apply HP.
    + intros e He. apply HP'. by eapply _CheckReplaceOperation_raises.
    + intros e He. apply HP'. by eapply _CheckMoveOperation_raises.
    + intros e He. apply HP'. by eapply _CheckBsdiffOperation_raises.
    + exfalso.
      repeat match goal with
             | Hne : type op ∉ _ |- _ =>
                 rewrite !elem_of_cons, elem_of_nil in Hne
             end.
      rewrite !elem_of_cons, elem_of_nil in Htype. tauto.
Qed.

Lemma _CheckOperation_keeps_fit self op op_name is_last old_block_counters
    new_block_counters old_fs_size new_usable_size prev_data_offset
    allow_signature blob_hash_counts r res r' :
  Forall wf_extent (src_extents op) → Forall wf_extent (dst_extents op) →
  counters_fit self old_fs_size old_block_counters →
  counters_fit self new_usable_size new_block_counters →
  _CheckOperation self op op_name is_last old_block_counters
    new_block_counters old_fs_size new_usable_size prev_data_offset
    allow_signature blob_hash_counts r = (Ok res, r') →
  counters_fit self old_fs_size (res_old_block_counters res)
  ∧ counters_fit self new_usable_size (res_new_block_counters res).
Proof.
  intros Hsrc Hdst Hold Hnew. unfold _CheckOperation. intros Hok.
  apply Mbind_Ok in Hok as (src & rs & Hsrc_ok & Hok). cbv beta in Hok.
  apply Mbind_Ok in Hok as (dst & rd & Hdst_ok & Hok). cbv beta in Hok.
  inv_ok. simpl. split.
  - exact (_CheckExtents_keeps_fit _ _ _ _ _ _ _ _ _ _ Hsrc Hold Hsrc_ok).
  - exact (_CheckExtents_keeps_fit _ _ _ _ _ _ _ _ _ _ Hdst Hnew Hdst_ok).
Qed.

Lemma raises_only_CheckOperations_loop self items n_ops old_fs_size
    new_usable_size prev_data_offset allow_signature st :
  0 < block_size self →
  Forall (fun op => Forall wf_extent (src_extents op)
                    ∧ Forall wf_extent (dst_extents op)) (map fst items) →
  dicts_ok allow_signature st →
  counters_fit self old_fs_size (old_block_counters st) →
  counters_fit self new_usable_size (new_block_counters st) →
  raises_only data_section_exception
    (_CheckOperations_loop self items n_ops old_fs_size new_usable_size
       prev_data_offset allow_signature st).
Proof.
  intros Hpos. revert st.
  induction items as [|[op op_name] items IH];
    intros st Hwf (Hcounts & Htotals & Hhashed & Hunhashed & Hsignature)
      Hold Hnew; simpl.
  - apply raises_only_ret.
  - simpl in Hwf. apply Forall_cons in Hwf as [[Hsrc Hdst] Hwf].
    apply raises_only_bind;
      [apply raises_only_raise_if; by left; left|].
    intros [] r0 r0' [Hvalid _]%Mraise_if_Ok.
    apply negb_false_iff, bool_decide_eq_true, elem_of_dom in Hvalid.
    rewrite Hcounts in Hvalid.
    apply raises_only_bind.
    { apply raises_only_lift. intros e He. exfalso.
      eapply dict_add_raises; [|exact He]. by rewrite Hcounts. }
    intros op_counts' r1 r1' [Hadd _]%Mlift_Ok.
    apply raises_only_bind.
    { apply raises_only_CheckOperation; try done.
      revert Hvalid. rewrite !elem_of_union, !elem_of_singleton,
        !elem_of_cons, elem_of_nil. tauto. }
    intros res r2 r2' Hop.
    apply raises_only_bind.
    + destruct (negb (data_used res =? 0)) eqn:Hdata;
        [|apply raises_only_ret].
      apply raises_only_bind; [|intros; apply raises_only_ret].
      apply raises_only_lift. intros e He. exfalso.
      eapply dict_add_raises; [|exact He]. rewrite Htotals.
      destruct (decide (type op = MOVE)) as [Hmove|Hmove].
      * apply (_CheckOperation_MOVE_no_data _ _ _ _ _ _ _ _ _ _ _ _ _ _ Hmove)
          in Hop as (_ & _ & Hzero).
        rewrite Hzero in Hdata. discriminate.
      * revert Hvalid Hmove. rewrite !elem_of_union, !elem_of_singleton.
        tauto.
    + intros totals r3 r3' Htotals'.
      pose proof (_CheckOperation_keeps_fit _ _ _ _ _ _ _ _ _ _ _ _ _ _
                    Hsrc Hdst Hold Hnew Hop) as [Hold' Hnew'].
      apply IH; try done.
      apply dict_add_dom in Hadd.
      apply _CheckOperation_blob_keys in Hop.
      unfold dicts_ok. simpl. rewrite Hadd, Hop.
      split_and!; try done.
      destruct (negb (data_used res =? 0)); inv_ok; simpl; [|done].
      match goal with
      | Hd : dict_add (op_blob_totals st) _ _ = Ok _ |- _ =>
          apply dict_add_dom in Hd; by rewrite Hd
      end.
Qed.

(** X9: for sizes that are not zero and extents with unsigned fields, the
    loop of [_CheckOperations] ends, if not well, in a [PayloadError], in
    an [OverflowError] (a block counter that would pass 255) or in an
    exception that reading a data blob raised: no subscript is out of
    range, no dictionary key is missing, and the branch marked
    ['cannot get here'] is not taken. *)
Theorem X9_operations_loop_exceptions
    (self : PayloadChecker) (operations : list InstallOperation)
    (base_name : string) (old_fs_size new_usable_size prev_data_offset : Z)
    (allow_signature : bool) (st0 : ops_locals) (r : Report) (e : exn) :
  0 < block_size self → old_fs_size ≠ 0 → new_usable_size ≠ 0 →
  Forall (fun op => Forall wf_extent (src_extents op)
                    ∧ Forall wf_extent (dst_extents op)) operations →
  _CheckOperations_init self old_fs_size new_usable_size allow_signature
  = Ok st0 →
  (_CheckOperations_loop self (ObjNameIter operations base_name)
     (Z.of_nat (length operations)) old_fs_size new_usable_size
     prev_data_offset allow_signature st0 r).1 = Raise e →
  is_PayloadError e = true ∨ e = OverflowError
  ∨ ∃ p offset length, ReadDataBlob p offset length = Raise e.
Proof.
  intros Hpos Hold Hnew Hwf Hinit Hraise.
  assert (data_section_exception e) as [[?|?]|?]; [|by auto..].
  eapply (raises_only_CheckOperations_loop self
            (ObjNameIter operations base_name)); [done | | | | | exact Hraise].
  - by rewrite ObjNameIter_items.
  - by eapply _CheckOperations_init_dicts_ok.
  - unfold _CheckOperations_init in Hinit.
    rewrite (proj2 (Z.eqb_neq old_fs_size 0)) in Hinit by done.
    simpl in Hinit. inv_ok. injection Hinit as <-. simpl.
    match goal with
    | Hx : Ok (Some _) = Ok _ |- _ => injection Hx as <-
    end.
    split; [done|]. eexists. split; [done|].
    match goal with
    | Ha : _AllocBlockCounters _ old_fs_size = Ok _ |- _ =>
        by apply _AllocBlockCounters_length in Ha as [? _]
    end.
  - unfold _CheckOperations_init in Hinit. inv_ok. injection Hinit as <-.
    simpl. split; [done|]. eexists. split; [done|].
    match goal with
    | Ha : _AllocBlockCounters _ new_usable_size = Ok _ |- _ =>
        by apply _AllocBlockCounters_length in Ha as [? _]
    end.
Qed.

End DataSectionExceptions.

(** ** More on single operations *)

Lemma BSDIFF_not_replace :
  bool_decide (BSDIFF ∈ [REPLACE; REPLACE_BZ]) = false.
Proof. reflexivity. Qed.

Section MoreOperationProperties.
Context `{Externals}.

(** X10: an accepted [REPLACE_BZ] or [BSDIFF] operation carries data that
    is strictly shorter than its destination blocks,
    [data_length < total_dst_blocks * block_size]; a [REPLACE_BZ] has no
    source extents either. *)
Theorem X10_compressed_data_is_shorter_than_dst
    (self : PayloadChecker) (op : InstallOperation) (op_name : string)
    (is_last : bool) (old_block_counters new_block_counters : option (list Z))
    (old_fs_size new_usable_size prev_data_offset : Z)
    (allow_signature : bool) (blob_hash_counts : gmap string Z)
    (r r' : Report) (res : op_result) :
  type op = REPLACE_BZ ∨ type op = BSDIFF →
  _CheckOperation self op op_name is_last old_block_counters
    new_block_counters old_fs_size new_usable_size prev_data_offset
    allow_signature blob_hash_counts r = (Ok res, r') →
  (type op = REPLACE_BZ → src_extents op = [])
  ∧ ∃ offset length,
      data_offset op = Some offset ∧ data_length op = Some length
      ∧ length < total_blocks (dst_extents op) * block_size self.
Proof.
  intros Htype Hok.
  apply _CheckOperation_Ok in Hok
    as (Hused & Hsrc & Hdst & Hiff & Hne & Hcur & Hty).
  assert (∀ length, data_length op = Some length →
                    ∃ offset, data_offset op = Some offset) as Hoffset
    by (intros length Hlen; apply Hiff; eauto).
  destruct Htype as [Htype|Htype]; rewrite Htype in Hty.
  - rewrite bool_decide_eq_true_2 in Hty
      by (apply list_elem_of_further, list_elem_of_here).
    unfold _CheckReplaceOperation in Hty. inv_ok.
    match goal with
    | Hs : negb (bool_decide (src_extents op = [])) = false |- _ =>
        apply negb_false_iff, bool_decide_eq_true in Hs
    end.
    split; [done|].
    destruct (data_length op) as [length|] eqn:Hlen; [|discriminate].
    destruct (Hoffset length eq_refl) as [offset Hoff].
    rewrite Htype, bool_decide_eq_false_2 in Hty by done.
    apply raise_if_Ok, Z.leb_gt in Hty. eauto.
  - rewrite BSDIFF_not_replace in Hty. destruct Hty as [_ Hty].
    rewrite bool_decide_eq_false_2 in Hty by done.
    destruct Hty as [_ Hty]. unfold _CheckBsdiffOperation in Hty.
    split; [congruence|].
    destruct (data_length op) as [length|] eqn:Hlen; [|discriminate].
    destruct (Hoffset length eq_refl) as [offset Hoff].
    apply raise_if_Ok, Z.leb_gt in Hty. eauto.
Qed.

(** X11: in a full payload, [_CheckOperation] accepts no operation but
    [REPLACE] and [REPLACE_BZ], so every accepted operation is without
    source extents and carries data. *)
Theorem X11_full_payload_has_replace_operations_only
    (self : PayloadChecker) (op : InstallOperation) (op_name : string)
    (is_last : bool) (old_block_counters new_block_counters : option (list Z))
    (old_fs_size new_usable_size prev_data_offset : Z)
    (allow_signature : bool) (blob_hash_counts : gmap string Z)
    (r r' : Report) (res : op_result) :
  payload_type self = Some _TYPE_FULL →
  _CheckOperation self op op_name is_last old_block_counters
    new_block_counters old_fs_size new_usable_size prev_data_offset
    allow_signature blob_hash_counts r = (Ok res, r') →
  (type op = REPLACE ∨ type op = REPLACE_BZ)
  ∧ src_extents op = []
  ∧ is_Some (data_offset op) ∧ is_Some (data_length op).
Proof.
  intros Hfull Hok.
  apply _CheckOperation_Ok in Hok
    as (Hused & Hsrc & Hdst & Hiff & Hne & Hcur & Hty).
  case_bool_decide as Htype; [|by destruct Hty as [? _]].
  rewrite !elem_of_cons, elem_of_nil in Htype.
  unfold _CheckReplaceOperation in Hty. inv_ok.
  match goal with
  | Hs : negb (bool_decide (src_extents op = [])) = false |- _ =>
      apply negb_false_iff, bool_decide_eq_true in Hs
  end.
  destruct (data_length op) as [length|] eqn:Hlen; [|discriminate].
  split_and!; [tauto | done | apply Hiff; eauto | eauto].
Qed.

(** X12: what [_CheckOperation] has established of the data blob of an
    accepted operation.  With a [data_sha256_hash], the operation has a
    [data_offset] and a [data_length], and the SHA-256 digest of the blob
    read there is the stored hash.  With data and no hash, the operation
    is the last one of a sequence that allows a signature and has type
    [REPLACE], or unhashed blobs are allowed. *)
Theorem X12_data_blob_is_hashed_or_allowed
    (self : PayloadChecker) (op : InstallOperation) (op_name : string)
    (is_last : bool) (old_block_counters new_block_counters : option (list Z))
    (old_fs_size new_usable_size prev_data_offset : Z)
    (allow_signature : bool) (blob_hash_counts : gmap string Z)
    (r r' : Report) (res : op_result) :
  _CheckOperation self op op_name is_last old_block_counters
    new_block_counters old_fs_size new_usable_size prev_data_offset
    allow_signature blob_hash_counts r = (Ok res, r') →
  (∀ digest,
     data_sha256_hash op = Some digest →
     ∃ offset length blob,
       data_offset op = Some offset ∧ data_length op = Some length
       ∧ ReadDataBlob (payload self) offset length = Ok blob
       ∧ sha256 blob = digest)
  ∧ (data_sha256_hash op = None → is_Some (data_offset op) →
     (allow_signature = true ∧ is_last = true ∧ type op = REPLACE)
     ∨ allow_unhashed self = true).
Proof.
  unfold _CheckOperation. intros Hok. inv_fields.
  match goal with
  | Hb : match data_sha256_hash op with _ => _ end _ = (Ok _, _) |- _ =>
      destruct (data_sha256_hash op) as [digest|]
  end.
  - split; [|discriminate]. intros ? [= <-]. inv_ok.
    destruct (data_offset op) as [offset|]; [|inv_ok]. inv_fields.
    match goal with
    | Hc : negb (bool_decide (_ = sha256 _)) = false |- _ =>
        apply negb_false_iff, bool_decide_eq_true in Hc
    end.
    eexists _, _, _. split_and!; eauto.
  - split; [discriminate|]. intros _ Hsome.
    match goal with
    | Hb : (if bool_decide (is_Some (data_offset op)) then _ else _) _ = _
      |- _ =>
        rewrite bool_decide_eq_true_2 in Hb by done;
        destruct (allow_signature && is_last
                  && bool_decide (type op = REPLACE)) eqn:Hsig;
        [|destruct (allow_unhashed self); [by right | inv_ok]]
    end.
    left. apply andb_true_iff in Hsig as [Hsig Htype].
    apply andb_true_iff in Hsig as [? ?].
    by apply bool_decide_eq_true in Htype.
Qed.

(** X13: the bookkeeping of blobs by [_CheckOperation]: an accepted
    operation without data leaves [blob_hash_counts] as it was; one with
    data adds one to exactly one entry, ['hashed'] when it has a
    [data_sha256_hash], otherwise ['signature'] for the last [REPLACE] of a
    sequence that allows a signature, otherwise ['unhashed']. *)
Theorem X13_blob_hash_counts_bookkeeping
    (self : PayloadChecker) (op : InstallOperation) (op_name : string)
    (is_last : bool) (old_block_counters new_block_counters : option (list Z))
    (old_fs_size new_usable_size prev_data_offset : Z)
    (allow_signature : bool) (blob_hash_counts : gmap string Z)
    (r r' : Report) (res : op_result) :
  _CheckOperation self op op_name is_last old_block_counters
    new_block_counters old_fs_size new_usable_size prev_data_offset
    allow_signature blob_hash_counts r = (Ok res, r') →
  let key :=
    if data_sha256_hash op is Some _ then "hashed"
    else if allow_signature && is_last && bool_decide (type op = REPLACE)
         then "signature" else "unhashed" in
  match data_offset op with
  | None => res_blob_hash_counts res = blob_hash_counts
  | Some _ =>
      ∃ count, blob_hash_counts !! key = Some count
               ∧ res_blob_hash_counts res
                 = <[key := count + 1]> blob_hash_counts
  end.
Proof.
  unfold _CheckOperation. intros Hok. inv_fields. simpl.
  match goal with
  | Hb : match data_sha256_hash op with _ => _ end _ = (Ok _, _) |- _ =>
      destruct (data_sha256_hash op) as [digest|]
  end.
  - inv_ok. destruct (data_offset op) as [offset|]; [|inv_ok]. inv_fields.
    match goal with
    | Hd : dict_add _ _ _ = Ok _ |- _ =>
        unfold dict_add in Hd;
        destruct (blob_hash_counts !! "hashed") as [count|] eqn:Hcount;
        [injection Hd as <- | discriminate]
    end. eauto.
  - destruct (data_offset op) as [offset|].
    + match goal with
      | Hb : (if bool_decide _ then _ else _) _ = _ |- _ =>
          rewrite bool_decide_eq_true_2 in Hb by eauto;
          destruct (allow_signature && is_last
                    && bool_decide (type op = REPLACE));
          [|destruct (allow_unhashed self)]; inv_ok
      end;
        match goal with
        | Hd : dict_add _ ?k _ = Ok _ |- _ =>
            unfold dict_add in Hd;
            destruct (blob_hash_counts !! k) as [count|] eqn:Hcount;
            [injection Hd as <- | discriminate]
        end; eauto.
    + match goal with
      | Hb : (if bool_decide _ then _ else _) _ = _ |- _ =>
          rewrite bool_decide_eq_false_2 in Hb by (by intros [? ?]); inv_ok
      end. done.
Qed.

(** X14: what [_CheckOperation] has established of the extents and
    lengths of an accepted operation: there is a destination extent;
    a [src_length] or [dst_length] that is present is not zero and fills
    the blocks of its extents up to the last one; and a destination
    pseudo-extent occurs only when the check for them is disabled, or as
    the single extent of the last [REPLACE] of a sequence that allows a
    signature. *)
Theorem X14_operation_extents_and_lengths
    (self : PayloadChecker) (op : InstallOperation) (op_name : string)
    (is_last : bool) (old_block_counters new_block_counters : option (list Z))
    (old_fs_size new_usable_size prev_data_offset : Z)
    (allow_signature : bool) (blob_hash_counts : gmap string Z)
    (r r' : Report) (res : op_result) :
  _CheckOperation self op op_name is_last old_block_counters
    new_block_counters old_fs_size new_usable_size prev_data_offset
    allow_signature blob_hash_counts r = (Ok res, r') →
  dst_extents op ≠ []
  ∧ (∀ length, src_length op = Some length →
       length ≠ 0
       ∧ (total_blocks (src_extents op) - 1) * block_size self < length
         ≤ total_blocks (src_extents op) * block_size self)
  ∧ (∀ length, dst_length op = Some length →
       length ≠ 0
       ∧ (total_blocks (dst_extents op) - 1) * block_size self < length
         ≤ total_blocks (dst_extents op) * block_size self)
  ∧ (∀ ex, ex ∈ dst_extents op →
       start_block ex = Some PSEUDO_EXTENT_MARKER →
       check_dst_pseudo_extents self = false
       ∨ (allow_signature = true ∧ is_last = true ∧ type op = REPLACE
          ∧ dst_extents op = [ex])).
Proof.
  intros Hok.
  pose proof (_CheckOperation_Ok _ _ _ _ _ _ _ _ _ _ _ _ _ _ Hok)
    as (_ & _ & Hdst & _ & Hne & _ & _).
  unfold _CheckOperation in Hok. inv_fields.
  repeat match goal with
         | Hx : _CheckExtents _ _ _ _ _ _ _ _ = (Ok _, _) |- _ =>
             apply _CheckExtents_Ok in Hx as (_ & ? & _)
         end.
  assert (∀ length total u,
            _CheckLength self length total op_name "src_length" = Ok u
            ∨ _CheckLength self length total op_name "dst_length" = Ok u →
            length ≠ 0
            ∧ (total - 1) * block_size self < length
              ≤ total * block_size self) as Hlength.
  { intros length total u [Hlen|Hlen]; unfold _CheckLength in Hlen; inv_ok;
      (split; [by apply Z.eqb_neq | by eapply _CheckBlocksFitLength_Ok]). }
  split_and!; [done | | |].
  - intros length Hlen.
    match goal with
    | Hb : match src_length op with _ => _ end _ = _,
      Ht : _ = total_blocks (src_extents op) |- _ =>
        rewrite Hlen in Hb; inv_ok; rewrite <- Ht; eauto
    end.
  - intros length Hlen.
    match goal with
    | Hb : match dst_length op with _ => _ end _ = _,
      Ht : _ = total_blocks (dst_extents op) |- _ =>
        rewrite Hlen in Hb; inv_ok; rewrite <- Ht; eauto
    end.
  - intros ex Hin Hpseudo. rewrite Forall_forall in Hdst.
    destruct (Hdst ex Hin) as (s & n & Hs & _ & _ & _ & Hallowed).
    rewrite Hpseudo in Hs. injection Hs as <-.
    destruct (Hallowed eq_refl) as [Hoff|[Hsig Hone]].
    + left. by apply negb_true_iff.
    + right. apply andb_true_iff in Hsig as [Hsig Htype].
      apply andb_true_iff in Hsig as [? ?].
      apply bool_decide_eq_true in Htype. split_and!; try done.
      destruct (dst_extents op) as [|ex0 [|ex1 rest]]; simpl in Hone;
        try lia.
      by apply list_elem_of_singleton in Hin as ->.
Qed.

End MoreOperationProperties.

(** ** The statistics of a sequence of operations *)

Lemma ops_of_type_cons (t : OpType) (op : InstallOperation)
    (ops : list InstallOperation) :
  ops_of_type t (op :: ops)
  = if decide (type op = t) then op :: ops_of_type t ops
    else ops_of_type t ops.
Proof. unfold ops_of_type. by rewrite filter_cons. Qed.

Lemma dict_add_Ok `{Countable K} (d d' : gmap K Z) (k : K) (v : Z) :
  dict_add d k v = Ok d' →
  ∃ x, d !! k = Some x
       ∧ ∀ k', d' !! k' = if decide (k = k') then Some (x + v) else d !! k'.
Proof.
  unfold dict_add. destruct (d !! k) as [x|] eqn:Hk; [|discriminate].
  intros [= <-]. exists x. split; [done|]. intros k'.
  destruct (decide (k = k')) as [<-|Hne].
  - by rewrite lookup_insert_eq.
  - by rewrite lookup_insert_ne.
Qed.

Section StatisticsProperties.
Context `{Externals}.

Lemma _CheckOperations_loop_statistics self items n_ops old_fs_size
    new_usable_size prev_data_offset allow_signature st r st' r' :
  _CheckOperations_loop self items n_ops old_fs_size new_usable_size
    prev_data_offset allow_signature st r = (Ok st', r') →
  op_num st' = op_num st + Z.of_nat (length items)
  ∧ Forall (fun op => is_Some (op_counts st !! type op)) (map fst items)
  ∧ (∀ t, op_counts st' !! t
          = (fun c => c + Z.of_nat (length (ops_of_type t (map fst items))))
            <$> op_counts st !! t)
  ∧ (∀ t, op_blob_totals st' !! t
          = (fun c => c + sum_data_length (ops_of_type t (map fst items)))
            <$> op_blob_totals st !! t).
Proof.
  revert st r.
  induction items as [|[op op_name] items IH]; intros st r Hok;
    simpl in Hok; inv_ok.
  - simpl. split_and!; [lia | constructor | |]; intros t;
      [destruct (op_counts st !! t) | destruct (op_blob_totals st !! t)];
      simpl; try done; f_equal; lia.
  - apply IH in Hok as (Hnum & Hall & Hcounts & Htotals).
    simpl in Hnum, Hall, Hcounts, Htotals.
    match goal with
    | Hadd : dict_add (op_counts st) (type op) 1 = Ok _ |- _ =>
        apply dict_add_Ok in Hadd as (c & Hcount & Hcounts1)
    end.
    match goal with
    | Hop : _CheckOperation _ _ _ _ _ _ _ _ _ _ _ _ = (Ok ?res, _),
      Ht : (if negb (data_used ?res =? 0) then _ else _) _ = (Ok ?tot, _)
      |- _ =>
        apply _CheckOperation_Ok in Hop as (Hused & _);
        assert (∀ t, tot.1 !! t
                     = (fun c => c + if decide (type op = t)
                                     then default 0 (data_length op) else 0)
                       <$> op_blob_totals st !! t) as Htotals1
    end.
    { intros t. rewrite <- Hused.
      match goal with
      | Ht : (if negb (?u =? 0) then _ else _) _ = _ |- _ =>
          destruct (Z.eqb_spec u 0) as [Hz|Hz]; simpl in Ht; inv_ok
      end.
      - simpl. rewrite Hz.
        destruct (op_blob_totals st !! t); simpl; [|done].
        f_equal. destruct (decide (type op = t)); lia.
      - match goal with
        | Hd : dict_add (op_blob_totals st) _ _ = Ok _ |- _ =>
            apply dict_add_Ok in Hd as (x & Hx & Hlookup)
        end.
        simpl. rewrite Hlookup. destruct (decide (type op = t)) as [<-|Hne].
        + by rewrite Hx.
        + destruct (op_blob_totals st !! t); simpl; [|done]. f_equal. lia. }
    split_and!.
    + simpl. lia.
    + simpl. constructor; [by rewrite Hcount|].
      eapply Forall_impl; [exact Hall|]. intros op' Hsome. simpl in Hsome.
      rewrite Hcounts1 in Hsome.
      destruct (decide (type op = type op')) as [<-|_];
        [by rewrite Hcount | done].
    + intros t. rewrite Hcounts, Hcounts1. simpl.
      rewrite ops_of_type_cons.
      destruct (decide (type op = t)) as [<-|Hne].
      * rewrite Hcount. simpl. f_equal. lia.
      * destruct (op_counts st !! t); simpl; [|done]. done.
    + intros t. rewrite Htotals, Htotals1. simpl.
      rewrite ops_of_type_cons.
      destruct (op_blob_totals st !! t); simpl; [|done]. f_equal.
      destruct (decide (type op = t)); simpl; lia.
Qed.

(** X15: the statistics that [_CheckOperations] reports.  When its loop
    has accepted a sequence of operations, every operation has one of the
    four known types, [op_num] is the number of operations, [op_counts]
    holds for each type the number of operations of that type, and
    [op_blob_totals] holds for [REPLACE], [REPLACE_BZ] and [BSDIFF] the sum
    of the data lengths of the operations of that type (it has no entry for
    [MOVE]). *)
Theorem X15_operation_statistics_are_exact
    (self : PayloadChecker) (operations : list InstallOperation)
    (base_name : string) (old_fs_size new_usable_size prev_data_offset : Z)
    (allow_signature : bool) (st0 st : ops_locals) (r r' : Report) :
  _CheckOperations_init self old_fs_size new_usable_size allow_signature
  = Ok st0 →
  _CheckOperations_loop self (ObjNameIter operations base_name)
    (Z.of_nat (length operations)) old_fs_size new_usable_size
    prev_data_offset allow_signature st0 r = (Ok st, r') →
  Forall (fun op => type op ∈ [REPLACE; REPLACE_BZ; MOVE; BSDIFF]) operations
  ∧ op_num st = Z.of_nat (length operations)
  ∧ (∀ t, t ∈ [REPLACE; REPLACE_BZ; MOVE; BSDIFF] →
          op_counts st !! t
          = Some (Z.of_nat (length (ops_of_type t operations))))
  ∧ (∀ t, t ∈ [REPLACE; REPLACE_BZ; BSDIFF] →
          op_blob_totals st !! t
          = Some (sum_data_length (ops_of_type t operations)))
  ∧ op_blob_totals st !! MOVE = None.
Proof.
  intros Hinit Hloop.
  apply _CheckOperations_loop_statistics in Hloop
    as (Hnum & Hall & Hcounts & Htotals).
  rewrite ObjNameIter_items in Hall, Hcounts, Htotals.
  assert (length (ObjNameIter operations base_name) = length operations)
    as Hlen by (rewrite <- (ObjNameIter_items operations base_name) at 2;
                by rewrite length_map).
  rewrite Hlen in Hnum.
  unfold _CheckOperations_init in Hinit. inv_ok. injection Hinit as <-.
  simpl in *.
  split_and!.
  - eapply Forall_impl; [exact Hall|]. intros op [c Hc].
    destruct (type op); try (repeat constructor; fail).
    by vm_compute in Hc.
  - lia.
  - intros t Ht. rewrite Hcounts.
    rewrite !elem_of_cons, elem_of_nil in Ht.
    destruct Ht as [->|[->|[->|[->|[]]]]]; by vm_compute.
  - intros t Ht. rewrite Htotals.
    rewrite !elem_of_cons, elem_of_nil in Ht.
    destruct Ht as [->|[->|[->|[]]]]; by vm_compute.
  - by rewrite Htotals.
Qed.

End StatisticsProperties.

(** ** The payload signatures *)

Section PayloadSignatureProperties.
Context `{Externals}.

Lemma _CheckSignatures_loop_Ok report pubkey_file_name payload_hasher items
    r u r' :
  _CheckSignatures_loop report pubkey_file_name payload_hasher items r
  = (Ok u, r') →
  Forall (fun item =>
            Signature.version item.1 = Some 1
            ∧ ∃ data, Signature.data item.1 = Some data
                      ∧ _CheckSha256Signature data pubkey_file_name
                          (sha256 payload_hasher) item.2 = Ok tt) items.
Proof.
  revert r. induction items as [|[sig sig_name] items IH]; intros r Hok;
    simpl in Hok; [constructor|].
  inv_ok.
  repeat match goal with
         | Hf : _CheckMandatoryField _ _ _ _ _ _ _ _ = (Ok _, _) |- _ =>
             apply _CheckMandatoryField_Ok in Hf
         end.
  constructor; [|by eapply IH].
  match goal with
  | Hv : (if ?v =? 1 then _ else _) _ = (Ok ?x, _) |- _ =>
      destruct (Z.eqb_spec v 1) as [->|_]; inv_ok; destruct x
  end.
  simpl. eauto.
Qed.

(** X16: what [_CheckSignatures] has established when it returns: the
    signatures blob read at [sigs_offset] parses to at least one signature;
    the last operation of the kernel sequence (of the rootfs sequence when
    there are no kernel operations) is a [REPLACE] whose data offset and
    length are those of the blob; and every signature has version 1 and a
    [data] field that [_CheckSha256Signature] accepts for the digest of the
    manifest followed by the data section up to the blob. *)
Theorem X16_accepted_payload_signatures
    (self : PayloadChecker) (report : report_ref) (pubkey_file_name : string)
    (r r' : Report) (u : unit) :
  _CheckSignatures self report pubkey_file_name r = (Ok u, r') →
  let manifest := Payload.manifest (payload self) in
  ∃ so ss sigs_raw sigs fake_sig_op data,
    sigs_offset self = Some so ∧ sigs_size self = Some ss
    ∧ ReadDataBlob (payload self) so ss = Ok sigs_raw
    ∧ ParseSignatures sigs_raw = Ok sigs ∧ sigs ≠ []
    ∧ last (if bool_decide (Manifest.kernel_install_operations manifest = [])
            then Manifest.install_operations manifest
            else Manifest.kernel_install_operations manifest)
      = Some fake_sig_op
    ∧ type fake_sig_op = REPLACE
    ∧ getattr_Z (data_offset fake_sig_op) = so
    ∧ getattr_Z (data_length fake_sig_op) = ss
    ∧ Read (Payload.payload_file (payload self)) so
        (Payload.data_offset (payload self)) = Ok data
    ∧ Forall (fun sig =>
                Signature.version sig = Some 1
                ∧ ∃ sig_data sig_name,
                    Signature.data sig = Some sig_data
                    ∧ _CheckSha256Signature sig_data pubkey_file_name
                        (sha256 (Payload.manifest_hasher (payload self)
                                 +:+ data)) sig_name = Ok tt) sigs.
Proof.
  intros Hok. cbv zeta. unfold _CheckSignatures in Hok. inv_fields.
  match goal with
  | Hl : match last ?l with _ => _ end _ = (Ok ?op, _) |- _ =>
      destruct (last l) as [fake_sig_op|] eqn:Hlast; inv_ok
  end.
  match goal with
  | Hl : Mret _ _ = (Ok _, _) |- _ => apply Mret_Ok in Hl as [<- ->]
  | _ => idtac
  end.
  repeat match goal with
         | Hc : negb _ = false |- _ => apply negb_false_iff in Hc
         | Hc : _ && _ = true |- _ => apply andb_true_iff in Hc as [? ?]
         | Hc : bool_decide _ = true |- _ => apply bool_decide_eq_true in Hc
         | Hc : bool_decide _ = false |- _ => apply bool_decide_eq_false in Hc
         | Hc : (_ =? _) = true |- _ => apply Z.eqb_eq in Hc
         end.
  apply _CheckSignatures_loop_Ok in Hok.
  eexists _, _, _, _, fake_sig_op, _.
  split_and!; try done; try eassumption.
  - by destruct (bool_decide (Manifest.kernel_install_operations _ = [])).
  - rewrite <- (ObjNameIter_items _ "signatures").
    apply Forall_map. eapply Forall_impl; [exact Hok|].
    intros [sig sig_name] (Hv & sig_data & Hd & Hs). simpl in *. eauto 6.
Qed.

End PayloadSignatureProperties.

(** ** The driver *)

Lemma truthy_str_true (v : option string) :
  truthy_str v = true ↔ ∃ s, v = Some s ∧ s ≠ EmptyString.
Proof.
  destruct v as [s|]; simpl.
  - rewrite negb_true_iff, bool_decide_eq_false. split; [eauto|].
    by intros (? & [= <-] & ?).
  - split; [done | by intros (? & ? & ?)].
Qed.

Section DriverProperties.
Context `{Externals}.

(** X17: what an accepted [Run] has verified besides the operations.  The
    header has version 1.  A metadata signature file is only accepted with
    a public key, and its decoded content is a signature that
    [_CheckSha256Signature] accepts for the digest of the manifest.  And
    when the payload signature check is not disabled and the manifest has a
    [signatures_size] that is not zero, a public key was given and
    [_CheckSignatures] has accepted the payload, on a checker that holds
    the signature offset and size of the manifest. *)
Theorem X17_accepted_run_has_verified_signatures
    (self : PayloadChecker) (pubkey_file_name metadata_sig_file : option string)
    (rootfs_part_size kernel_part_size : Z) (report_out_file : bool) :
  (Run self pubkey_file_name metadata_sig_file rootfs_part_size
     kernel_part_size report_out_file).1 = Ok tt →
  Header.version (Payload.header (payload self)) = 1
  ∧ (∀ content,
       metadata_sig_file = Some content →
       ∃ key sig,
         pubkey_file_name = Some key ∧ key ≠ EmptyString
         ∧ b64decode content = Ok sig
         ∧ _CheckSha256Signature sig key
             (sha256 (Payload.manifest_hasher (payload self)))
             "metadata signature" = Ok tt)
  ∧ (check_payload_sig self = true →
     truthy_Z (Manifest.signatures_size (Payload.manifest (payload self)))
     = true →
     ∃ key self' r1 r2,
       pubkey_file_name = Some key ∧ key ≠ EmptyString
       ∧ payload self' = payload self
       ∧ sigs_offset self'
         = Manifest.signatures_offset (Payload.manifest (payload self))
       ∧ sigs_size self'
         = Manifest.signatures_size (Payload.manifest (payload self))
       ∧ _CheckSignatures self' [] key r1 = (Ok tt, r2)).
Proof.
  intros Hrun. apply Run_Ok in Hrun as [r' Htry].
  unfold Run_try in Htry. inv_ok.
  match goal with
  | Hops : Run_operations _ _ _ _ _ _ _ = (Ok ?ops, _) |- _ =>
      destruct ops as [self' total]; unfold Run_operations in Hops;
      simpl in *
  end.
  inv_ok.
  match goal with
  | Hret : Mret _ _ = (Ok (_, _), _) |- _ =>
      apply Mret_Ok in Hret as [[= <- <-] ->]
  end.
  match goal with
  | Hm : _CheckManifest _ _ _ _ _ = (Ok _, _) |- _ =>
      pose proof (_CheckManifest_payload _ _ _ _ _ _ _ Hm) as Hpayload;
      apply _CheckManifest_sigs in Hm as (Hso & Hss & Hsig)
  end.
  split_and!.
  - match goal with
    | Hv : negb (Header.version _ =? 1) = false |- _ =>
        by apply negb_false_iff, Z.eqb_eq in Hv
    end.
  - intros content ->. inv_ok.
    match goal with
    | Hk : negb (truthy_str pubkey_file_name) = false |- _ =>
        apply negb_false_iff, truthy_str_true in Hk as (key & -> & Hkey)
    end.
    match goal with
    | Hs : _CheckSha256Signature _ _ _ _ = Ok ?x |- _ => destruct x
    end.
    simpl in *. eauto 8.
  - intros Hcheck Hsize.
    match goal with
    | Hb : (if check_payload_sig ?s && truthy_Z (sigs_size ?s) then _ else _)
             _ = (Ok _, _) |- _ =>
        rewrite Hsig, Hcheck, Hss, Hsize in Hb; simpl in Hb
    end.
    inv_ok.
    match goal with
    | Hk : negb (truthy_str pubkey_file_name) = false |- _ =>
        apply negb_false_iff, truthy_str_true in Hk as (key & -> & Hkey)
    end.
    match goal with
    | Hs : _CheckSignatures _ _ _ _ = (Ok ?x, _) |- _ => destruct x
    end.
    simpl in *. eauto 10.
Qed.

End DriverProperties.

(** ** The report generator *)

Lemma names_fit_mono (ns : list Node) (c c' : Z) :
  c ≤ c' → names_fit ns c → names_fit ns c'.
Proof.
  intros Hle. induction ns as [|[name value linebreak indent|title sub|title l]
                                 ns IH]; simpl; try done.
  intros [Hname Hrest]. split; [intros Ht; specialize (Hname Ht); lia | auto].
Qed.

Lemma last_section_len_no_section (ns : list Node) (c : Z) :
  has_section ns = false → last_section_len ns c = c.
Proof.
  induction ns as [|[name value linebreak indent|title sub|title l] ns IH];
    simpl; auto; discriminate.
Qed.

Lemma names_fit_app (ns : list Node) (n : Node) (c : Z) :
  names_fit (ns ++ [n]) c
  ↔ names_fit ns c ∧ names_fit [n] (last_section_len ns c).
Proof.
  revert c.
  induction ns as [|[name value linebreak indent|title sub|title l] ns IH];
    intros c; simpl.
  - tauto.
  - rewrite IH. tauto.
  - apply IH.
  - apply IH.
Qed.

Lemma last_section_len_app (ns : list Node) (n : Node) (c : Z) :
  last_section_len (ns ++ [n]) c
  = match n with
    | SectionNode _ l => l
    | _ => last_section_len ns c
    end.
Proof.
  revert c.
  induction ns as [|[name value linebreak indent|title sub|title l] ns IH];
    intros c; simpl; try apply IH.
  by destruct n.
Qed.

Lemma set_last_section_len_fit (ns : list Node) (n c : Z) :
  has_section ns = true → last_section_len ns c ≤ n → names_fit ns c →
  names_fit (set_last_section_len ns n) c
  ∧ last_section_len (set_last_section_len ns n) c = n.
Proof.
  revert c.
  induction ns as [|[name value linebreak indent|title sub|title l] ns IH];
    intros c Hsec Hle Hfit; simpl in *; try discriminate.
  - destruct Hfit as [Hname Hrest].
    destruct (IH c Hsec Hle Hrest) as [? ?]. done.
  - by apply IH.
  - destruct (has_section ns) eqn:Hns; simpl.
    + by apply IH.
    + rewrite last_section_len_no_section in Hle |- * by done.
      split; [|done]. by apply (names_fit_mono ns l n).
Qed.

(** X18: the invariant behind [max_field_name_len].  In a report whose
    named fields are no longer than the width of the section they are
    printed in, every addition keeps it so: [AddField] widens the last
    section (the global one when no section was added) to the length of a
    longer name and leaves it as it is otherwise, [AddSection] opens a
    section of width 0, and [AddSubReport] appends an empty sub-report at
    the position it returns. *)
Theorem X18_field_names_fit_their_section (r : Report) :
  names_fit (report_nodes r) (global_len r) →
  (∀ name value linebreak indent r',
     AddField name value linebreak indent r = Ok r' →
     names_fit (report_nodes r') (global_len r')
     ∧ last_section_len (report_nodes r') (global_len r')
       = if truthy_str name
         then Z.max (last_section_len (report_nodes r) (global_len r))
                    (Z.of_nat (String.length (default EmptyString name)))
         else last_section_len (report_nodes r) (global_len r))
  ∧ (∀ title r',
       AddSection title r = Ok r' →
       names_fit (report_nodes r') (global_len r')
       ∧ last_section_len (report_nodes r') (global_len r') = 0)
  ∧ (∀ title i r',
       AddSubReport title r = Ok (i, r') →
       names_fit (report_nodes r') (global_len r')
       ∧ report_nodes r' !! i = Some (SubReportNode title Report_init)
       ∧ last_section_len (report_nodes r') (global_len r')
         = last_section_len (report_nodes r) (global_len r)).
Proof.
  destruct r as [ns glen fin]. simpl. intros Hfit. split_and!.
  - intros name value linebreak indent r'. destruct fin; [discriminate|].
    intros [= <-]. simpl.
    set (name_len := Z.of_nat (String.length (default EmptyString name))).
    rewrite names_fit_app, last_section_len_app. simpl.
    destruct (truthy_str name) eqn:Hname; simpl; [|by split_and!].
    fold name_len.
    destruct (Z.ltb_spec (last_section_len ns glen) name_len) as [Hlt|Hge];
      simpl.
    + destruct (has_section ns) eqn:Hsec; simpl.
      * destruct (set_last_section_len_fit ns name_len glen) as [Hfit' Hlen];
          [done | lia | done |].
        rewrite Hlen. split_and!; try done; lia.
      * rewrite last_section_len_no_section in Hlt |- * by done.
        rewrite last_section_len_no_section by done.
        split_and!; try done; try lia.
        apply (names_fit_mono ns glen name_len); [lia | done].
    + split_and!; try done; lia.
  - intros title r'. destruct fin; [discriminate|]. intros [= <-]. simpl.
    rewrite names_fit_app, last_section_len_app. by simpl.
  - intros title i r'. destruct fin; [discriminate|]. intros [= <- <-].
    simpl. rewrite names_fit_app, last_section_len_app. simpl.
    split_and!; try done.
    by rewrite lookup_app_r, Nat.sub_diag by lia.
Qed.

Lemma splitlines_go_nil (cur s : string) :
  splitlines_go cur s = [] ↔ cur = EmptyString ∧ s = EmptyString.
Proof.
  revert cur. induction s as [|c s IH]; intros cur; simpl.
  - destruct cur; split; try done; by intros [? ?].
  - destruct (bool_decide (c = Ascii.ascii_of_nat 10));
      [split; [done | by intros [? ?]]|].
    destruct (bool_decide (c = Ascii.ascii_of_nat 13)).
    + destruct s as [|c' s]; [split; [done | by intros [? ?]]|].
      destruct (bool_decide (c' = Ascii.ascii_of_nat 10));
        (split; [done | by intros [? ?]]).
    + rewrite IH. split; by intros [? ?].
Qed.

Lemma FieldNode_GenerateLines_raises name value linebreak indent base_indent
    curr_len :
  match FieldNode_GenerateLines name value linebreak indent base_indent
          curr_len with
  | Ok _ =>
      negb (linebreak && truthy_str name) && bool_decide (value = EmptyString)
      = false
  | Raise e =>
      e = IndexError
      ∧ negb (linebreak && truthy_str name)
        && bool_decide (value = EmptyString) = true
  end.
Proof.
  unfold FieldNode_GenerateLines.
  destruct (linebreak && truthy_str name); simpl; [done|].
  destruct (splitlines value) as [|first others] eqn:Hlines; simpl.
  - apply splitlines_go_nil in Hlines as [_ ->]. done.
  - apply bool_decide_eq_false. intros ->. discriminate.
Qed.

(** X19: [GenerateLines], and with it [Dump], raises nothing but an
    [IndexError], and raises it exactly for a report that has, at any
    depth, a field with an empty value that is to be printed on the line of
    its name: [value_lines[0]] does not exist then. *)
Theorem X19_Dump_raises_IndexError_on_empty_value :
  ∀ (r : Report) (base_indent sub_indent : Z),
    match Dump r base_indent sub_indent with
    | Ok _ => has_empty_field r = false
    | Raise e => e = IndexError ∧ has_empty_field r = true
    end.
Proof.
  assert (∀ r base_indent sub_indent,
            match GenerateLines r base_indent sub_indent with
            | Ok _ => has_empty_field r = false
            | Raise e => e = IndexError ∧ has_empty_field r = true
            end) as Hlines.
  { fix IH 1. intros [ns glen fin] base_indent sub_indent. simpl.
    generalize glen as curr_len.
    induction ns as [|[name value linebreak indent|title sub|title l] ns IHns];
      intros curr_len; [done| | |].
    - pose proof (FieldNode_GenerateLines_raises name value linebreak indent
                    base_indent curr_len) as Hfield.
      destruct (FieldNode_GenerateLines _ _ _ _ _ _); cbn [rbind].
      + rewrite Hfield. specialize (IHns curr_len).
        cbn [orb]. destruct (_ ns curr_len); cbn [rbind]; exact IHns.
      + destruct Hfield as [-> ->]. done.
    - specialize (IH sub (base_indent + sub_indent) sub_indent).
      destruct (GenerateLines sub _ _); cbn [rbind].
      + rewrite IH. specialize (IHns curr_len).
        cbn [orb]. destruct (_ ns curr_len); cbn [rbind]; exact IHns.
      + destruct IH as [-> ->]. done.
    - specialize (IHns l).
      destruct (_ ns l); cbn [rbind]; exact IHns. }
  intros r base_indent sub_indent. unfold Dump.
  specialize (Hlines r base_indent sub_indent).
  by destruct (GenerateLines r base_indent sub_indent).
Qed.

(** ** The block-by-block comparison of a move *)

Lemma total_blocks_nonneg (extents : list Extent) :
  Forall (fun ex => 0 < getattr_Z (num_blocks ex)) extents →
  0 ≤ total_blocks extents.
Proof.
  induction 1 as [|ex extents Hex _ IH]; unfold total_blocks in *; simpl; lia.
Qed.

(** One chunk of the walk: the comparison at its head, and the runs that
    are left after it. *)
Lemma block_at_step (sidx snum didx dnum : Z) (rs rd : list (Z * Z))
    (bound : Z) :
  0 < snum → 0 < dnum → 0 < bound →
  (∀ j, 0 ≤ j < bound →
        ∀ a b, block_at ((sidx, snum) :: rs) j = Some a →
               block_at ((didx, dnum) :: rd) j = Some b → a ≠ b) →
  sidx ≠ didx
  ∧ ∀ j, 0 ≤ j < bound - Z.min snum dnum →
      ∀ a b,
        block_at (if snum - Z.min snum dnum =? 0 then rs
                  else (sidx + Z.min snum dnum, snum - Z.min snum dnum) :: rs)
                 j = Some a →
        block_at (if dnum - Z.min snum dnum =? 0 then rd
                  else (didx + Z.min snum dnum, dnum - Z.min snum dnum) :: rd)
                 j = Some b →
        a ≠ b.
Proof.
  intros Hsnum Hdnum Hbound Hdiff. split.
  - intros Heq.
    apply (Hdiff 0 ltac:(lia) (sidx + 0) (didx + 0));
      [by apply block_at_head | by apply block_at_head | lia].
  - intros j Hj a b Ha Hb.
    apply (Hdiff (j + Z.min snum dnum) ltac:(lia)).
    + rewrite (block_at_advance _ _ (Z.min snum dnum)) by lia.
      by replace (j + Z.min snum dnum - Z.min snum dnum) with j by lia.
    + rewrite (block_at_advance _ _ (Z.min snum dnum)) by lia.
      by replace (j + Z.min snum dnum - Z.min snum dnum) with j by lia.
Qed.

Section MoveCompleteness.
Context `{Externals}.

(** The loop accepts every pair of sequences of equal length whose blocks
    differ position by position, and leaves no extent behind. *)
Lemma _CheckMoveOperation_loop_complete fuel self total op_name i
    src_extent_iter dst_extent_iter src_extent dst_extent src_idx src_num
    dst_idx dst_num :
  (move_measure src_extent_iter dst_extent_iter src_extent dst_extent
   < fuel)%nat →
  Forall (fun ex => 0 < getattr_Z (num_blocks ex)) src_extent_iter →
  Forall (fun ex => 0 < getattr_Z (num_blocks ex)) dst_extent_iter →
  (is_Some src_extent → 0 < src_num) →
  (is_Some dst_extent → 0 < dst_num) →
  (if src_extent is Some _ then src_num else 0)
  + total_blocks src_extent_iter = total - i →
  (if dst_extent is Some _ then dst_num else 0)
  + total_blocks dst_extent_iter = total - i →
  (check_move_same_src_dst_block self = true →
   ∀ j, 0 ≤ j < total - i →
     ∀ a b,
       block_at (pending_runs src_extent src_idx src_num src_extent_iter) j
       = Some a →
       block_at (pending_runs dst_extent dst_idx dst_num dst_extent_iter) j
       = Some b →
       a ≠ b) →
  _CheckMoveOperation_loop fuel self total total op_name i src_extent_iter
    dst_extent_iter src_extent dst_extent src_idx src_num dst_idx dst_num
  = Some (Ok (None, None)).
Proof.
  revert i src_extent_iter dst_extent_iter src_extent dst_extent src_idx
    src_num dst_idx dst_num.
  induction fuel as [|fuel IH];
    intros i si di se de sidx snum didx dnum Hm Hsi Hdi Hsn Hdn Hs Hd Hdiff;
    [lia|].
  pose proof (total_blocks_nonneg si Hsi) as Hsi0.
  pose proof (total_blocks_nonneg di Hdi) as Hdi0.
  simpl. destruct (Z.ltb_spec i total) as [Hi|Hi]; simpl.
  - destruct se as [sx|];
      [pose proof (Hsn ltac:(eauto))
      |destruct si as [|sx si];
       [exfalso; unfold total_blocks in Hs; simpl in Hs; lia
       |apply Forall_cons in Hsi as [? Hsi];
        pose proof (total_blocks_nonneg si Hsi)]];
      (destruct de as [dx|];
       [pose proof (Hdn ltac:(eauto))
       |destruct di as [|dx di];
        [exfalso; unfold total_blocks in Hd; simpl in Hd; lia
        |apply Forall_cons in Hdi as [? Hdi];
         pose proof (total_blocks_nonneg di Hdi)]]);
      unfold total_blocks in Hs, Hd; simpl in Hs, Hd;
      fold (total_blocks si) in Hs; fold (total_blocks di) in Hd;
      match goal with
      | |- (if _ && (?a =? ?b) then _
            else _CheckMoveOperation_loop _ _ _ _ _ _ ?si' ?di' _ _ _
                   (?sn - _) _ (?dn - _)) = _ =>
          assert (0 < total - i → 0 < sn → 0 < dn →
                  check_move_same_src_dst_block self = true →
                  a ≠ b
                  ∧ ∀ j, 0 ≤ j < total - i - Z.min sn dn →
                      ∀ x y,
                        block_at
                          (if sn - Z.min sn dn =? 0 then runs_of si'
                           else (a + Z.min sn dn, sn - Z.min sn dn)
                                :: runs_of si') j = Some x →
                        block_at
                          (if dn - Z.min sn dn =? 0 then runs_of di'
                           else (b + Z.min sn dn, dn - Z.min sn dn)
                                :: runs_of di') j = Some y →
                        x ≠ y) as Hstep
            by (intros ? ? ? Hcheck;
                apply (block_at_step a sn b dn (runs_of si') (runs_of di')
                         (total - i)); [done | done | done |];
                exact (Hdiff Hcheck));
          assert (check_move_same_src_dst_block self && (a =? b) = false)
            as ->
            by (destruct (check_move_same_src_dst_block self) eqn:Hcheck;
                [|done]; simpl; apply Z.eqb_neq;
                apply Hstep; [lia | lia | lia | done]);
          apply IH;
          [ unfold move_measure in *; simpl in *;
            destruct (Z.min_spec sn dn) as [[_ ->]|[_ ->]];
            rewrite ?Z.sub_diag; simpl;
            repeat match goal with
                   | |- context [if ?c then _ else _] => destruct c
                   end; simpl; lia
          | done | done
          | destruct (Z.eqb_spec (sn - Z.min sn dn) 0);
            [by intros [? ?] | lia]
          | destruct (Z.eqb_spec (dn - Z.min sn dn) 0);
            [by intros [? ?] | lia]
          | destruct (Z.eqb_spec (sn - Z.min sn dn) 0); lia
          | destruct (Z.eqb_spec (dn - Z.min sn dn) 0); lia
          | intros Hcheck j Hj; rewrite !pending_runs_advance;
            apply Hstep; [lia | lia | lia | done | lia] ]
      end.
  - destruct se as [sx|]; [pose proof (Hsn ltac:(eauto)); lia|].
    destruct de as [dx|]; [pose proof (Hdn ltac:(eauto)); lia|]. done.
Qed.

(** X20: [_CheckMoveOperation] decides exactly what it is to verify.  For
    extents that are not empty, it accepts a move if and only if the
    operation carries no data, its source and destination sequences have
    the same number of blocks and, unless the test is disabled, the [i]-th
    source block differs from the [i]-th destination block at every
    position; in particular it never reports excess blocks or a lack of
    extents for sequences of equal length. *)
Theorem X20_CheckMoveOperation_decides
    (self : PayloadChecker) (op : InstallOperation) (data_offset : option Z)
    (op_name : string) :
  Forall (fun ex => 0 < getattr_Z (num_blocks ex)) (src_extents op) →
  Forall (fun ex => 0 < getattr_Z (num_blocks ex)) (dst_extents op) →
  _CheckMoveOperation self op data_offset (total_blocks (src_extents op))
    (total_blocks (dst_extents op)) op_name = Ok tt
  ↔ data_offset = None
    ∧ total_blocks (src_extents op) = total_blocks (dst_extents op)
    ∧ (check_move_same_src_dst_block self = true →
       ∀ i, 0 ≤ i < total_blocks (src_extents op) →
         ∃ a b, nth_block (src_extents op) i = Some a
                ∧ nth_block (dst_extents op) i = Some b ∧ a ≠ b).
Proof.
  intros Hsrc Hdst. split.
  - apply _CheckMoveOperation_Ok.
    + eapply Forall_impl; [exact Hsrc|]. intros ex Hex. simpl in *. lia.
    + eapply Forall_impl; [exact Hdst|]. intros ex Hex. simpl in *. lia.
  - intros (-> & Htotal & Hdiff). unfold _CheckMoveOperation.
    rewrite bool_decide_eq_false_2 by (by intros [? ?]).
    rewrite <- Htotal, Z.eqb_refl. cbn [negb raise_if rbind].
    rewrite _CheckMoveOperation_loop_complete; [done | ..].
    + unfold move_measure. simpl. lia.
    + done.
    + done.
    + by intros [? ?].
    + by intros [? ?].
    + simpl. lia.
    + simpl. lia.
    + intros Hcheck j Hj a b Ha Hb. rewrite Z.sub_0_r in Hj.
      destruct (Hdiff Hcheck j Hj) as (a' & b' & Ha' & Hb' & Hne).
      unfold nth_block in Ha', Hb'. simpl in Ha, Hb. congruence.
Qed.

End MoveCompleteness.

(** ** The exceptions of the manifest check *)

Lemma at_report_raises {A} (p : report_ref) (f : Report → result (A * Report))
    (r : Report) (e : exn) :
  (∀ r e, f r = Raise e → e = AssertionError) →
  at_report p f r = Raise e → e = AssertionError.
Proof.
  intros Hf. revert r. induction p as [|i p IH]; intros r; simpl; [apply Hf|].
  destruct r as [ns glen fin].
  destruct (ns !! i) as [[| title sub |]|]; try by intros [= <-].
  specialize (IH sub). destruct (at_report p f sub) as [[a sub']|e'];
    [discriminate|]. intros [= <-]. by apply IH.
Qed.

Lemma raises_only_on_report {A} (P : exn → Prop) (p : report_ref)
    (f : Report → result (A * Report)) :
  P AssertionError → (∀ r e, f r = Raise e → e = AssertionError) →
  raises_only P (on_report p f).
Proof.
  intros HP Hf r e. unfold on_report.
  pose proof (at_report_raises p f r) as Hat.
  destruct (at_report p f r) as [[a r']|e']; simpl; [discriminate|].
  intros [= <-]. by rewrite (Hat e' Hf eq_refl).
Qed.

Lemma raises_only_AddField (P : exn → Prop) report name value linebreak
    indent :
  P AssertionError →
  raises_only P (report_AddField report name value linebreak indent).
Proof.
  intros HP. apply raises_only_on_report; [done|].
  intros [ns glen fin] e. simpl. destruct fin; [by intros [= <-] | done].
Qed.

Lemma raises_only_AddSubReport (P : exn → Prop) report title :
  P AssertionError → raises_only P (report_AddSubReport report title).
Proof.
  intros HP. apply raises_only_on_report; [done|].
  intros [ns glen fin] e. simpl. destruct fin; [by intros [= <-] | done].
Qed.

Lemma raises_only_AddSection (P : exn → Prop) report title :
  P AssertionError → raises_only P (report_AddSection report title).
Proof.
  intros HP. apply raises_only_on_report; [done|].
  intros [ns glen fin] e. simpl. destruct fin; [by intros [= <-] | done].
Qed.

Lemma raises_only_CheckElem {V} (P : exn → Prop) (field : option V) name
    report is_mandatory is_submsg convert msg_name linebreak indent :
  P AssertionError → (∀ fmt args, P (PayloadError fmt args)) →
  raises_only P (_CheckElem field name report is_mandatory is_submsg convert
                   msg_name linebreak indent).
Proof.
  intros HA HP. unfold _CheckElem.
  repeat first [ apply raises_only_AddField; exact HA
               | apply raises_only_AddSubReport; exact HA
               | raises_only_step ].
  apply HP.
Qed.

Lemma raises_only_CheckMandatoryField {V} (P : exn → Prop) (field : option V)
    name report msg_name convert linebreak indent :
  P AssertionError → (∀ fmt args, P (PayloadError fmt args)) →
  raises_only P (_CheckMandatoryField field name report msg_name convert
                   linebreak indent).
Proof.
  intros HA HP. unfold _CheckMandatoryField.
  apply raises_only_bind; [by apply raises_only_CheckElem|].
  intros res r r' Hok. apply _CheckElem_Ok in Hok as [-> Hsome].
  destruct (Hsome eq_refl) as [v ->]. apply raises_only_ret.
Qed.

Lemma raises_only_CheckOptionalField {V} (P : exn → Prop) (field : option V)
    name report convert linebreak indent :
  P AssertionError → (∀ fmt args, P (PayloadError fmt args)) →
  raises_only P (_CheckOptionalField field name report convert linebreak
                   indent).
Proof.
  intros HA HP. unfold _CheckOptionalField.
  apply raises_only_bind; [by apply raises_only_CheckElem|].
  intros. apply raises_only_ret.
Qed.

Lemma raises_only_CheckMandatorySubMsg {V} (P : exn → Prop) (field : option V)
    name report msg_name :
  P AssertionError → (∀ fmt args, P (PayloadError fmt args)) →
  raises_only P (_CheckMandatorySubMsg field name report msg_name).
Proof.
  intros HA HP. unfold _CheckMandatorySubMsg.
  apply raises_only_bind; [by apply raises_only_CheckElem|].
  intros res r r' Hok. apply _CheckElem_Ok in Hok as [-> Hsome].
  destruct (Hsome eq_refl) as [v ->]. simpl.
  apply raises_only_bind; [apply raises_only_ret|].
  intros. apply raises_only_ret.
Qed.

Section ManifestExceptions.
Context `{Externals}.

(** X21: [_CheckManifest] raises nothing but a [PayloadError], or the
    [AssertionError] of a report that does not take additions.  The
    [AttributeError] of reading the fields of a missing [old_rootfs_info]
    cannot occur: the preceding [_CheckPresentIff] has made sure that the
    message is there when [old_kernel_info] is; and no mandatory value is
    used without having been found present. *)
Theorem X21_CheckManifest_exceptions
    (self : PayloadChecker) (report : report_ref)
    (rootfs_part_size kernel_part_size : Z) (r : Report) (e : exn) :
  (_CheckManifest self report rootfs_part_size kernel_part_size r).1
  = Raise e →
  is_PayloadError e = true ∨ e = AssertionError.
Proof.
  set (P := fun e => is_PayloadError e = true ∨ e = AssertionError).
  assert (P AssertionError) as HA by (by right).
  assert (∀ fmt args, P (PayloadError fmt args)) as HP by (by left).
  revert r e. change (raises_only P (_CheckManifest self report
                                       rootfs_part_size kernel_part_size)).
  unfold _CheckManifest, _CheckOptionalSubMsg. cbv zeta.
  repeat first
    [ apply raises_only_AddSection; exact HA
    | apply raises_only_CheckMandatoryField; [exact HA | exact HP]
    | apply raises_only_CheckOptionalField; [exact HA | exact HP]
    | apply raises_only_CheckMandatorySubMsg; [exact HA | exact HP]
    | apply raises_only_CheckElem; [exact HA | exact HP]
    | apply raises_only_raise_if; apply HP
    | apply raises_only_lift; intros e' He'; left;
      exact (_CheckPresentIff_raises _ _ _ _ _ _ He')
    | raises_only_step ].
  exfalso.
  repeat match goal with
         | Hl : Mlift (_CheckPresentIff _ _ _ _ _) _ = (Ok _, _) |- _ =>
             apply Mlift_Ok in Hl as [Hl _];
             apply _CheckPresentIff_Ok in Hl
         end.
  match goal with
  | Hl : is_Some (Some _) ↔ is_Some None |- _ =>
      destruct (proj1 Hl) as [? ?]; [eauto | discriminate]
  end.
Qed.

End ManifestExceptions.

(** * The properties at concrete payloads *)

(** X4 at the first operation of the minimal payload: 8192 bytes fill
    two blocks of 4096. *)
Lemma X4_witness :
  let self := new_checker full_payload in
  let length := 8192 in
  let num_blocks := 2 in
  let length_name := "data_length" in
  let block_name := Some "dst" in
  (_CheckBlocksFitLength length num_blocks (block_size self) length_name
     block_name = Ok tt
   ↔ _SizeToNumBlocks self length = Ok num_blocks)
  ∧ (_SizeToNumBlocks self length ≠ Ok num_blocks →
     ∃ fmt args,
       _CheckBlocksFitLength length num_blocks (block_size self) length_name
         block_name = Raise (PayloadError fmt args)).
Proof.
  intros self length num_blocks length_name block_name.
  apply (X4_CheckBlocksFitLength_iff_SizeToNumBlocks self length num_blocks
           length_name block_name).
  reflexivity.
Defined.

(** X5 at the manifest of the minimal full payload. *)
Lemma X5_witness :
  let H := toy_externals in
  let self := new_checker full_payload in
  let report : report_ref := [] in
  let rootfs_part_size := 0 in
  let kernel_part_size := 0 in
  ∃ self' r',
    _CheckManifest self report rootfs_part_size kernel_part_size Report_init
    = (Ok self', r')
    ∧ (let m := Payload.manifest (payload self) in
       Manifest.block_size m = Some (block_size self)
       ∧ sigs_offset self' = Manifest.signatures_offset m
       ∧ sigs_size self' = Manifest.signatures_size m
       ∧ (is_Some (Manifest.signatures_offset m)
          ↔ is_Some (Manifest.signatures_size m))
       ∧ match Manifest.old_kernel_info m, Manifest.old_rootfs_info m with
         | Some oki, Some ori =>
             payload_type self ≠ Some "full" ∧ payload_type self' = Some "delta"
             ∧ size oki = Some (old_kernel_fs_size self') ∧ is_Some (hash oki)
             ∧ size ori = Some (old_rootfs_fs_size self') ∧ is_Some (hash ori)
             ∧ (kernel_part_size ≠ 0 → old_kernel_fs_size self' ≤ kernel_part_size)
             ∧ (rootfs_part_size ≠ 0 → old_rootfs_fs_size self' ≤ rootfs_part_size)
         | None, None =>
             payload_type self ≠ Some "delta" ∧ payload_type self' = Some "full"
             ∧ old_kernel_fs_size self' = old_kernel_fs_size self
             ∧ old_rootfs_fs_size self' = old_rootfs_fs_size self
         | _, _ => False
         end
       ∧ (∃ nki nri,
            Manifest.new_kernel_info m = Some nki
            ∧ size nki = Some (new_kernel_fs_size self') ∧ is_Some (hash nki)
            ∧ Manifest.new_rootfs_info m = Some nri
            ∧ size nri = Some (new_rootfs_fs_size self') ∧ is_Some (hash nri))
       ∧ (kernel_part_size ≠ 0 → new_kernel_fs_size self' ≤ kernel_part_size)
       ∧ (rootfs_part_size ≠ 0 → new_rootfs_fs_size self' ≤ rootfs_part_size)
       ∧ (Manifest.install_operations m ≠ []
          ∨ Manifest.kernel_install_operations m ≠ [])
       ∧ payload self' = payload self ∧ block_size self' = block_size self
       ∧ allow_unhashed self' = allow_unhashed self
       ∧ check_dst_pseudo_extents self' = check_dst_pseudo_extents self
       ∧ check_move_same_src_dst_block self' = check_move_same_src_dst_block self
       ∧ check_payload_sig self' = check_payload_sig self).
Proof.
  intros H self report rootfs_part_size kernel_part_size.
  eexists _, _. split; [vm_compute; reflexivity|].
  eapply (X5_CheckManifest_exported_state self report rootfs_part_size
            kernel_part_size Report_init).
  vm_compute. reflexivity.
Defined.

(** X6 at two overlapping extents on a partition of two blocks. *)
Lemma X6_witness :
  let H := toy_externals in
  let self := delta_checker in
  let extents := [extent 0 2; extent 1 1] in
  let counters := [0; 0] in
  ∃ res r',
    _CheckExtents self extents 8192 (Some counters) "src_extents" false false
      Report_init = (Ok res, r')
    ∧ (∃ counters',
         res.2 = Some counters' ∧ length counters' = length counters
         ∧ ∀ i : nat,
             counters' !! i
             = (fun c => c + coverage extents (Z.of_nat i)) <$> counters !! i).
Proof.
  intros H self extents counters.
  eexists _, _. split; [vm_compute; reflexivity|].
  eapply (X6_CheckExtents_counts_block_usage self extents 8192 counters
            "src_extents" false false Report_init).
  - repeat constructor; vm_compute; congruence.
  - vm_compute. reflexivity.
Defined.

(** X7 at a source extent of a full payload, which has no counters of
    the old partition. *)
Lemma X7_witness :
  let H := toy_externals in
  let self := new_checker full_payload in
  let extents := [extent 0 1] in
  let usable_size := 0 in
  let name := "install_operations[0].src_extents" in
  let allow_pseudo := true in
  let allow_signature := false in
  let r := Report_init in
  (∀ res r',
     _CheckExtents self extents usable_size None name allow_pseudo
       allow_signature r = (Ok res, r') →
     res.2 = None
     ∧ Forall (fun ex => start_block ex = Some PSEUDO_EXTENT_MARKER) extents)
  ∧ (∀ ex,
       extents = [ex] → 0 < getattr_Z (num_blocks ex) →
       is_Some (start_block ex) → is_Some (num_blocks ex) →
       getattr_Z (start_block ex) ≠ PSEUDO_EXTENT_MARKER →
       (usable_size = 0
        ∨ (getattr_Z (start_block ex) + getattr_Z (num_blocks ex))
          * block_size self ≤ usable_size) →
       ∃ e,
         _CheckExtents self extents usable_size None name allow_pseudo
           allow_signature r = (Raise e, r)
         ∧ is_PayloadError e = false).
Proof.
  intros H self extents usable_size name allow_pseudo allow_signature r.
  apply (X7_CheckExtents_without_counters self extents usable_size name
           allow_pseudo allow_signature r).
  repeat constructor; vm_compute; congruence.
Defined.

(** X8 at a block whose counter is full. *)
Lemma X8_witness :
  let H := toy_externals in
  let self := delta_checker in
  let extents := [extent 0 1] in
  let counters := [255; 0] in
  ∃ e,
    (_CheckExtents self extents 8192 (Some counters) "dst_extents" false false
       Report_init).1 = Raise e
    ∧ (is_PayloadError e = true ∨ e = OverflowError).
Proof.
  intros H self extents counters.
  eexists. split; [vm_compute; reflexivity|].
  eapply (X8_CheckExtents_on_allocated_counters self extents 8192 [0; 0]
            counters "dst_extents" false false Report_init).
  - reflexivity.
  - discriminate.
  - vm_compute. reflexivity.
  - reflexivity.
  - repeat constructor; vm_compute; congruence.
  - vm_compute. reflexivity.
Defined.

(** X9 at a move whose blocks stay where they are. *)
Lemma X9_witness :
  let H := toy_externals in
  let self := delta_checker in
  let operations := [move_op [extent 0 2] [extent 0 2]] in
  ∃ st0 e,
    _CheckOperations_init self 8192 8192 false = Ok st0
    ∧ (_CheckOperations_loop self
         (ObjNameIter operations "install_operations")
         (Z.of_nat (length operations)) 8192 8192 0 false st0
         Report_init).1 = Raise e
    ∧ (is_PayloadError e = true ∨ e = OverflowError
       ∨ ∃ p offset length, ReadDataBlob p offset length = Raise e).
Proof.
  intros H self operations.
  eexists _, _. split; [vm_compute; reflexivity|].
  split; [vm_compute; reflexivity|].
  eapply (X9_operations_loop_exceptions self operations "install_operations"
            8192 8192 0 false _ Report_init).
  - reflexivity.
  - discriminate.
  - discriminate.
  - repeat constructor; vm_compute; congruence.
  - vm_compute. reflexivity.
  - vm_compute. reflexivity.
Defined.

(** X10 at a compressed replacement of two blocks by 100 bytes. *)
Lemma X10_witness :
  let H := toy_externals in
  let self := delta_checker in
  let op := replace_bz_op in
  let op_name := "install_operations[0]" in
  let is_last := true in
  let old_block_counters : option (list Z) := None in
  let new_block_counters := Some [0; 0] in
  let old_fs_size := 0 in
  let new_usable_size := 8192 in
  let prev_data_offset := 0 in
  let allow_signature := false in
  let blob_hash_counts : gmap string Z := {["hashed" := 0]} in
  ∃ res r',
    _CheckOperation self op op_name is_last old_block_counters
      new_block_counters old_fs_size new_usable_size prev_data_offset
      allow_signature blob_hash_counts Report_init = (Ok res, r')
    ∧ ((type op = REPLACE_BZ → src_extents op = [])
       ∧ ∃ offset length,
           data_offset op = Some offset ∧ data_length op = Some length
           ∧ length < total_blocks (dst_extents op) * block_size self).
Proof.
  intros H self op
    op_name is_last old_block_counters new_block_counters
    old_fs_size new_usable_size prev_data_offset allow_signature
    blob_hash_counts.
  eexists _, _. split; [vm_compute; reflexivity|].
  eapply (X10_compressed_data_is_shorter_than_dst self op
            op_name is_last old_block_counters new_block_counters
            old_fs_size new_usable_size prev_data_offset allow_signature
            blob_hash_counts Report_init).
  - by left.
  - vm_compute. reflexivity.
Defined.

(** X11 at the first operation of the minimal full payload. *)
Lemma X11_witness :
  let H := toy_externals in
  let self := set_payload_type _TYPE_FULL (new_checker full_payload) in
  let op := replace_op [] [extent 0 2] 0 8192 in
  let op_name := "install_operations[0]" in
  let is_last := true in
  let old_block_counters : option (list Z) := None in
  let new_block_counters := Some [0; 0] in
  let old_fs_size := 0 in
  let new_usable_size := 8192 in
  let prev_data_offset := 0 in
  let allow_signature := false in
  let blob_hash_counts : gmap string Z := {["hashed" := 0]} in
  ∃ res r',
    _CheckOperation self op op_name is_last old_block_counters
      new_block_counters old_fs_size new_usable_size prev_data_offset
      allow_signature blob_hash_counts Report_init = (Ok res, r')
    ∧ ((type op = REPLACE ∨ type op = REPLACE_BZ)
       ∧ src_extents op = []
       ∧ is_Some (data_offset op) ∧ is_Some (data_length op)).
Proof.
  intros H self op
    op_name is_last old_block_counters new_block_counters
    old_fs_size new_usable_size prev_data_offset allow_signature
    blob_hash_counts.
  eexists _, _. split; [vm_compute; reflexivity|].
  eapply (X11_full_payload_has_replace_operations_only self op
            op_name is_last old_block_counters new_block_counters
            old_fs_size new_usable_size prev_data_offset allow_signature
            blob_hash_counts Report_init).
  - reflexivity.
  - vm_compute. reflexivity.
Defined.

(** X12 at the first operation of the minimal full payload, whose blob has
    the digest that the operation states. *)
Lemma X12_witness :
  let H := toy_externals in
  let self := new_checker full_payload in
  let op := replace_op [] [extent 0 2] 0 8192 in
  let op_name := "install_operations[0]" in
  let is_last := true in
  let old_block_counters : option (list Z) := None in
  let new_block_counters := Some [0; 0] in
  let old_fs_size := 0 in
  let new_usable_size := 8192 in
  let prev_data_offset := 0 in
  let allow_signature := false in
  let blob_hash_counts : gmap string Z := {["hashed" := 0]} in
  ∃ res r',
    _CheckOperation self op op_name is_last old_block_counters
      new_block_counters old_fs_size new_usable_size prev_data_offset
      allow_signature blob_hash_counts Report_init = (Ok res, r')
    ∧ ((∀ digest,
          data_sha256_hash op = Some digest →
          ∃ offset length blob,
            data_offset op = Some offset ∧ data_length op = Some length
            ∧ ReadDataBlob (payload self) offset length = Ok blob
            ∧ sha256 blob = digest)
       ∧ (data_sha256_hash op = None → is_Some (data_offset op) →
          (allow_signature = true ∧ is_last = true ∧ type op = REPLACE)
          ∨ allow_unhashed self = true)).
Proof.
  intros H self op
    op_name is_last old_block_counters new_block_counters
    old_fs_size new_usable_size prev_data_offset allow_signature
    blob_hash_counts.
  eexists _, _. split; [vm_compute; reflexivity|].
  eapply (X12_data_blob_is_hashed_or_allowed self op
            op_name is_last old_block_counters new_block_counters
            old_fs_size new_usable_size prev_data_offset allow_signature
            blob_hash_counts Report_init).
  - vm_compute. reflexivity.
Defined.

(** X13 at the first operation of the minimal full payload, which is
    counted as hashed. *)
Lemma X13_witness :
  let H := toy_externals in
  let self := new_checker full_payload in
  let op := replace_op [] [extent 0 2] 0 8192 in
  let op_name := "install_operations[0]" in
  let is_last := true in
  let old_block_counters : option (list Z) := None in
  let new_block_counters := Some [0; 0] in
  let old_fs_size := 0 in
  let new_usable_size := 8192 in
  let prev_data_offset := 0 in
  let allow_signature := false in
  let blob_hash_counts : gmap string Z := {["hashed" := 0]} in
  ∃ res r',
    _CheckOperation self op op_name is_last old_block_counters
      new_block_counters old_fs_size new_usable_size prev_data_offset
      allow_signature blob_hash_counts Report_init = (Ok res, r')
    ∧ (let key :=
         if data_sha256_hash op is Some _ then "hashed"
         else if allow_signature && is_last && bool_decide (type op = REPLACE)
              then "signature" else "unhashed" in
       match data_offset op with
       | None => res_blob_hash_counts res = blob_hash_counts
       | Some _ =>
           ∃ count, blob_hash_counts !! key = Some count
                    ∧ res_blob_hash_counts res
                      = <[key := count + 1]> blob_hash_counts
       end).
Proof.
  intros H self op
    op_name is_last old_block_counters new_block_counters
    old_fs_size new_usable_size prev_data_offset allow_signature
    blob_hash_counts.
  eexists _, _. split; [vm_compute; reflexivity|].
  eapply (X13_blob_hash_counts_bookkeeping self op
            op_name is_last old_block_counters new_block_counters
            old_fs_size new_usable_size prev_data_offset allow_signature
            blob_hash_counts Report_init).
  - vm_compute. reflexivity.
Defined.

(** X14 at the first operation of the minimal full payload. *)
Lemma X14_witness :
  let H := toy_externals in
  let self := new_checker full_payload in
  let op := replace_op [] [extent 0 2] 0 8192 in
  let op_name := "install_operations[0]" in
  let is_last := true in
  let old_block_counters : option (list Z) := None in
  let new_block_counters := Some [0; 0] in
  let old_fs_size := 0 in
  let new_usable_size := 8192 in
  let prev_data_offset := 0 in
  let allow_signature := false in
  let blob_hash_counts : gmap string Z := {["hashed" := 0]} in
  ∃ res r',
    _CheckOperation self op op_name is_last old_block_counters
      new_block_counters old_fs_size new_usable_size prev_data_offset
      allow_signature blob_hash_counts Report_init = (Ok res, r')
    ∧ (dst_extents op ≠ []
       ∧ (∀ length, src_length op = Some length →
            length ≠ 0
            ∧ (total_blocks (src_extents op) - 1) * block_size self < length
              ≤ total_blocks (src_extents op) * block_size self)
       ∧ (∀ length, dst_length op = Some length →
            length ≠ 0
            ∧ (total_blocks (dst_extents op) - 1) * block_size self < length
              ≤ total_blocks (dst_extents op) * block_size self)
       ∧ (∀ ex, ex ∈ dst_extents op →
            start_block ex = Some PSEUDO_EXTENT_MARKER →
            check_dst_pseudo_extents self = false
            ∨ (allow_signature = true ∧ is_last = true ∧ type op = REPLACE
               ∧ dst_extents op = [ex]))).
Proof.
  intros H self op
    op_name is_last old_block_counters new_block_counters
    old_fs_size new_usable_size prev_data_offset allow_signature
    blob_hash_counts.
  eexists _, _. split; [vm_compute; reflexivity|].
  eapply (X14_operation_extents_and_lengths self op
            op_name is_last old_block_counters new_block_counters
            old_fs_size new_usable_size prev_data_offset allow_signature
            blob_hash_counts Report_init).
  - vm_compute. reflexivity.
Defined.

(** X15 at a delta sequence of a compressed replacement and a move. *)
Lemma X15_witness :
  let H := toy_externals in
  let self := delta_checker in
  let operations := [replace_bz_op; move_op [extent 0 1] [extent 1 1]] in
  ∃ st0 st r',
    _CheckOperations_init self 8192 8192 false = Ok st0
    ∧ _CheckOperations_loop self
        (ObjNameIter operations "install_operations")
        (Z.of_nat (length operations)) 8192 8192 0 false st0 Report_init
      = (Ok st, r')
    ∧ (Forall (fun op => type op ∈ [REPLACE; REPLACE_BZ; MOVE; BSDIFF]) operations
       ∧ op_num st = Z.of_nat (length operations)
       ∧ (∀ t, t ∈ [REPLACE; REPLACE_BZ; MOVE; BSDIFF] →
               op_counts st !! t
               = Some (Z.of_nat (length (ops_of_type t operations))))
       ∧ (∀ t, t ∈ [REPLACE; REPLACE_BZ; BSDIFF] →
               op_blob_totals st !! t
               = Some (sum_data_length (ops_of_type t operations)))
       ∧ op_blob_totals st !! MOVE = None).
Proof.
  intros H self operations.
  eexists _, _, _. split; [vm_compute; reflexivity|].
  split; [vm_compute; reflexivity|].
  eapply (X15_operation_statistics_are_exact self operations
            "install_operations" 8192 8192 0 false _ _ Report_init).
  - vm_compute. reflexivity.
  - vm_compute. reflexivity.
Defined.

(** X16 at the signed payload. *)
Lemma X16_witness :
  let H := signing_externals in
  let self := signed_checker in
  let pubkey_file_name := "key.pem" in
  ∃ r',
    _CheckSignatures self [] pubkey_file_name Report_init = (Ok tt, r')
    ∧ (let manifest := Payload.manifest (payload self) in
       ∃ so ss sigs_raw sigs fake_sig_op data,
         sigs_offset self = Some so ∧ sigs_size self = Some ss
         ∧ ReadDataBlob (payload self) so ss = Ok sigs_raw
         ∧ ParseSignatures sigs_raw = Ok sigs ∧ sigs ≠ []
         ∧ last (if bool_decide (Manifest.kernel_install_operations manifest = [])
                 then Manifest.install_operations manifest
                 else Manifest.kernel_install_operations manifest)
           = Some fake_sig_op
         ∧ type fake_sig_op = REPLACE
         ∧ getattr_Z (data_offset fake_sig_op) = so
         ∧ getattr_Z (data_length fake_sig_op) = ss
         ∧ Read (Payload.payload_file (payload self)) so
             (Payload.data_offset (payload self)) = Ok data
         ∧ Forall (fun sig =>
                     Signature.version sig = Some 1
                     ∧ ∃ sig_data sig_name,
                         Signature.data sig = Some sig_data
                         ∧ _CheckSha256Signature sig_data pubkey_file_name
                             (sha256 (Payload.manifest_hasher (payload self)
                                      +:+ data)) sig_name = Ok tt) sigs).
Proof.
  intros H self pubkey_file_name.
  eexists. split; [vm_compute; reflexivity|].
  eapply (X16_accepted_payload_signatures self [] pubkey_file_name
            Report_init).
  vm_compute. reflexivity.
Defined.

(** X17 at the signed payload, run with a public key and a metadata
    signature. *)
Lemma X17_witness :
  let H := signing_externals in
  let self := new_checker signed_payload in
  let pubkey_file_name := Some "key.pem" in
  let metadata_sig_file := Some (spaces 256) in
  (Run self pubkey_file_name metadata_sig_file 0 0 false).1 = Ok tt
  ∧ (Header.version (Payload.header (payload self)) = 1
     ∧ (∀ content,
          metadata_sig_file = Some content →
          ∃ key sig,
            pubkey_file_name = Some key ∧ key ≠ EmptyString
            ∧ b64decode content = Ok sig
            ∧ _CheckSha256Signature sig key
                (sha256 (Payload.manifest_hasher (payload self)))
                "metadata signature" = Ok tt)
     ∧ (check_payload_sig self = true →
        truthy_Z (Manifest.signatures_size (Payload.manifest (payload self)))
        = true →
        ∃ key self' r1 r2,
          pubkey_file_name = Some key ∧ key ≠ EmptyString
          ∧ payload self' = payload self
          ∧ sigs_offset self'
            = Manifest.signatures_offset (Payload.manifest (payload self))
          ∧ sigs_size self'
            = Manifest.signatures_size (Payload.manifest (payload self))
          ∧ _CheckSignatures self' [] key r1 = (Ok tt, r2))).
Proof.
  intros H self pubkey_file_name metadata_sig_file.
  split; [vm_compute; reflexivity|].
  eapply (X17_accepted_run_has_verified_signatures self pubkey_file_name
            metadata_sig_file 0 0 false).
  vm_compute. reflexivity.
Defined.

(** X18 at a report with one section and one field. *)
Lemma X18_witness :
  let r :=
    mkReport [SectionNode (Some "header") 7;
              FieldNode (Some "version") "1" false 0] 0 false in
  names_fit (report_nodes r) (global_len r)
  ∧ ((∀ name value linebreak indent r',
        AddField name value linebreak indent r = Ok r' →
        names_fit (report_nodes r') (global_len r')
        ∧ last_section_len (report_nodes r') (global_len r')
          = if truthy_str name
            then Z.max (last_section_len (report_nodes r) (global_len r))
                       (Z.of_nat (String.length (default EmptyString name)))
            else last_section_len (report_nodes r) (global_len r))
     ∧ (∀ title r',
          AddSection title r = Ok r' →
          names_fit (report_nodes r') (global_len r')
          ∧ last_section_len (report_nodes r') (global_len r') = 0)
     ∧ (∀ title i r',
          AddSubReport title r = Ok (i, r') →
          names_fit (report_nodes r') (global_len r')
          ∧ report_nodes r' !! i = Some (SubReportNode title Report_init)
          ∧ last_section_len (report_nodes r') (global_len r')
            = last_section_len (report_nodes r) (global_len r))).
Proof.
  intros r.
  assert (names_fit (report_nodes r) (global_len r)) as Hfit
    by (simpl; split; [intros _; vm_compute; congruence | exact I]).
  split; [exact Hfit|].
  exact (X18_field_names_fit_their_section r Hfit).
Defined.

(** X20 at the move that swaps two blocks. *)
Lemma X20_witness :
  let self := delta_checker in
  let op := swap_op in
  let data_offset : option Z := None in
  let op_name := "install_operations[0]" in
  _CheckMoveOperation self op data_offset (total_blocks (src_extents op))
    (total_blocks (dst_extents op)) op_name = Ok tt
  ↔ data_offset = None
    ∧ total_blocks (src_extents op) = total_blocks (dst_extents op)
    ∧ (check_move_same_src_dst_block self = true →
       ∀ i, 0 ≤ i < total_blocks (src_extents op) →
         ∃ a b, nth_block (src_extents op) i = Some a
                ∧ nth_block (dst_extents op) i = Some b ∧ a ≠ b).
Proof.
  intros self op data_offset op_name.
  apply (X20_CheckMoveOperation_decides self op data_offset op_name).
  - repeat constructor.
  - repeat constructor.
Defined.

(** X21 at a manifest without a block size, and at a report that is
    sealed. *)
Lemma X21_witness :
  let H := toy_externals in
  let self :=
    new_checker
      (payload_of
         {| Manifest.block_size := None;
            Manifest.signatures_offset := None;
            Manifest.signatures_size := None;
            Manifest.old_kernel_info := None;
            Manifest.old_rootfs_info := None;
            Manifest.new_kernel_info := None;
            Manifest.new_rootfs_info := None;
            Manifest.install_operations := [];
            Manifest.kernel_install_operations := [] |} 120) in
  ∃ e,
    (_CheckManifest self [] 0 0 Report_init).1 = Raise e
    ∧ (is_PayloadError e = true ∨ e = AssertionError).
Proof.
  intros H self.
  eexists. split; [vm_compute; reflexivity|].
  eapply (X21_CheckManifest_exceptions self [] 0 0 Report_init).
  vm_compute. reflexivity.
Defined.
